(** * AURA16: a 16-bit MIPS-like pipeline simulator and its assembler

    A shallow embedding of [simulator/assembler.py] and [simulator/cpu.py].
    Python integers are [Z]; Python [str] is [string], read as a sequence of
    ASCII characters (the case mappings, the white space class and the digit
    class are the ASCII ones); dictionaries with dynamic keys are [gmap]s,
    the two "seen" sets are [gset]s, the constant tables are association
    lists in their source order. *)

From Stdlib Require Import ZArith String Ascii List Bool Lia DecimalString DecimalPos.
From stdpp Require Import base option list gmap strings.

Local Open Scope string_scope.
Local Open Scope Z_scope.

(** ** The parts of the Python runtime the program relies on *)

Module Py.

(** White space as [str.strip], [str.split] and the regular expression
    class [\s] see it, on ASCII: TAB..CR, FS..US and the space. *)
Definition code_point (c : ascii) : Z := Z.of_N (N_of_ascii c).

Definition isspace (c : ascii) : bool :=
  let n := code_point c in
  ((9 <=? n) && (n <=? 13)) || ((28 <=? n) && (n <=? 32)).

(** White space as [int] skips it around an ASCII literal: TAB..CR and
    the space; FS..US are not skipped. *)
Definition isspace_int (c : ascii) : bool :=
  let n := code_point c in
  ((9 <=? n) && (n <=? 13)) || (n =? 32).

Definition isdigit_char (c : ascii) : bool :=
  let n := code_point c in (48 <=? n) && (n <=? 57).

Definition chr (n : Z) : ascii := ascii_of_N (Z.to_N n).

Definition lower_char (c : ascii) : ascii :=
  let n := code_point c in
  if (65 <=? n) && (n <=? 90) then chr (n + 32) else c.

Definition upper_char (c : ascii) : ascii :=
  let n := code_point c in
  if (97 <=? n) && (n <=? 122) then chr (n - 32) else c.

Fixpoint smap (f : ascii -> ascii) (s : string) : string :=
  match s with
  | EmptyString => EmptyString
  | String c r => String (f c) (smap f r)
  end.

Definition lower : string -> string := smap lower_char.
Definition upper : string -> string := smap upper_char.

Fixpoint srev_onto (s acc : string) : string :=
  match s with
  | EmptyString => acc
  | String c r => srev_onto r (String c acc)
  end.

Definition srev (s : string) : string := srev_onto s EmptyString.

Fixpoint drop_while (p : ascii -> bool) (s : string) : string :=
  match s with
  | EmptyString => EmptyString
  | String c r => if p c then drop_while p r else s
  end.

Fixpoint take_while (p : ascii -> bool) (s : string) : string :=
  match s with
  | EmptyString => EmptyString
  | String c r => if p c then String c (take_while p r) else EmptyString
  end.

Definition lstrip : string -> string := drop_while isspace.
Definition rstrip (s : string) : string := srev (lstrip (srev s)).
Definition strip (s : string) : string := rstrip (lstrip s).

(** [s.lstrip(c)] for a one-character argument. *)
Definition lstrip_char (c : ascii) : string -> string :=
  drop_while (fun d => if ascii_dec d c then true else false).

(** [s.isdigit()]: non-empty and made of digits only. *)
Fixpoint all_digits (s : string) : bool :=
  match s with
  | EmptyString => true
  | String c r => isdigit_char c && all_digits r
  end.

Definition isdigit (s : string) : bool :=
  match s with
  | EmptyString => false
  | _ => all_digits s
  end.

Definition startswith (p s : string) : bool := String.prefix p s.

(** [x is not None]; also the truth value of an optional dictionary that
    is never empty. *)
Definition not_none {A} (o : option A) : bool :=
  match o with
  | Some _ => true
  | None => false
  end.

(** Truth value of a string: the empty string is false. *)
Definition truthy (s : string) : bool :=
  match s with
  | EmptyString => false
  | _ => true
  end.

(** [s[:s.index(c)]] when [c in s], and [s] itself otherwise. *)
Fixpoint before_char (c : ascii) (s : string) : string :=
  match s with
  | EmptyString => EmptyString
  | String d r => if ascii_dec d c then EmptyString else String d (before_char c r)
  end.

(** [s[:s.index(p)]] when [p in s], and [s] itself otherwise. *)
Fixpoint before_sub (p s : string) : string :=
  match s with
  | EmptyString => EmptyString
  | String d r => if String.prefix p s then EmptyString else String d (before_sub p r)
  end.

(** [s.split(c, 1)] when [c in s]: the text before and after the first [c]. *)
Fixpoint split_once (c : ascii) (s : string) : option (string * string) :=
  match s with
  | EmptyString => None
  | String d r =>
      if ascii_dec d c then Some (EmptyString, r)
      else match split_once c r with
           | Some (a, b) => Some (String d a, b)
           | None => None
           end
  end.

(** [s.split(c)]: every piece between occurrences of [c], empty ones kept. *)
Fixpoint split_char (c : ascii) (s : string) : list string :=
  match s with
  | EmptyString => [EmptyString]
  | String d r =>
      match split_char c r with
      | piece :: rest =>
          if ascii_dec d c then EmptyString :: piece :: rest
          else String d piece :: rest
      | [] => [EmptyString]
      end
  end.

(** [s.split(None, 1)]: the first white-space delimited word and, when
    something follows it, the remainder without its leading white space. *)
Definition split_ws_once (s : string) : list string :=
  let s0 := lstrip s in
  match s0 with
  | EmptyString => []
  | _ =>
      let w := take_while (fun c => negb (isspace c)) s0 in
      let r := lstrip (drop_while (fun c => negb (isspace c)) s0) in
      match r with
      | EmptyString => [w]
      | _ => [w; r]
      end
  end.

(** The value of a character as a digit, as [int] reads it in any base. *)
Definition digit_value (c : ascii) : option Z :=
  let n := code_point c in
  if (48 <=? n) && (n <=? 57) then Some (n - 48)
  else if (97 <=? n) && (n <=? 122) then Some (n - 87)
  else if (65 <=? n) && (n <=? 90) then Some (n - 55)
  else None.

(** The digits of an integer literal: single underscores may separate
    digits; the scan stops at the first character that is neither. *)
Fixpoint scan_digits (base : Z) (s : string) (prev_us : bool) (acc : Z)
  : option (Z * string) :=
  match s with
  | EmptyString => if prev_us then None else Some (acc, EmptyString)
  | String c r =>
      if ascii_dec c "_" then
        if prev_us then None else scan_digits base r true acc
      else
        match digit_value c with
        | Some d =>
            if d <? base then scan_digits base r false (acc * base + d)
            else if prev_us then None else Some (acc, s)
        | None => if prev_us then None else Some (acc, s)
        end
  end.

Definition is_digit_of (base : Z) (c : ascii) : bool :=
  match digit_value c with
  | Some d => d <? base
  | None => false
  end.

(** [int(s, base)] for [base] 10 or 16; [None] is [ValueError]. The
    limit that CPython puts on the length of a literal in base 10 (4300
    digits by default) is not part of the definition. *)
Definition int_base (base : Z) (s : string) : option Z :=
  let s1 := drop_while isspace_int s in
  let '(sign, s2) :=
    match s1 with
    | String "+" r => (1, r)
    | String "-" r => (-1, r)
    | _ => (1, s1)
    end in
  let s3 :=
    match s2 with
    | String "0" (String x r) =>
        if (base =? 16) && (if ascii_dec x "x" then true else if ascii_dec x "X" then true else false)
        then match r with
             | String "_" r' => r'
             | _ => r
             end
        else s2
    | _ => s2
    end in
  match s3 with
  | String c _ =>
      if is_digit_of base c then
        match scan_digits base s3 false 0 with
        | Some (v, rest) =>
            match drop_while isspace_int rest with
            | EmptyString => Some (sign * v)
            | _ => None
            end
        | None => None
        end
      else None
  | EmptyString => None
  end.

Definition int10 : string -> option Z := int_base 10.
Definition int16 : string -> option Z := int_base 16.

(** [str(n)] for an integer. *)
Definition str (n : Z) : string :=
  match n with
  | Z0 => "0"
  | Zpos p => NilEmpty.string_of_uint (Pos.to_uint p)
  | Zneg p => String "-" (NilEmpty.string_of_uint (Pos.to_uint p))
  end.

Definition hex_digit (d : Z) : ascii :=
  if d <? 10 then chr (48 + d) else chr (55 + d).

Fixpoint hex_of_pos (fuel : nat) (n : Z) (acc : string) : string :=
  match fuel with
  | O => acc
  | S f =>
      let acc' := String (hex_digit (n mod 16)) acc in
      if n / 16 =? 0 then acc' else hex_of_pos f (n / 16) acc'
  end.

Fixpoint zero_pad (k : nat) (s : string) : string :=
  match k with
  | O => s
  | S k' => String "0" (zero_pad k' s)
  end.

(** [format(n, '04X')]: upper-case hexadecimal, zero-padded to a width of
    four characters, the sign counting in the width. *)
Definition format_04X (n : Z) : string :=
  let digits := hex_of_pos (S (Z.to_nat (Z.log2 (Z.abs n)))) (Z.abs n) EmptyString in
  if n <? 0
  then String "-" (zero_pad (3 - String.length digits) digits)
  else zero_pad (4 - String.length digits) digits.

(** [l[i]] for a list: a negative index counts from the end, an index out
    of range raises [IndexError] ([None]). *)
Definition index {A} (l : list A) (i : Z) : option A :=
  let n := Z.of_nat (length l) in
  if (0 <=? i) && (i <? n) then l !! Z.to_nat i
  else if (- n <=? i) && (i <? 0) then l !! Z.to_nat (n + i)
  else None.

(** [l[i] = x], with the same indexing rules. *)
Definition setitem {A} (l : list A) (i : Z) (x : A) : option (list A) :=
  let n := Z.of_nat (length l) in
  if (0 <=? i) && (i <? n) then Some (<[Z.to_nat i := x]> l)
  else if (- n <=? i) && (i <? 0) then Some (<[Z.to_nat (n + i) := x]> l)
  else None.

(** [d.get(k)] and [k in d] on a dictionary literal kept in source order. *)
Fixpoint assoc {K V} `{EqDecision K} (d : list (K * V)) (k : K) : option V :=
  match d with
  | [] => None
  | (k', v) :: r => if decide (k = k') then Some v else assoc r k
  end.

(** [{v: k for k, v in d.items()}]: later entries win, as in the source. *)
Definition invert {K V} (d : list (K * V)) : list (V * K) :=
  rev (map (fun kv => (snd kv, fst kv)) d).

End Py.

(** ** The assembler ([simulator/assembler.py]) *)

Module Assembler.

(** What a call can raise: [AssemblerError], with the line number it was
    given, or the [ValueError] of a failed [int] conversion. *)
Inductive exn : Type :=
  | AssemblerError (message : string) (line_num : Z)
  | ValueError (literal : string) (base : Z).

Inductive res (A : Type) : Type :=
  | Ok (a : A)
  | Raise (e : exn).
Arguments Ok {A} a.
Arguments Raise {A} e.

#[global] Instance res_bind : MBind res := fun A B k m =>
  match m with
  | Ok a => k a
  | Raise e => Raise e
  end.

(** [str(e)] for the two kinds of exception. *)
Definition exn_text (e : exn) : string :=
  match e with
  | AssemblerError m l => "Line " +:+ Py.str l +:+ ": " +:+ m
  | ValueError lit b =>
      "invalid literal for int() with base " +:+ Py.str b +:+ ": '" +:+ lit +:+ "'"
  end.

Definition REGISTERS : list (string * Z) :=
  [("$r0", 0); ("$r1", 1); ("$r2", 2); ("$r3", 3);
   ("$r4", 4); ("$r5", 5); ("$r6", 6); ("$r7", 7);
   ("r0", 0); ("r1", 1); ("r2", 2); ("r3", 3);
   ("r4", 4); ("r5", 5); ("r6", 6); ("r7", 7)].

Definition R_TYPE_FUNCT : list (string * Z) :=
  [("ADD", 0); ("SUB", 1); ("AND", 2); ("OR", 3); ("SLT", 4); ("JR", 5)].

Definition I_TYPE_OPCODES : list (string * Z) :=
  [("LW", 1); ("SW", 2); ("ADDI", 3); ("SUBI", 4);
   ("SLTI", 5); ("BEQ", 6); ("BNQ", 7); ("ANDI", 8)].

Definition J_TYPE_OPCODES : list (string * Z) :=
  [("JUMP", 9); ("JAL", 10)].

Definition parse_register (reg_str : string) (line_num : Z) : res Z :=
  let reg_str := Py.lower (Py.strip reg_str) in
  match Py.assoc REGISTERS reg_str with
  | Some n => Ok n
  | None => Raise (AssemblerError ("Invalid register: " +:+ reg_str) line_num)
  end.

(** [parse_immediate] with an explicit field width; the source's default
    is six bits. The three branches of the conversion are kept: the second
    and the third are the same call. *)
Definition parse_immediate_bits (imm_str : string) (line_num : Z) (bits : Z) : res Z :=
  let imm_str := Py.strip imm_str in
  let converted :=
    if Py.startswith "0x" imm_str || Py.startswith "0X" imm_str then Py.int16 imm_str
    else if Py.startswith "-" imm_str then Py.int10 imm_str
    else Py.int10 imm_str in
  match converted with
  | None => Raise (AssemblerError ("Invalid immediate value: " +:+ imm_str) line_num)
  | Some value =>
      let max_val := Z.shiftl 1 (bits - 1) - 1 in
      let min_val := - Z.shiftl 1 (bits - 1) in
      if (value <? min_val) || (value >? max_val) then
        Raise (AssemblerError
                 ("Immediate value " +:+ Py.str value +:+ " out of range ["
                  +:+ Py.str min_val +:+ ", " +:+ Py.str max_val +:+ "]") line_num)
      else
        let value := if value <? 0 then Z.shiftl 1 bits + value else value in
        Ok (Z.land value (Z.shiftl 1 bits - 1))
  end.

Definition parse_immediate (imm_str : string) (line_num : Z) : res Z :=
  parse_immediate_bits imm_str line_num 6.

Definition encode_r_type (rs rt rd funct : Z) : Z :=
  let opcode := 0 in
  Z.lor (Z.lor (Z.lor (Z.lor (Z.shiftl opcode 12) (Z.shiftl rs 9)) (Z.shiftl rt 6))
               (Z.shiftl rd 3)) funct.

Definition encode_i_type (opcode rs rt imm : Z) : Z :=
  Z.lor (Z.lor (Z.lor (Z.shiftl opcode 12) (Z.shiftl rs 9)) (Z.shiftl rt 6))
        (Z.land imm 63).

Definition encode_j_type (opcode address : Z) : Z :=
  Z.lor (Z.shiftl opcode 12) (Z.land address 4095).

(** [tokenize_line]: the label, the mnemonic and the operands of a line. *)
Definition tokenize_line (line : string) : option string * option string * list string :=
  let line := Py.before_char "#" line in
  let line := Py.before_sub "//" line in
  let line := Py.strip line in
  if negb (Py.truthy line) then (None, None, [])
  else
    let '(label, line) :=
      match Py.split_once ":" line with
      | Some (a, b) => (Some (Py.strip a), Py.strip b)
      | None => (None, line)
      end in
    if negb (Py.truthy line) then (label, None, [])
    else
      match Py.split_ws_once line with
      | [w] => (label, Some (Py.upper w), [])
      | [w; r] => (label, Some (Py.upper w), map Py.strip (Py.split_char "," r))
      | _ => (label, None, [])
      end.

(** The groups 1 and 2 of
    [re.match(r'(-?\d+)\s*\(\s*(\$?r\d)\s*\)', s, re.IGNORECASE)]:
    every quantifier of the pattern is followed by a character outside its
    own class, so the greedy match is the only one. *)
Definition match_memory_operand (s : string) : option (string * string) :=
  let '(minus, s1) :=
    match s with
    | String "-" r => ("-", r)
    | _ => ("", s)
    end in
  let digits := Py.take_while Py.isdigit_char s1 in
  if negb (Py.truthy digits) then None
  else
    match Py.lstrip (Py.drop_while Py.isdigit_char s1) with
    | String "(" s2 =>
        let s3 := Py.lstrip s2 in
        let '(dollar, s4) :=
          match s3 with
          | String "$" r => ("$", r)
          | _ => ("", s3)
          end in
        match s4 with
        | String c (String d s5) =>
            if (if ascii_dec (Py.lower_char c) "r" then true else false) && Py.isdigit_char d then
              match Py.lstrip s5 with
              | String ")" _ => Some (minus +:+ digits, dollar +:+ String c (String d ""))
              | _ => None
              end
            else None
        | _ => None
        end
    | _ => None
    end.

Definition len {A} (l : list A) : Z := Z.of_nat (length l).

Definition encode_instruction (instruction : string) (operands : list string)
    (labels : gmap string Z) (current_addr line_num : Z) : res Z :=
  match Py.assoc R_TYPE_FUNCT instruction with
  | Some funct =>
      if String.eqb instruction "JR" then
        match operands with
        | [o0] =>
            rs ← parse_register o0 line_num;
            Ok (encode_r_type rs 0 0 funct)
        | _ => Raise (AssemblerError
                        ("JR requires 1 operand, got " +:+ Py.str (len operands)) line_num)
        end
      else
        match operands with
        | [o0; o1; o2] =>
            rd ← parse_register o0 line_num;
            rs ← parse_register o1 line_num;
            rt ← parse_register o2 line_num;
            Ok (encode_r_type rs rt rd funct)
        | _ => Raise (AssemblerError
                        (instruction +:+ " requires 3 operands, got "
                         +:+ Py.str (len operands)) line_num)
        end
  | None =>
  match Py.assoc I_TYPE_OPCODES instruction with
  | Some opcode =>
      if String.eqb instruction "LW" || String.eqb instruction "SW" then
        match operands with
        | [o0; o1] =>
            rt ← parse_register o0 line_num;
            match match_memory_operand o1 with
            | Some (g1, g2) =>
                imm ← parse_immediate g1 line_num;
                rs ← parse_register g2 line_num;
                Ok (encode_i_type opcode rs rt imm)
            | None => Raise (AssemblerError
                               ("Invalid memory operand format: " +:+ o1) line_num)
            end
        | [o0; o1; o2] =>
            rt ← parse_register o0 line_num;
            rs ← parse_register o1 line_num;
            imm ← parse_immediate o2 line_num;
            Ok (encode_i_type opcode rs rt imm)
        | _ => Raise (AssemblerError (instruction +:+ " requires 2-3 operands") line_num)
        end
      else if String.eqb instruction "BEQ" || String.eqb instruction "BNQ" then
        match operands with
        | [o0; o1; o2] =>
            rs ← parse_register o0 line_num;
            rt ← parse_register o1 line_num;
            let target := Py.strip o2 in
            offset ←
              match labels !! target with
              | Some a => Ok (a - (current_addr + 1))
              | None =>
                  if Py.isdigit (Py.lstrip_char "-" target) then
                    match Py.int10 target with
                    | Some v => Ok v
                    | None => Raise (ValueError target 10)
                    end
                  else if Py.startswith "0x" target then
                    match Py.int16 target with
                    | Some v => Ok v
                    | None => Raise (ValueError target 16)
                    end
                  else Ok 0
              end;
            imm ← parse_immediate (Py.str offset) line_num;
            Ok (encode_i_type opcode rs rt imm)
        | _ => Raise (AssemblerError (instruction +:+ " requires 3 operands") line_num)
        end
      else
        match operands with
        | [o0; o1; o2] =>
            rt ← parse_register o0 line_num;
            rs ← parse_register o1 line_num;
            imm ← parse_immediate o2 line_num;
            Ok (encode_i_type opcode rs rt imm)
        | _ => Raise (AssemblerError (instruction +:+ " requires 3 operands") line_num)
        end
  | None =>
  match Py.assoc J_TYPE_OPCODES instruction with
  | Some opcode =>
      match operands with
      | [o0] =>
          let target := Py.strip o0 in
          address ←
            match labels !! target with
            | Some a => Ok a
            | None =>
                let converted :=
                  if Py.startswith "0x" target || Py.startswith "0X" target
                  then Py.int16 target else Py.int10 target in
                match converted with
                | Some v => Ok v
                | None => Raise (AssemblerError
                                   ("Undefined label or invalid address: " +:+ target)
                                   line_num)
                end
            end;
          if (address <? 0) || (address >? 4095) then
            Raise (AssemblerError
                     ("Jump address " +:+ Py.str address +:+ " out of range [0, 4095]")
                     line_num)
          else Ok (encode_j_type opcode address)
      | _ => Raise (AssemblerError (instruction +:+ " requires 1 operand") line_num)
      end
  | None => Raise (AssemblerError ("Unknown instruction: " +:+ instruction) line_num)
  end end end.

(** First pass of [assemble]: labels and the instructions with their
    addresses, over the lines numbered from [line_num]. *)
Fixpoint first_pass (lines : list string) (line_num current_addr : Z)
    (labels : gmap string Z) (instructions : list (Z * Z * string * list string))
  : res (gmap string Z * list (Z * Z * string * list string)) :=
  match lines with
  | [] => Ok (labels, instructions)
  | line :: rest =>
      let '(label, instruction, operands) := tokenize_line line in
      labels' ←
        match label with
        | Some l =>
            if Py.truthy l then
              match labels !! l with
              | Some _ => Raise (AssemblerError ("Duplicate label: " +:+ l) line_num)
              | None => Ok (<[l := current_addr]> labels)
              end
            else Ok labels
        | None => Ok labels
        end;
      match instruction with
      | Some i =>
          if Py.truthy i then
            first_pass rest (line_num + 1) (current_addr + 1) labels'
                       (instructions ++ [(current_addr, line_num, i, operands)])
          else first_pass rest (line_num + 1) current_addr labels' instructions
      | None => first_pass rest (line_num + 1) current_addr labels' instructions
      end
  end.

(** Second pass: one hex word per instruction; an exception that is not
    an [AssemblerError] is wrapped into one with the line number. *)
Fixpoint second_pass (lines : list string) (labels : gmap string Z)
    (instructions : list (Z * Z * string * list string))
    (machine_codes : list string) (addr_to_source : gmap Z string)
  : res (list string * gmap Z string) :=
  match instructions with
  | [] => Ok (machine_codes, addr_to_source)
  | (addr, line_num, instruction, operands) :: rest =>
      match encode_instruction instruction operands labels addr line_num with
      | Ok machine_code =>
          let hex_code := Py.format_04X machine_code in
          match Py.index lines (line_num - 1) with
          | Some src =>
              second_pass lines labels rest (machine_codes ++ [hex_code])
                          (<[addr := Py.strip src]> addr_to_source)
          | None => Raise (AssemblerError "list index out of range" line_num)
          end
      | Raise (AssemblerError m l) => Raise (AssemblerError m l)
      | Raise e => Raise (AssemblerError (exn_text e) line_num)
      end
  end.

Definition assemble (code : string)
  : res (list string * gmap Z string * gmap string Z) :=
  let lines := Py.split_char (Py.chr 10) (Py.strip code) in
  '(labels, instructions) ← first_pass lines 1 0 ∅ [];
  '(machine_codes, addr_to_source) ← second_pass lines labels instructions [] ∅;
  Ok (machine_codes, addr_to_source, labels).

(** [disassemble]: a word given in hexadecimal, back to assembly text. *)
Definition disassemble (hex_code : string) : string :=
  match Py.int16 hex_code with
  | None => "???"
  | Some code =>
      let opcode := Z.land (Z.shiftr code 12) 15 in
      if opcode =? 0 then
        let rs := Z.land (Z.shiftr code 9) 7 in
        let rt := Z.land (Z.shiftr code 6) 7 in
        let rd := Z.land (Z.shiftr code 3) 7 in
        let funct := Z.land code 7 in
        let funct_to_instr := Py.invert R_TYPE_FUNCT in
        let instr := default "???" (Py.assoc funct_to_instr funct) in
        if String.eqb instr "JR" then "JR $r" +:+ Py.str rs
        else instr +:+ " $r" +:+ Py.str rd +:+ ", $r" +:+ Py.str rs +:+ ", $r" +:+ Py.str rt
      else if (opcode =? 9) || (opcode =? 10) then
        let address := Z.land code 4095 in
        let instr := if opcode =? 9 then "JUMP" else "JAL" in
        instr +:+ " " +:+ Py.str address
      else
        let rs := Z.land (Z.shiftr code 9) 7 in
        let rt := Z.land (Z.shiftr code 6) 7 in
        let imm := Z.land code 63 in
        let imm := if negb (Z.land imm 32 =? 0) then imm - 64 else imm in
        let opcode_to_instr := Py.invert I_TYPE_OPCODES in
        let instr := default "???" (Py.assoc opcode_to_instr opcode) in
        if String.eqb instr "LW" || String.eqb instr "SW" then
          instr +:+ " $r" +:+ Py.str rt +:+ ", " +:+ Py.str imm +:+ "($r" +:+ Py.str rs +:+ ")"
        else if String.eqb instr "BEQ" || String.eqb instr "BNQ" then
          instr +:+ " $r" +:+ Py.str rs +:+ ", $r" +:+ Py.str rt +:+ ", " +:+ Py.str imm
        else
          instr +:+ " $r" +:+ Py.str rt +:+ ", $r" +:+ Py.str rs +:+ ", " +:+ Py.str imm
  end.

End Assembler.

(** ** The pipeline latches and the per-cycle records ([simulator/cpu.py]) *)

(** The IF/ID latch. *)
Module IfId.
Record t : Type := mk {
  instruction : option string;
  pc : Z;
  valid : bool
}.
End IfId.

(** The ID/EX latch. *)
Module IdEx.
Record t : Type := mk {
  instruction : option string;
  pc : Z;
  opcode : Z;
  rs : Z;
  rt : Z;
  rd : Z;
  funct : Z;
  imm : Z;
  address : Z;
  rs_val : Z;
  rt_val : Z;
  reg_write : bool;
  mem_read : bool;
  mem_write : bool;
  mem_to_reg : bool;
  branch : bool;
  jump : bool;
  alu_op : string;
  valid : bool
}.

Definition set_rs (v : Z) (r : t) : t :=
  {| instruction := instruction r; pc := pc r; opcode := opcode r; rs := v; rt := rt r;
     rd := rd r; funct := funct r; imm := imm r; address := address r;
     rs_val := rs_val r; rt_val := rt_val r; reg_write := reg_write r;
     mem_read := mem_read r; mem_write := mem_write r; mem_to_reg := mem_to_reg r;
     branch := branch r; jump := jump r; alu_op := alu_op r; valid := valid r |}.

Definition set_rt (v : Z) (r : t) : t :=
  {| instruction := instruction r; pc := pc r; opcode := opcode r; rs := rs r; rt := v;
     rd := rd r; funct := funct r; imm := imm r; address := address r;
     rs_val := rs_val r; rt_val := rt_val r; reg_write := reg_write r;
     mem_read := mem_read r; mem_write := mem_write r; mem_to_reg := mem_to_reg r;
     branch := branch r; jump := jump r; alu_op := alu_op r; valid := valid r |}.

Definition set_rd (v : Z) (r : t) : t :=
  {| instruction := instruction r; pc := pc r; opcode := opcode r; rs := rs r;
     rt := rt r; rd := v; funct := funct r; imm := imm r; address := address r;
     rs_val := rs_val r; rt_val := rt_val r; reg_write := reg_write r;
     mem_read := mem_read r; mem_write := mem_write r; mem_to_reg := mem_to_reg r;
     branch := branch r; jump := jump r; alu_op := alu_op r; valid := valid r |}.

Definition set_funct (v : Z) (r : t) : t :=
  {| instruction := instruction r; pc := pc r; opcode := opcode r; rs := rs r;
     rt := rt r; rd := rd r; funct := v; imm := imm r; address := address r;
     rs_val := rs_val r; rt_val := rt_val r; reg_write := reg_write r;
     mem_read := mem_read r; mem_write := mem_write r; mem_to_reg := mem_to_reg r;
     branch := branch r; jump := jump r; alu_op := alu_op r; valid := valid r |}.

Definition set_imm (v : Z) (r : t) : t :=
  {| instruction := instruction r; pc := pc r; opcode := opcode r; rs := rs r;
     rt := rt r; rd := rd r; funct := funct r; imm := v; address := address r;
     rs_val := rs_val r; rt_val := rt_val r; reg_write := reg_write r;
     mem_read := mem_read r; mem_write := mem_write r; mem_to_reg := mem_to_reg r;
     branch := branch r; jump := jump r; alu_op := alu_op r; valid := valid r |}.

Definition set_address (v : Z) (r : t) : t :=
  {| instruction := instruction r; pc := pc r; opcode := opcode r; rs := rs r;
     rt := rt r; rd := rd r; funct := funct r; imm := imm r; address := v;
     rs_val := rs_val r; rt_val := rt_val r; reg_write := reg_write r;
     mem_read := mem_read r; mem_write := mem_write r; mem_to_reg := mem_to_reg r;
     branch := branch r; jump := jump r; alu_op := alu_op r; valid := valid r |}.

Definition set_rs_val (v : Z) (r : t) : t :=
  {| instruction := instruction r; pc := pc r; opcode := opcode r; rs := rs r;
     rt := rt r; rd := rd r; funct := funct r; imm := imm r; address := address r;
     rs_val := v; rt_val := rt_val r; reg_write := reg_write r; mem_read := mem_read r;
     mem_write := mem_write r; mem_to_reg := mem_to_reg r; branch := branch r;
     jump := jump r; alu_op := alu_op r; valid := valid r |}.

Definition set_rt_val (v : Z) (r : t) : t :=
  {| instruction := instruction r; pc := pc r; opcode := opcode r; rs := rs r;
     rt := rt r; rd := rd r; funct := funct r; imm := imm r; address := address r;
     rs_val := rs_val r; rt_val := v; reg_write := reg_write r; mem_read := mem_read r;
     mem_write := mem_write r; mem_to_reg := mem_to_reg r; branch := branch r;
     jump := jump r; alu_op := alu_op r; valid := valid r |}.

Definition set_reg_write (v : bool) (r : t) : t :=
  {| instruction := instruction r; pc := pc r; opcode := opcode r; rs := rs r;
     rt := rt r; rd := rd r; funct := funct r; imm := imm r; address := address r;
     rs_val := rs_val r; rt_val := rt_val r; reg_write := v; mem_read := mem_read r;
     mem_write := mem_write r; mem_to_reg := mem_to_reg r; branch := branch r;
     jump := jump r; alu_op := alu_op r; valid := valid r |}.

Definition set_mem_read (v : bool) (r : t) : t :=
  {| instruction := instruction r; pc := pc r; opcode := opcode r; rs := rs r;
     rt := rt r; rd := rd r; funct := funct r; imm := imm r; address := address r;
     rs_val := rs_val r; rt_val := rt_val r; reg_write := reg_write r; mem_read := v;
     mem_write := mem_write r; mem_to_reg := mem_to_reg r; branch := branch r;
     jump := jump r; alu_op := alu_op r; valid := valid r |}.

Definition set_mem_write (v : bool) (r : t) : t :=
  {| instruction := instruction r; pc := pc r; opcode := opcode r; rs := rs r;
     rt := rt r; rd := rd r; funct := funct r; imm := imm r; address := address r;
     rs_val := rs_val r; rt_val := rt_val r; reg_write := reg_write r;
     mem_read := mem_read r; mem_write := v; mem_to_reg := mem_to_reg r;
     branch := branch r; jump := jump r; alu_op := alu_op r; valid := valid r |}.

Definition set_mem_to_reg (v : bool) (r : t) : t :=
  {| instruction := instruction r; pc := pc r; opcode := opcode r; rs := rs r;
     rt := rt r; rd := rd r; funct := funct r; imm := imm r; address := address r;
     rs_val := rs_val r; rt_val := rt_val r; reg_write := reg_write r;
     mem_read := mem_read r; mem_write := mem_write r; mem_to_reg := v;
     branch := branch r; jump := jump r; alu_op := alu_op r; valid := valid r |}.

Definition set_branch (v : bool) (r : t) : t :=
  {| instruction := instruction r; pc := pc r; opcode := opcode r; rs := rs r;
     rt := rt r; rd := rd r; funct := funct r; imm := imm r; address := address r;
     rs_val := rs_val r; rt_val := rt_val r; reg_write := reg_write r;
     mem_read := mem_read r; mem_write := mem_write r; mem_to_reg := mem_to_reg r;
     branch := v; jump := jump r; alu_op := alu_op r; valid := valid r |}.

Definition set_jump (v : bool) (r : t) : t :=
  {| instruction := instruction r; pc := pc r; opcode := opcode r; rs := rs r;
     rt := rt r; rd := rd r; funct := funct r; imm := imm r; address := address r;
     rs_val := rs_val r; rt_val := rt_val r; reg_write := reg_write r;
     mem_read := mem_read r; mem_write := mem_write r; mem_to_reg := mem_to_reg r;
     branch := branch r; jump := v; alu_op := alu_op r; valid := valid r |}.

Definition set_alu_op (v : string) (r : t) : t :=
  {| instruction := instruction r; pc := pc r; opcode := opcode r; rs := rs r;
     rt := rt r; rd := rd r; funct := funct r; imm := imm r; address := address r;
     rs_val := rs_val r; rt_val := rt_val r; reg_write := reg_write r;
     mem_read := mem_read r; mem_write := mem_write r; mem_to_reg := mem_to_reg r;
     branch := branch r; jump := jump r; alu_op := v; valid := valid r |}.

End IdEx.

(** The EX/MEM latch. *)
Module ExMem.
Record t : Type := mk {
  instruction : option string;
  pc : Z;
  alu_result : Z;
  rt_val : Z;
  rd : Z;
  reg_write : bool;
  mem_read : bool;
  mem_write : bool;
  mem_to_reg : bool;
  valid : bool
}.
End ExMem.

(** The MEM/WB latch. *)
Module MemWb.
Record t : Type := mk {
  instruction : option string;
  pc : Z;
  alu_result : Z;
  mem_data : Z;
  rd : Z;
  reg_write : bool;
  mem_to_reg : bool;
  valid : bool
}.
End MemWb.

(** The dictionary stored in [forward_a] and [forward_b]. *)
Module Forward.
Record t : Type := mk {
  source : string;
  reg : string;
  value : Z
}.
End Forward.

(** The dictionary stored in [stall_info]. *)
Module StallInfo.
Record t : Type := mk {
  type : string;
  hazard_type : string;
  waiting_reg : string;
  waiting_for : string;
  blocked_instr : string;
  reason : string
}.
End StallInfo.

(** The dictionary stored in [memory_warning]. *)
Module MemoryWarning.
Record t : Type := mk {
  type : string;
  address : Z;
  instruction : option string;
  message : string
}.
End MemoryWarning.

(** The dictionary stored in [control_hazard]. *)
Module ControlHazard.
Record t : Type := mk {
  type : string;
  hazard_type : string;
  flushed_instruction : string;
  target_address : option Z;
  reason : string
}.
End ControlHazard.

(** One entry of [pipeline_history]: the word and the address shown in
    each of the five stages ([None] is Python's [None]). *)
Module Snapshot.
Record t : Type := mk {
  cycle : Z;
  IF_word : option string;
  IF_PC : option Z;
  ID_word : option string;
  ID_PC : option Z;
  EX_word : option string;
  EX_PC : option Z;
  MEM_word : option string;
  MEM_PC : option Z;
  WB_word : option string;
  WB_PC : option Z
}.
End Snapshot.

(** One entry of [forward_history]. *)
Module ForwardEntry.
Record t : Type := mk {
  cycle : Z;
  forward_a : option Forward.t;
  forward_b : option Forward.t
}.
End ForwardEntry.

(** ** The CPU ([class MIPS_CPU]) *)

Module MIPS_CPU.

Record t : Type := mk {
  pc : Z;
  registers : list Z;
  instruction_memory : list string;
  data_memory : gmap Z Z;
  cycle : Z;
  IF_ID : IfId.t;
  ID_EX : IdEx.t;
  EX_MEM : ExMem.t;
  MEM_WB : MemWb.t;
  stall : bool;
  flush_if : bool;
  flush_id : bool;
  halted : bool;
  forward_a : option Forward.t;
  forward_b : option Forward.t;
  stall_info : option StallInfo.t;
  memory_warning : option MemoryWarning.t;
  control_hazard : option ControlHazard.t;
  flush_occurred : bool;
  if_id_was_held : bool;
  pipeline_history : list Snapshot.t;
  stall_history : list Z;
  forward_history : list ForwardEntry.t;
  flush_count : Z;
  _seen_in_if : gset (Z * string);
  _seen_in_wb : gset (Z * string)
}.

Definition set_pc (v : Z) (r : t) : t :=
  {| pc := v; registers := registers r; instruction_memory := instruction_memory r;
     data_memory := data_memory r; cycle := cycle r; IF_ID := IF_ID r;
     ID_EX := ID_EX r; EX_MEM := EX_MEM r; MEM_WB := MEM_WB r; stall := stall r;
     flush_if := flush_if r; flush_id := flush_id r; halted := halted r;
     forward_a := forward_a r; forward_b := forward_b r; stall_info := stall_info r;
     memory_warning := memory_warning r; control_hazard := control_hazard r;
     flush_occurred := flush_occurred r; if_id_was_held := if_id_was_held r;
     pipeline_history := pipeline_history r; stall_history := stall_history r;
     forward_history := forward_history r; flush_count := flush_count r;
     _seen_in_if := _seen_in_if r; _seen_in_wb := _seen_in_wb r |}.

Definition set_registers (v : list Z) (r : t) : t :=
  {| pc := pc r; registers := v; instruction_memory := instruction_memory r;
     data_memory := data_memory r; cycle := cycle r; IF_ID := IF_ID r;
     ID_EX := ID_EX r; EX_MEM := EX_MEM r; MEM_WB := MEM_WB r; stall := stall r;
     flush_if := flush_if r; flush_id := flush_id r; halted := halted r;
     forward_a := forward_a r; forward_b := forward_b r; stall_info := stall_info r;
     memory_warning := memory_warning r; control_hazard := control_hazard r;
     flush_occurred := flush_occurred r; if_id_was_held := if_id_was_held r;
     pipeline_history := pipeline_history r; stall_history := stall_history r;
     forward_history := forward_history r; flush_count := flush_count r;
     _seen_in_if := _seen_in_if r; _seen_in_wb := _seen_in_wb r |}.

Definition set_data_memory (v : gmap Z Z) (r : t) : t :=
  {| pc := pc r; registers := registers r; instruction_memory := instruction_memory r;
     data_memory := v; cycle := cycle r; IF_ID := IF_ID r; ID_EX := ID_EX r;
     EX_MEM := EX_MEM r; MEM_WB := MEM_WB r; stall := stall r; flush_if := flush_if r;
     flush_id := flush_id r; halted := halted r; forward_a := forward_a r;
     forward_b := forward_b r; stall_info := stall_info r;
     memory_warning := memory_warning r; control_hazard := control_hazard r;
     flush_occurred := flush_occurred r; if_id_was_held := if_id_was_held r;
     pipeline_history := pipeline_history r; stall_history := stall_history r;
     forward_history := forward_history r; flush_count := flush_count r;
     _seen_in_if := _seen_in_if r; _seen_in_wb := _seen_in_wb r |}.

Definition set_cycle (v : Z) (r : t) : t :=
  {| pc := pc r; registers := registers r; instruction_memory := instruction_memory r;
     data_memory := data_memory r; cycle := v; IF_ID := IF_ID r; ID_EX := ID_EX r;
     EX_MEM := EX_MEM r; MEM_WB := MEM_WB r; stall := stall r; flush_if := flush_if r;
     flush_id := flush_id r; halted := halted r; forward_a := forward_a r;
     forward_b := forward_b r; stall_info := stall_info r;
     memory_warning := memory_warning r; control_hazard := control_hazard r;
     flush_occurred := flush_occurred r; if_id_was_held := if_id_was_held r;
     pipeline_history := pipeline_history r; stall_history := stall_history r;
     forward_history := forward_history r; flush_count := flush_count r;
     _seen_in_if := _seen_in_if r; _seen_in_wb := _seen_in_wb r |}.

Definition set_IF_ID (v : IfId.t) (r : t) : t :=
  {| pc := pc r; registers := registers r; instruction_memory := instruction_memory r;
     data_memory := data_memory r; cycle := cycle r; IF_ID := v; ID_EX := ID_EX r;
     EX_MEM := EX_MEM r; MEM_WB := MEM_WB r; stall := stall r; flush_if := flush_if r;
     flush_id := flush_id r; halted := halted r; forward_a := forward_a r;
     forward_b := forward_b r; stall_info := stall_info r;
     memory_warning := memory_warning r; control_hazard := control_hazard r;
     flush_occurred := flush_occurred r; if_id_was_held := if_id_was_held r;
     pipeline_history := pipeline_history r; stall_history := stall_history r;
     forward_history := forward_history r; flush_count := flush_count r;
     _seen_in_if := _seen_in_if r; _seen_in_wb := _seen_in_wb r |}.

Definition set_ID_EX (v : IdEx.t) (r : t) : t :=
  {| pc := pc r; registers := registers r; instruction_memory := instruction_memory r;
     data_memory := data_memory r; cycle := cycle r; IF_ID := IF_ID r; ID_EX := v;
     EX_MEM := EX_MEM r; MEM_WB := MEM_WB r; stall := stall r; flush_if := flush_if r;
     flush_id := flush_id r; halted := halted r; forward_a := forward_a r;
     forward_b := forward_b r; stall_info := stall_info r;
     memory_warning := memory_warning r; control_hazard := control_hazard r;
     flush_occurred := flush_occurred r; if_id_was_held := if_id_was_held r;
     pipeline_history := pipeline_history r; stall_history := stall_history r;
     forward_history := forward_history r; flush_count := flush_count r;
     _seen_in_if := _seen_in_if r; _seen_in_wb := _seen_in_wb r |}.

Definition set_EX_MEM (v : ExMem.t) (r : t) : t :=
  {| pc := pc r; registers := registers r; instruction_memory := instruction_memory r;
     data_memory := data_memory r; cycle := cycle r; IF_ID := IF_ID r;
     ID_EX := ID_EX r; EX_MEM := v; MEM_WB := MEM_WB r; stall := stall r;
     flush_if := flush_if r; flush_id := flush_id r; halted := halted r;
     forward_a := forward_a r; forward_b := forward_b r; stall_info := stall_info r;
     memory_warning := memory_warning r; control_hazard := control_hazard r;
     flush_occurred := flush_occurred r; if_id_was_held := if_id_was_held r;
     pipeline_history := pipeline_history r; stall_history := stall_history r;
     forward_history := forward_history r; flush_count := flush_count r;
     _seen_in_if := _seen_in_if r; _seen_in_wb := _seen_in_wb r |}.

Definition set_MEM_WB (v : MemWb.t) (r : t) : t :=
  {| pc := pc r; registers := registers r; instruction_memory := instruction_memory r;
     data_memory := data_memory r; cycle := cycle r; IF_ID := IF_ID r;
     ID_EX := ID_EX r; EX_MEM := EX_MEM r; MEM_WB := v; stall := stall r;
     flush_if := flush_if r; flush_id := flush_id r; halted := halted r;
     forward_a := forward_a r; forward_b := forward_b r; stall_info := stall_info r;
     memory_warning := memory_warning r; control_hazard := control_hazard r;
     flush_occurred := flush_occurred r; if_id_was_held := if_id_was_held r;
     pipeline_history := pipeline_history r; stall_history := stall_history r;
     forward_history := forward_history r; flush_count := flush_count r;
     _seen_in_if := _seen_in_if r; _seen_in_wb := _seen_in_wb r |}.

Definition set_stall (v : bool) (r : t) : t :=
  {| pc := pc r; registers := registers r; instruction_memory := instruction_memory r;
     data_memory := data_memory r; cycle := cycle r; IF_ID := IF_ID r;
     ID_EX := ID_EX r; EX_MEM := EX_MEM r; MEM_WB := MEM_WB r; stall := v;
     flush_if := flush_if r; flush_id := flush_id r; halted := halted r;
     forward_a := forward_a r; forward_b := forward_b r; stall_info := stall_info r;
     memory_warning := memory_warning r; control_hazard := control_hazard r;
     flush_occurred := flush_occurred r; if_id_was_held := if_id_was_held r;
     pipeline_history := pipeline_history r; stall_history := stall_history r;
     forward_history := forward_history r; flush_count := flush_count r;
     _seen_in_if := _seen_in_if r; _seen_in_wb := _seen_in_wb r |}.

Definition set_halted (v : bool) (r : t) : t :=
  {| pc := pc r; registers := registers r; instruction_memory := instruction_memory r;
     data_memory := data_memory r; cycle := cycle r; IF_ID := IF_ID r;
     ID_EX := ID_EX r; EX_MEM := EX_MEM r; MEM_WB := MEM_WB r; stall := stall r;
     flush_if := flush_if r; flush_id := flush_id r; halted := v;
     forward_a := forward_a r; forward_b := forward_b r; stall_info := stall_info r;
     memory_warning := memory_warning r; control_hazard := control_hazard r;
     flush_occurred := flush_occurred r; if_id_was_held := if_id_was_held r;
     pipeline_history := pipeline_history r; stall_history := stall_history r;
     forward_history := forward_history r; flush_count := flush_count r;
     _seen_in_if := _seen_in_if r; _seen_in_wb := _seen_in_wb r |}.

Definition set_forward_a (v : option Forward.t) (r : t) : t :=
  {| pc := pc r; registers := registers r; instruction_memory := instruction_memory r;
     data_memory := data_memory r; cycle := cycle r; IF_ID := IF_ID r;
     ID_EX := ID_EX r; EX_MEM := EX_MEM r; MEM_WB := MEM_WB r; stall := stall r;
     flush_if := flush_if r; flush_id := flush_id r; halted := halted r;
     forward_a := v; forward_b := forward_b r; stall_info := stall_info r;
     memory_warning := memory_warning r; control_hazard := control_hazard r;
     flush_occurred := flush_occurred r; if_id_was_held := if_id_was_held r;
     pipeline_history := pipeline_history r; stall_history := stall_history r;
     forward_history := forward_history r; flush_count := flush_count r;
     _seen_in_if := _seen_in_if r; _seen_in_wb := _seen_in_wb r |}.

Definition set_forward_b (v : option Forward.t) (r : t) : t :=
  {| pc := pc r; registers := registers r; instruction_memory := instruction_memory r;
     data_memory := data_memory r; cycle := cycle r; IF_ID := IF_ID r;
     ID_EX := ID_EX r; EX_MEM := EX_MEM r; MEM_WB := MEM_WB r; stall := stall r;
     flush_if := flush_if r; flush_id := flush_id r; halted := halted r;
     forward_a := forward_a r; forward_b := v; stall_info := stall_info r;
     memory_warning := memory_warning r; control_hazard := control_hazard r;
     flush_occurred := flush_occurred r; if_id_was_held := if_id_was_held r;
     pipeline_history := pipeline_history r; stall_history := stall_history r;
     forward_history := forward_history r; flush_count := flush_count r;
     _seen_in_if := _seen_in_if r; _seen_in_wb := _seen_in_wb r |}.

Definition set_stall_info (v : option StallInfo.t) (r : t) : t :=
  {| pc := pc r; registers := registers r; instruction_memory := instruction_memory r;
     data_memory := data_memory r; cycle := cycle r; IF_ID := IF_ID r;
     ID_EX := ID_EX r; EX_MEM := EX_MEM r; MEM_WB := MEM_WB r; stall := stall r;
     flush_if := flush_if r; flush_id := flush_id r; halted := halted r;
     forward_a := forward_a r; forward_b := forward_b r; stall_info := v;
     memory_warning := memory_warning r; control_hazard := control_hazard r;
     flush_occurred := flush_occurred r; if_id_was_held := if_id_was_held r;
     pipeline_history := pipeline_history r; stall_history := stall_history r;
     forward_history := forward_history r; flush_count := flush_count r;
     _seen_in_if := _seen_in_if r; _seen_in_wb := _seen_in_wb r |}.

Definition set_memory_warning (v : option MemoryWarning.t) (r : t) : t :=
  {| pc := pc r; registers := registers r; instruction_memory := instruction_memory r;
     data_memory := data_memory r; cycle := cycle r; IF_ID := IF_ID r;
     ID_EX := ID_EX r; EX_MEM := EX_MEM r; MEM_WB := MEM_WB r; stall := stall r;
     flush_if := flush_if r; flush_id := flush_id r; halted := halted r;
     forward_a := forward_a r; forward_b := forward_b r; stall_info := stall_info r;
     memory_warning := v; control_hazard := control_hazard r;
     flush_occurred := flush_occurred r; if_id_was_held := if_id_was_held r;
     pipeline_history := pipeline_history r; stall_history := stall_history r;
     forward_history := forward_history r; flush_count := flush_count r;
     _seen_in_if := _seen_in_if r; _seen_in_wb := _seen_in_wb r |}.

Definition set_control_hazard (v : option ControlHazard.t) (r : t) : t :=
  {| pc := pc r; registers := registers r; instruction_memory := instruction_memory r;
     data_memory := data_memory r; cycle := cycle r; IF_ID := IF_ID r;
     ID_EX := ID_EX r; EX_MEM := EX_MEM r; MEM_WB := MEM_WB r; stall := stall r;
     flush_if := flush_if r; flush_id := flush_id r; halted := halted r;
     forward_a := forward_a r; forward_b := forward_b r; stall_info := stall_info r;
     memory_warning := memory_warning r; control_hazard := v;
     flush_occurred := flush_occurred r; if_id_was_held := if_id_was_held r;
     pipeline_history := pipeline_history r; stall_history := stall_history r;
     forward_history := forward_history r; flush_count := flush_count r;
     _seen_in_if := _seen_in_if r; _seen_in_wb := _seen_in_wb r |}.

Definition set_flush_occurred (v : bool) (r : t) : t :=
  {| pc := pc r; registers := registers r; instruction_memory := instruction_memory r;
     data_memory := data_memory r; cycle := cycle r; IF_ID := IF_ID r;
     ID_EX := ID_EX r; EX_MEM := EX_MEM r; MEM_WB := MEM_WB r; stall := stall r;
     flush_if := flush_if r; flush_id := flush_id r; halted := halted r;
     forward_a := forward_a r; forward_b := forward_b r; stall_info := stall_info r;
     memory_warning := memory_warning r; control_hazard := control_hazard r;
     flush_occurred := v; if_id_was_held := if_id_was_held r;
     pipeline_history := pipeline_history r; stall_history := stall_history r;
     forward_history := forward_history r; flush_count := flush_count r;
     _seen_in_if := _seen_in_if r; _seen_in_wb := _seen_in_wb r |}.

Definition set_if_id_was_held (v : bool) (r : t) : t :=
  {| pc := pc r; registers := registers r; instruction_memory := instruction_memory r;
     data_memory := data_memory r; cycle := cycle r; IF_ID := IF_ID r;
     ID_EX := ID_EX r; EX_MEM := EX_MEM r; MEM_WB := MEM_WB r; stall := stall r;
     flush_if := flush_if r; flush_id := flush_id r; halted := halted r;
     forward_a := forward_a r; forward_b := forward_b r; stall_info := stall_info r;
     memory_warning := memory_warning r; control_hazard := control_hazard r;
     flush_occurred := flush_occurred r; if_id_was_held := v;
     pipeline_history := pipeline_history r; stall_history := stall_history r;
     forward_history := forward_history r; flush_count := flush_count r;
     _seen_in_if := _seen_in_if r; _seen_in_wb := _seen_in_wb r |}.

Definition set_pipeline_history (v : list Snapshot.t) (r : t) : t :=
  {| pc := pc r; registers := registers r; instruction_memory := instruction_memory r;
     data_memory := data_memory r; cycle := cycle r; IF_ID := IF_ID r;
     ID_EX := ID_EX r; EX_MEM := EX_MEM r; MEM_WB := MEM_WB r; stall := stall r;
     flush_if := flush_if r; flush_id := flush_id r; halted := halted r;
     forward_a := forward_a r; forward_b := forward_b r; stall_info := stall_info r;
     memory_warning := memory_warning r; control_hazard := control_hazard r;
     flush_occurred := flush_occurred r; if_id_was_held := if_id_was_held r;
     pipeline_history := v; stall_history := stall_history r;
     forward_history := forward_history r; flush_count := flush_count r;
     _seen_in_if := _seen_in_if r; _seen_in_wb := _seen_in_wb r |}.

Definition set_stall_history (v : list Z) (r : t) : t :=
  {| pc := pc r; registers := registers r; instruction_memory := instruction_memory r;
     data_memory := data_memory r; cycle := cycle r; IF_ID := IF_ID r;
     ID_EX := ID_EX r; EX_MEM := EX_MEM r; MEM_WB := MEM_WB r; stall := stall r;
     flush_if := flush_if r; flush_id := flush_id r; halted := halted r;
     forward_a := forward_a r; forward_b := forward_b r; stall_info := stall_info r;
     memory_warning := memory_warning r; control_hazard := control_hazard r;
     flush_occurred := flush_occurred r; if_id_was_held := if_id_was_held r;
     pipeline_history := pipeline_history r; stall_history := v;
     forward_history := forward_history r; flush_count := flush_count r;
     _seen_in_if := _seen_in_if r; _seen_in_wb := _seen_in_wb r |}.

Definition set_forward_history (v : list ForwardEntry.t) (r : t) : t :=
  {| pc := pc r; registers := registers r; instruction_memory := instruction_memory r;
     data_memory := data_memory r; cycle := cycle r; IF_ID := IF_ID r;
     ID_EX := ID_EX r; EX_MEM := EX_MEM r; MEM_WB := MEM_WB r; stall := stall r;
     flush_if := flush_if r; flush_id := flush_id r; halted := halted r;
     forward_a := forward_a r; forward_b := forward_b r; stall_info := stall_info r;
     memory_warning := memory_warning r; control_hazard := control_hazard r;
     flush_occurred := flush_occurred r; if_id_was_held := if_id_was_held r;
     pipeline_history := pipeline_history r; stall_history := stall_history r;
     forward_history := v; flush_count := flush_count r; _seen_in_if := _seen_in_if r;
     _seen_in_wb := _seen_in_wb r |}.

Definition set_flush_count (v : Z) (r : t) : t :=
  {| pc := pc r; registers := registers r; instruction_memory := instruction_memory r;
     data_memory := data_memory r; cycle := cycle r; IF_ID := IF_ID r;
     ID_EX := ID_EX r; EX_MEM := EX_MEM r; MEM_WB := MEM_WB r; stall := stall r;
     flush_if := flush_if r; flush_id := flush_id r; halted := halted r;
     forward_a := forward_a r; forward_b := forward_b r; stall_info := stall_info r;
     memory_warning := memory_warning r; control_hazard := control_hazard r;
     flush_occurred := flush_occurred r; if_id_was_held := if_id_was_held r;
     pipeline_history := pipeline_history r; stall_history := stall_history r;
     forward_history := forward_history r; flush_count := v;
     _seen_in_if := _seen_in_if r; _seen_in_wb := _seen_in_wb r |}.

Definition set_seen_in_if (v : gset (Z * string)) (r : t) : t :=
  {| pc := pc r; registers := registers r; instruction_memory := instruction_memory r;
     data_memory := data_memory r; cycle := cycle r; IF_ID := IF_ID r;
     ID_EX := ID_EX r; EX_MEM := EX_MEM r; MEM_WB := MEM_WB r; stall := stall r;
     flush_if := flush_if r; flush_id := flush_id r; halted := halted r;
     forward_a := forward_a r; forward_b := forward_b r; stall_info := stall_info r;
     memory_warning := memory_warning r; control_hazard := control_hazard r;
     flush_occurred := flush_occurred r; if_id_was_held := if_id_was_held r;
     pipeline_history := pipeline_history r; stall_history := stall_history r;
     forward_history := forward_history r; flush_count := flush_count r;
     _seen_in_if := v; _seen_in_wb := _seen_in_wb r |}.

Definition set_seen_in_wb (v : gset (Z * string)) (r : t) : t :=
  {| pc := pc r; registers := registers r; instruction_memory := instruction_memory r;
     data_memory := data_memory r; cycle := cycle r; IF_ID := IF_ID r;
     ID_EX := ID_EX r; EX_MEM := EX_MEM r; MEM_WB := MEM_WB r; stall := stall r;
     flush_if := flush_if r; flush_id := flush_id r; halted := halted r;
     forward_a := forward_a r; forward_b := forward_b r; stall_info := stall_info r;
     memory_warning := memory_warning r; control_hazard := control_hazard r;
     flush_occurred := flush_occurred r; if_id_was_held := if_id_was_held r;
     pipeline_history := pipeline_history r; stall_history := stall_history r;
     forward_history := forward_history r; flush_count := flush_count r;
     _seen_in_if := _seen_in_if r; _seen_in_wb := v |}.

Definition _empty_if_id : IfId.t :=
  {| IfId.instruction := None; IfId.pc := 0; IfId.valid := false |}.

Definition _empty_id_ex : IdEx.t :=
  {| IdEx.instruction := None; IdEx.pc := 0; IdEx.opcode := 0; IdEx.rs := 0;
     IdEx.rt := 0; IdEx.rd := 0; IdEx.funct := 0; IdEx.imm := 0; IdEx.address := 0;
     IdEx.rs_val := 0; IdEx.rt_val := 0; IdEx.reg_write := false;
     IdEx.mem_read := false; IdEx.mem_write := false; IdEx.mem_to_reg := false;
     IdEx.branch := false; IdEx.jump := false; IdEx.alu_op := "NOP";
     IdEx.valid := false |}.

Definition _empty_ex_mem : ExMem.t :=
  {| ExMem.instruction := None; ExMem.pc := 0; ExMem.alu_result := 0;
     ExMem.rt_val := 0; ExMem.rd := 0; ExMem.reg_write := false;
     ExMem.mem_read := false; ExMem.mem_write := false; ExMem.mem_to_reg := false;
     ExMem.valid := false |}.

Definition _empty_mem_wb : MemWb.t :=
  {| MemWb.instruction := None; MemWb.pc := 0; MemWb.alu_result := 0;
     MemWb.mem_data := 0; MemWb.rd := 0; MemWb.reg_write := false;
     MemWb.mem_to_reg := false; MemWb.valid := false |}.

(** The state [reset] leaves behind, whatever the state before. *)
Definition initial : t :=
  {| pc := 0; registers := replicate 8 0; instruction_memory := [];
     data_memory := ∅; cycle := 0;
     IF_ID := _empty_if_id; ID_EX := _empty_id_ex;
     EX_MEM := _empty_ex_mem; MEM_WB := _empty_mem_wb;
     stall := false; flush_if := false; flush_id := false; halted := false;
     forward_a := None; forward_b := None; stall_info := None;
     memory_warning := None; control_hazard := None; flush_occurred := false;
     if_id_was_held := false;
     pipeline_history := []; stall_history := []; forward_history := [];
     flush_count := 0; _seen_in_if := ∅; _seen_in_wb := ∅ |}.

Definition reset (self : t) : t := initial.

(** [MIPS_CPU()]: the constructor only calls [reset]. *)
Definition new : t := initial.

Definition load_program (self : t) (machine_codes : list string) : t :=
  let self := reset self in
  {| pc := pc self; registers := registers self; instruction_memory := machine_codes;
     data_memory := data_memory self; cycle := cycle self;
     IF_ID := IF_ID self; ID_EX := ID_EX self; EX_MEM := EX_MEM self;
     MEM_WB := MEM_WB self; stall := stall self; flush_if := flush_if self;
     flush_id := flush_id self; halted := halted self;
     forward_a := forward_a self; forward_b := forward_b self;
     stall_info := stall_info self; memory_warning := memory_warning self;
     control_hazard := control_hazard self; flush_occurred := flush_occurred self;
     if_id_was_held := if_id_was_held self;
     pipeline_history := pipeline_history self; stall_history := stall_history self;
     forward_history := forward_history self; flush_count := flush_count self;
     _seen_in_if := _seen_in_if self; _seen_in_wb := _seen_in_wb self |}.

Definition _alu_add (a b : Z) : Z := Z.land (a + b) 65535.

Definition _alu_sub (a b : Z) : Z := Z.land (a - b) 65535.

Definition _signed (val : Z) : Z :=
  if negb (Z.land val 32768 =? 0) then val - 65536 else val.

(** The register file after write-back; [None] is the [IndexError] of
    the register store. *)
Definition write_back (registers : list Z) (mem_wb : MemWb.t) : option (list Z) :=
  if negb (MemWb.valid mem_wb) then Some registers
  else if MemWb.reg_write mem_wb && negb (MemWb.rd mem_wb =? 0) then
    if MemWb.mem_to_reg mem_wb
    then Py.setitem registers (MemWb.rd mem_wb) (Z.land (MemWb.mem_data mem_wb) 65535)
    else Py.setitem registers (MemWb.rd mem_wb) (Z.land (MemWb.alu_result mem_wb) 65535)
  else Some registers.

(** [_stage_wb]: only [self.registers] changes. *)
Definition _stage_wb (self : t) (mem_wb : MemWb.t) : option t :=
  regs ← write_back (registers self) mem_wb;
  Some (set_registers regs self).

Definition uninitialized_warning (addr : Z) (ex_mem : ExMem.t) : MemoryWarning.t :=
  {| MemoryWarning.type := "Uninitialized Memory";
     MemoryWarning.address := addr;
     MemoryWarning.instruction := ExMem.instruction ex_mem;
     MemoryWarning.message :=
       "Reading from uninitialized address " +:+ Py.str addr +:+ " (returns 0)" |}.

(** The MEM/WB latch that the memory stage produces: a load reads
    [data_memory], an absent address reading as 0. *)
Definition mem_latch (data_memory : gmap Z Z) (ex_mem : ExMem.t) : MemWb.t :=
  let addr := Z.land (ExMem.alu_result ex_mem) 65535 in
  if ExMem.valid ex_mem then
    {| MemWb.instruction := ExMem.instruction ex_mem; MemWb.pc := ExMem.pc ex_mem;
       MemWb.alu_result := ExMem.alu_result ex_mem;
       MemWb.mem_data :=
         if ExMem.mem_read ex_mem then default 0 (data_memory !! addr) else 0;
       MemWb.rd := ExMem.rd ex_mem; MemWb.reg_write := ExMem.reg_write ex_mem;
       MemWb.mem_to_reg := ExMem.mem_to_reg ex_mem; MemWb.valid := true |}
  else _empty_mem_wb.

(** The data memory after the memory stage: a store (an instruction that
    does not load and has [mem_write]) writes [rt_val], masked. *)
Definition mem_store (data_memory : gmap Z Z) (ex_mem : ExMem.t) : gmap Z Z :=
  let addr := Z.land (ExMem.alu_result ex_mem) 65535 in
  if ExMem.valid ex_mem && negb (ExMem.mem_read ex_mem) && ExMem.mem_write ex_mem
  then <[addr := Z.land (ExMem.rt_val ex_mem) 65535]> data_memory
  else data_memory.

(** [memory_warning] after the memory stage: set by a load of an absent
    address, left as it was otherwise. *)
Definition mem_warning (data_memory : gmap Z Z) (before : option MemoryWarning.t)
    (ex_mem : ExMem.t) : option MemoryWarning.t :=
  let addr := Z.land (ExMem.alu_result ex_mem) 65535 in
  if ExMem.valid ex_mem && ExMem.mem_read ex_mem
     && negb (Py.not_none (data_memory !! addr))
  then Some (uninitialized_warning addr ex_mem)
  else before.

Definition _stage_mem (self : t) (ex_mem : ExMem.t) : t * MemWb.t :=
  (set_data_memory (mem_store (data_memory self) ex_mem)
     (set_memory_warning (mem_warning (data_memory self) (memory_warning self) ex_mem)
        self),
   mem_latch (data_memory self) ex_mem).

(** The arithmetic of [_stage_ex], on the operands after forwarding;
    [id_rs_val] is the [rs_val] of the latch, which JAL passes on. *)
Definition alu (alu_op : string) (rs_val rt_val imm id_rs_val : Z) : Z :=
  if String.eqb alu_op "ADD" then _alu_add rs_val rt_val
  else if String.eqb alu_op "SUB" then _alu_sub rs_val rt_val
  else if String.eqb alu_op "AND" then Z.land rs_val rt_val
  else if String.eqb alu_op "OR" then Z.lor rs_val rt_val
  else if String.eqb alu_op "SLT" then (if _signed rs_val <? _signed rt_val then 1 else 0)
  else if String.eqb alu_op "ADDI" then _alu_add rs_val imm
  else if String.eqb alu_op "SUBI" then _alu_sub rs_val imm
  else if String.eqb alu_op "SLTI" then (if _signed rs_val <? imm then 1 else 0)
  else if String.eqb alu_op "ANDI" then Z.land rs_val (Z.land imm 63)
  else if String.eqb alu_op "JAL" then id_rs_val
  else if String.eqb alu_op "LW" || String.eqb alu_op "SW" || String.eqb alu_op "ADD"
  then _alu_add rs_val imm
  else 0.

Definition forward_record (source : string) (rd value : Z) : Forward.t :=
  {| Forward.source := source; Forward.reg := "$r" +:+ Py.str rd; Forward.value := value |}.

Definition ex_mem_forwards (ex_mem : ExMem.t) : bool :=
  ExMem.valid ex_mem && ExMem.reg_write ex_mem && negb (ExMem.rd ex_mem =? 0).

Definition mem_wb_forwards (mem_wb : MemWb.t) : bool :=
  MemWb.valid mem_wb && MemWb.reg_write mem_wb && negb (MemWb.rd mem_wb =? 0).

Definition write_data (mem_wb : MemWb.t) : Z :=
  if MemWb.mem_to_reg mem_wb then MemWb.mem_data mem_wb else MemWb.alu_result mem_wb.

(** The forwarding record of one operand of the EX stage, read from
    register [r] of the latch ([rs] for [forward_a], [rt] for [forward_b]):
    EX/MEM first, then MEM/WB when the record is not a dictionary yet.
    [f0] is the record on entry. *)
Definition ex_forward (r : Z) (ex_mem : ExMem.t) (mem_wb : MemWb.t)
    (f0 : option Forward.t) : option Forward.t :=
  let f1 :=
    if ex_mem_forwards ex_mem && (r =? ExMem.rd ex_mem)
    then Some (forward_record "EX_MEM" (ExMem.rd ex_mem) (ExMem.alu_result ex_mem))
    else f0 in
  if mem_wb_forwards mem_wb && (r =? MemWb.rd mem_wb) && negb (Py.not_none f1)
  then Some (forward_record "MEM_WB" (MemWb.rd mem_wb) (write_data mem_wb))
  else f1.

(** The value of that operand: [v0] is the value captured at decode. *)
Definition ex_operand (r v0 : Z) (ex_mem : ExMem.t) (mem_wb : MemWb.t)
    (f0 : option Forward.t) : Z :=
  let v1 :=
    if ex_mem_forwards ex_mem && (r =? ExMem.rd ex_mem)
    then ExMem.alu_result ex_mem else v0 in
  let f1 :=
    if ex_mem_forwards ex_mem && (r =? ExMem.rd ex_mem)
    then Some (forward_record "EX_MEM" (ExMem.rd ex_mem) (ExMem.alu_result ex_mem))
    else f0 in
  if mem_wb_forwards mem_wb && (r =? MemWb.rd mem_wb) && negb (Py.not_none f1)
  then write_data mem_wb
  else v1.

(** The EX/MEM latch that the execute stage produces; [fa] and [fb] are
    [self.forward_a] and [self.forward_b] on entry. *)
Definition ex_latch (id_ex : IdEx.t) (ex_mem : ExMem.t) (mem_wb : MemWb.t)
    (fa fb : option Forward.t) : ExMem.t :=
  let rs_val := ex_operand (IdEx.rs id_ex) (IdEx.rs_val id_ex) ex_mem mem_wb fa in
  let rt_val := ex_operand (IdEx.rt id_ex) (IdEx.rt_val id_ex) ex_mem mem_wb fb in
  if IdEx.valid id_ex then
    {| ExMem.instruction := IdEx.instruction id_ex; ExMem.pc := IdEx.pc id_ex;
       ExMem.alu_result :=
         alu (IdEx.alu_op id_ex) rs_val rt_val (IdEx.imm id_ex) (IdEx.rs_val id_ex);
       ExMem.rt_val := rt_val; ExMem.rd := IdEx.rd id_ex;
       ExMem.reg_write := IdEx.reg_write id_ex; ExMem.mem_read := IdEx.mem_read id_ex;
       ExMem.mem_write := IdEx.mem_write id_ex; ExMem.mem_to_reg := IdEx.mem_to_reg id_ex;
       ExMem.valid := true |}
  else _empty_ex_mem.

Definition _stage_ex (self : t) (id_ex : IdEx.t) (ex_mem : ExMem.t) (mem_wb : MemWb.t)
  : t * ExMem.t :=
  (set_forward_b
     (if IdEx.valid id_ex then ex_forward (IdEx.rt id_ex) ex_mem mem_wb (forward_b self)
      else forward_b self)
     (set_forward_a
        (if IdEx.valid id_ex then ex_forward (IdEx.rs id_ex) ex_mem mem_wb (forward_a self)
         else forward_a self) self),
   ex_latch id_ex ex_mem mem_wb (forward_a self) (forward_b self)).

(** The latch that the fetch produces; [None] is the [IndexError] of a
    fetch at a negative [pc] beyond the start of the instruction memory. *)
Definition fetch (pc : Z) (instruction_memory : list string) : option IfId.t :=
  if pc <? Assembler.len instruction_memory then
    word ← Py.index instruction_memory pc;
    Some {| IfId.instruction := Some word; IfId.pc := pc; IfId.valid := true |}
  else Some _empty_if_id.

(** [_stage_if]: [self.pc] advances when an instruction was fetched. *)
Definition _stage_if (self : t) : option (t * IfId.t) :=
  result ← fetch (pc self) (instruction_memory self);
  Some (set_pc (if pc self <? Assembler.len (instruction_memory self)
                then pc self + 1 else pc self) self, result).

(** The value that decode forwards for register [r]: the register file,
    overridden by MEM/WB, then EX/MEM, then the EX result of this cycle. *)
Definition id_forward (r reg_val : Z) (EX_MEM : ExMem.t) (MEM_WB : MemWb.t)
    (new_ex_mem : option ExMem.t) : Z :=
  let v := reg_val in
  let v :=
    if MemWb.valid MEM_WB && MemWb.reg_write MEM_WB && negb (MemWb.rd MEM_WB =? 0)
       && (r =? MemWb.rd MEM_WB)
    then (if MemWb.mem_to_reg MEM_WB then MemWb.mem_data MEM_WB
          else MemWb.alu_result MEM_WB)
    else v in
  let v :=
    if ExMem.valid EX_MEM && ExMem.reg_write EX_MEM && negb (ExMem.rd EX_MEM =? 0)
       && (r =? ExMem.rd EX_MEM)
    then ExMem.alu_result EX_MEM
    else v in
  match new_ex_mem with
  | Some n =>
      if ExMem.valid n && ExMem.reg_write n && negb (ExMem.rd n =? 0) && (r =? ExMem.rd n)
      then ExMem.alu_result n
      else v
  | None => v
  end.

(** How the opcode dispatch of [_stage_id] ends: by one of the two early
    returns of the JR case, which assert a stall, or by falling through to
    the hazard checks with the branch decision taken so far. *)
Inductive dispatch : Type :=
  | EarlyReturn (result : IdEx.t) (info : StallInfo.t)
  | FallThrough (result : IdEx.t) (branch_taken : bool) (jump_target : option Z).

Definition jr_stall_info (kind waiting_for why : string) (rs : Z) : StallInfo.t :=
  {| StallInfo.type := kind; StallInfo.hazard_type := "RAW";
     StallInfo.waiting_reg := "$r" +:+ Py.str rs;
     StallInfo.waiting_for := waiting_for;
     StallInfo.blocked_instr := "JR";
     StallInfo.reason := "JR needs $r" +:+ Py.str rs +:+ why |}.

Definition decode_r_type (registers : list Z) (ID_EX : IdEx.t) (EX_MEM : ExMem.t)
    (MEM_WB : MemWb.t) (new_ex_mem : option ExMem.t) (code : Z) (result : IdEx.t)
  : option dispatch :=
  let rs := Z.land (Z.shiftr code 9) 7 in
  let rt := Z.land (Z.shiftr code 6) 7 in
  let rd := Z.land (Z.shiftr code 3) 7 in
  let funct := Z.land code 7 in
  rs_reg ← Py.index registers rs;
  rt_reg ← Py.index registers rt;
  let result :=
    IdEx.set_rt_val rt_reg (IdEx.set_rs_val rs_reg (IdEx.set_funct funct
      (IdEx.set_rd rd (IdEx.set_rt rt (IdEx.set_rs rs result))))) in
  if funct =? 5 then
    let result := IdEx.set_alu_op "JR" (IdEx.set_jump true result) in
    if IdEx.valid ID_EX && IdEx.mem_read ID_EX
       && (IdEx.rd ID_EX =? rs) && negb (rs =? 0)
    then Some (EarlyReturn result
                 (jr_stall_info "Load-Use Hazard (JR)" "LW" " from memory" rs))
    else
      let rs_val_jr := id_forward rs rs_reg EX_MEM MEM_WB new_ex_mem in
      if IdEx.valid ID_EX && IdEx.reg_write ID_EX
         && (IdEx.rd ID_EX =? rs) && negb (rs =? 0)
      then Some (EarlyReturn result
                   (jr_stall_info "Data Hazard (JR)" "instruction"
                                  " from previous instruction" rs))
      else Some (FallThrough result false (Some rs_val_jr))
  else if funct <? 5 then
    name ← Py.index ["ADD"; "SUB"; "AND"; "OR"; "SLT"] funct;
    Some (FallThrough (IdEx.set_alu_op name (IdEx.set_reg_write true result)) false None)
  else Some (FallThrough result false None).

Definition decode_j_type (if_id : IfId.t) (opcode code : Z) (result : IdEx.t) : dispatch :=
  let address := Z.land code 4095 in
  let result := IdEx.set_jump true (IdEx.set_address address result) in
  if opcode =? 9 then
    FallThrough (IdEx.set_alu_op "JUMP" result) false (Some address)
  else
    FallThrough
      (IdEx.set_rs_val (IfId.pc if_id + 1)
         (IdEx.set_rd 7 (IdEx.set_reg_write true (IdEx.set_alu_op "JAL" result))))
      false (Some address).

Definition decode_i_type (registers : list Z) (EX_MEM : ExMem.t) (MEM_WB : MemWb.t)
    (if_id : IfId.t) (new_ex_mem : option ExMem.t) (opcode code : Z) (result : IdEx.t)
  : option dispatch :=
  let rs := Z.land (Z.shiftr code 9) 7 in
  let rt := Z.land (Z.shiftr code 6) 7 in
  let imm := Z.land code 63 in
  let imm := if negb (Z.land imm 32 =? 0) then imm - 64 else imm in
  rs_reg ← Py.index registers rs;
  rt_reg ← Py.index registers rt;
  let result :=
    IdEx.set_rt_val rt_reg (IdEx.set_rs_val rs_reg (IdEx.set_imm imm
      (IdEx.set_rd rt (IdEx.set_rt rt (IdEx.set_rs rs result))))) in
  let rs_val_fwd := id_forward rs rs_reg EX_MEM MEM_WB new_ex_mem in
  let rt_val_fwd := id_forward rt rt_reg EX_MEM MEM_WB new_ex_mem in
  let target := Some (IfId.pc if_id + 1 + imm) in
  Some
    (if opcode =? 1 then
       FallThrough
         (IdEx.set_alu_op "ADDI" (IdEx.set_reg_write true
            (IdEx.set_mem_to_reg true (IdEx.set_mem_read true result)))) false None
     else if opcode =? 2 then
       FallThrough (IdEx.set_alu_op "ADDI" (IdEx.set_mem_write true result)) false None
     else if opcode =? 3 then
       FallThrough (IdEx.set_alu_op "ADDI" (IdEx.set_reg_write true result)) false None
     else if opcode =? 4 then
       FallThrough (IdEx.set_alu_op "SUBI" (IdEx.set_reg_write true result)) false None
     else if opcode =? 5 then
       FallThrough (IdEx.set_alu_op "SLTI" (IdEx.set_reg_write true result)) false None
     else if opcode =? 6 then
       let result := IdEx.set_alu_op "BEQ" (IdEx.set_branch true result) in
       if rs_val_fwd =? rt_val_fwd then FallThrough result true target
       else FallThrough result false None
     else if opcode =? 7 then
       let result := IdEx.set_alu_op "BNQ" (IdEx.set_branch true result) in
       if negb (rs_val_fwd =? rt_val_fwd) then FallThrough result true target
       else FallThrough result false None
     else if opcode =? 8 then
       FallThrough (IdEx.set_alu_op "ANDI" (IdEx.set_reg_write true result)) false None
     else FallThrough result false None).

(** The two hazard checks that close [_stage_id]: the stall they assert,
    if any, with the record the later of the two leaves in [stall_info]. *)
Definition load_use_hazard (ID_EX : IdEx.t) (result : IdEx.t) : option StallInfo.t :=
  if IdEx.valid ID_EX && IdEx.mem_read ID_EX then
    let ld_rd := IdEx.rd ID_EX in
    let hazard_reg :=
      if (IdEx.rs result =? ld_rd) && negb (ld_rd =? 0) then Some "rs"
      else if (IdEx.rt result =? ld_rd) && negb (ld_rd =? 0)
              && negb (IdEx.mem_write result) then Some "rt"
      else None in
    match hazard_reg with
    | Some hazard_reg =>
        Some {| StallInfo.type := "Load-Use Hazard"; StallInfo.hazard_type := "RAW";
                StallInfo.waiting_reg := "$r" +:+ Py.str ld_rd;
                StallInfo.waiting_for := "LW";
                StallInfo.blocked_instr := "instruction";
                StallInfo.reason :=
                  "$" +:+ hazard_reg +:+ " needs $r" +:+ Py.str ld_rd +:+ " from memory" |}
    | None => None
    end
  else None.

Definition load_branch_hazard (EX_MEM : ExMem.t) (result : IdEx.t) : option StallInfo.t :=
  if ExMem.valid EX_MEM && ExMem.mem_to_reg EX_MEM then
    let ld_rd := ExMem.rd EX_MEM in
    let is_branch_or_jump := IdEx.branch result || IdEx.jump result in
    if is_branch_or_jump && negb (ld_rd =? 0) then
      let needs_rs := IdEx.rs result =? ld_rd in
      let needs_rt := IdEx.rt result =? ld_rd in
      if needs_rs || needs_rt then
        Some {| StallInfo.type := "Load-Use Hazard (Branch)";
                StallInfo.hazard_type := "RAW";
                StallInfo.waiting_reg := "$r" +:+ Py.str ld_rd;
                StallInfo.waiting_for := "LW in MEM stage";
                StallInfo.blocked_instr := "Branch/Jump";
                StallInfo.reason :=
                  "Branch needs $r" +:+ Py.str ld_rd +:+ " from LW still in MEM stage" |}
      else None
    else None
  else None.

(** What [_stage_id] computes from the register file and the latches it
    reads in [self]: the new ID/EX latch, the branch decision, the jump
    target, and the stall it asserts ([Some info]: [self.stall = True] and
    [self.stall_info = info]). [None] is an [IndexError]. *)
Definition decode (registers : list Z) (ID_EX : IdEx.t) (EX_MEM : ExMem.t)
    (MEM_WB : MemWb.t) (if_id : IfId.t) (new_ex_mem : option ExMem.t)
  : option (IdEx.t * bool * option Z * option StallInfo.t) :=
  let result := _empty_id_ex in
  if negb (IfId.valid if_id) then Some (result, false, None, None)
  else
    match IfId.instruction if_id with
    | None => Some (result, false, None, None)
    | Some instruction =>
        match Py.int16 instruction with
        | None => Some (result, false, None, None)
        | Some code =>
            let opcode := Z.land (Z.shiftr code 12) 15 in
            let result :=
              {| IdEx.instruction := Some instruction; IdEx.pc := IfId.pc if_id;
                 IdEx.opcode := opcode; IdEx.rs := 0; IdEx.rt := 0; IdEx.rd := 0;
                 IdEx.funct := 0; IdEx.imm := 0; IdEx.address := 0;
                 IdEx.rs_val := 0; IdEx.rt_val := 0; IdEx.reg_write := false;
                 IdEx.mem_read := false; IdEx.mem_write := false;
                 IdEx.mem_to_reg := false; IdEx.branch := false; IdEx.jump := false;
                 IdEx.alu_op := "NOP"; IdEx.valid := true |} in
            d ←
              (if opcode =? 0 then
                 decode_r_type registers ID_EX EX_MEM MEM_WB new_ex_mem code result
               else if (opcode =? 9) || (opcode =? 10) then
                 Some (decode_j_type if_id opcode code result)
               else
                 decode_i_type registers EX_MEM MEM_WB if_id new_ex_mem opcode code result);
            match d with
            | EarlyReturn result info => Some (result, false, None, Some info)
            | FallThrough result branch_taken jump_target =>
                let stall1 := load_use_hazard ID_EX result in
                let stall2 := load_branch_hazard EX_MEM result in
                Some (result, branch_taken, jump_target,
                      match stall2 with
                      | Some info => Some info
                      | None => stall1
                      end)
            end
        end
    end.

(** [_stage_id]: the decode above; an asserted stall sets [self.stall] and
    [self.stall_info], and nothing else of [self] changes. *)
Definition _stage_id (self : t) (if_id : IfId.t) (new_ex_mem : option ExMem.t)
  : option (t * IdEx.t * bool * option Z) :=
  d ← decode (registers self) (ID_EX self) (EX_MEM self) (MEM_WB self) if_id new_ex_mem;
  Some (set_stall_info
          (match d.2 with
           | Some info => Some info
           | None => stall_info self
           end)
          (set_stall (Py.not_none d.2 || stall self) self),
        d.1.1.1, d.1.1.2, d.1.2).

(** What one call of [step] leaves: a return value and the state, or an
    exception and the state as it was when the exception left the call. *)
Inductive outcome : Type :=
  | Returned (running : bool) (self : t)
  | Raised (self : t).

Definition state_of (o : outcome) : t :=
  match o with
  | Returned _ self => self
  | Raised self => self
  end.

(** The record of [control_hazard] for a taken branch or a jump. *)
Definition control_hazard_record (branch_taken : bool) (jump_target : option Z)
    (new_IF_ID : IfId.t) : ControlHazard.t :=
  let hazard_type := if branch_taken then "Branch" else "Jump" in
  {| ControlHazard.type := "Control Hazard (" +:+ hazard_type +:+ ")";
     ControlHazard.hazard_type := "Control";
     ControlHazard.flushed_instruction :=
       match IfId.instruction new_IF_ID with
       | Some w => if Py.truthy w then Assembler.disassemble w else "NOP"
       | None => "NOP"
       end;
     ControlHazard.target_address := jump_target;
     ControlHazard.reason := hazard_type +:+ " taken â†’ Flushing pipeline" |}.

(** The word of a latch as a condition: [None] and the empty string are false. *)
Definition word_truthy (w : option string) : bool :=
  match w with
  | Some s => Py.truthy s
  | None => false
  end.

(** The key [(pc, word)] that a stage shows for the first time, if any:
    the word is not empty and the key is not in the set yet. *)
Definition first_seen (pc : Z) (word : option string) (seen : gset (Z * string))
  : option (Z * string) :=
  match word with
  | Some w =>
      if Py.truthy w && negb (bool_decide ((pc, w) ∈ seen)) then Some (pc, w) else None
  | None => None
  end.

Definition add_seen (key : option (Z * string)) (seen : gset (Z * string))
  : gset (Z * string) :=
  match key with
  | Some k => {[ k ]} ∪ seen
  | None => seen
  end.

(** The part of [step] that follows the five stages, in the order of the
    source: flush on a taken branch or a jump, stall, commit of the
    latches, cycle count, histories, halt test. [self] is the state the
    stages left; every attribute is given its value after the call. *)
Definition commit (self : t) (old_IF_ID : IfId.t) (old_MEM_WB : MemWb.t)
    (new_MEM_WB : MemWb.t) (new_EX_MEM : ExMem.t) (new_ID_EX : IdEx.t)
    (branch_taken : bool) (jump_target : option Z) (new_IF_ID : IfId.t) : outcome :=
  let id_stage_instr_for_timeline :=
    if IdEx.valid new_ID_EX then IdEx.instruction new_ID_EX else None in
  (* if branch_taken or jump_target is not None: *)
  let flush := branch_taken || Py.not_none jump_target in
  let control_hazard' :=
    if flush then Some (control_hazard_record branch_taken jump_target new_IF_ID)
    else control_hazard self in
  let flush_occurred' := if flush then true else flush_occurred self in
  let flush_count' := if flush then flush_count self + 1 else flush_count self in
  let flushed_IF_ID := if flush then _empty_if_id else new_IF_ID in
  let pc_after_flush :=
    match jump_target with
    | Some target => if flush then target else pc self
    | None => pc self
    end in
  (* if self.stall: *)
  let stall_occurred := stall self in
  let final_ID_EX := if stall_occurred then _empty_id_ex else new_ID_EX in
  let final_IF_ID := if stall_occurred then old_IF_ID else flushed_IF_ID in
  let pc' := if stall_occurred then IfId.pc old_IF_ID + 1 else pc_after_flush in
  let if_id_was_held' := stall_occurred in
  (* self.cycle += 1 *)
  let cycle' := cycle self + 1 in
  (* pipeline history *)
  let if_key :=
    first_seen (IfId.pc final_IF_ID) (IfId.instruction final_IF_ID) (_seen_in_if self) in
  let id_shown :=
    if stall_occurred then (IfId.instruction old_IF_ID, IfId.pc old_IF_ID)
    else if word_truthy id_stage_instr_for_timeline
    then (id_stage_instr_for_timeline, IfId.pc old_IF_ID)
    else (IdEx.instruction final_ID_EX, IdEx.pc final_ID_EX) in
  let wb_key :=
    first_seen (MemWb.pc old_MEM_WB)
               (if MemWb.valid old_MEM_WB then MemWb.instruction old_MEM_WB else None)
               (_seen_in_wb self) in
  let cycle_snapshot :=
    {| Snapshot.cycle := cycle';
       Snapshot.IF_word := snd <$> if_key; Snapshot.IF_PC := fst <$> if_key;
       Snapshot.ID_word := fst id_shown; Snapshot.ID_PC := Some (snd id_shown);
       Snapshot.EX_word := ExMem.instruction new_EX_MEM;
       Snapshot.EX_PC := Some (ExMem.pc new_EX_MEM);
       Snapshot.MEM_word := MemWb.instruction new_MEM_WB;
       Snapshot.MEM_PC := Some (MemWb.pc new_MEM_WB);
       Snapshot.WB_word := snd <$> wb_key; Snapshot.WB_PC := fst <$> wb_key |} in
  let stall_history' :=
    if stall_occurred || (negb (IdEx.valid final_ID_EX) && IfId.valid old_IF_ID)
    then (stall_history self ++ [cycle'])%list else stall_history self in
  let forward_history' :=
    if Py.not_none (forward_a self) || Py.not_none (forward_b self)
    then (forward_history self
          ++ [{| ForwardEntry.cycle := cycle';
                 ForwardEntry.forward_a := forward_a self;
                 ForwardEntry.forward_b := forward_b self |}])%list
    else forward_history self in
  (* halt test *)
  let halted' :=
    if negb (IfId.valid final_IF_ID) && negb (IdEx.valid final_ID_EX)
       && negb (ExMem.valid new_EX_MEM) && negb (MemWb.valid new_MEM_WB)
       && (Assembler.len (instruction_memory self) <=? pc')
    then true else halted self in
  Returned (negb halted')
    {| pc := pc'; registers := registers self;
       instruction_memory := instruction_memory self;
       data_memory := data_memory self; cycle := cycle';
       IF_ID := final_IF_ID; ID_EX := final_ID_EX;
       EX_MEM := new_EX_MEM; MEM_WB := new_MEM_WB;
       stall := false; flush_if := flush_if self; flush_id := flush_id self;
       halted := halted';
       forward_a := forward_a self; forward_b := forward_b self;
       stall_info := stall_info self; memory_warning := memory_warning self;
       control_hazard := control_hazard'; flush_occurred := flush_occurred';
       if_id_was_held := if_id_was_held';
       pipeline_history := (pipeline_history self ++ [cycle_snapshot])%list;
       stall_history := stall_history'; forward_history := forward_history';
       flush_count := flush_count';
       _seen_in_if := add_seen if_key (_seen_in_if self);
       _seen_in_wb := add_seen wb_key (_seen_in_wb self) |}.

(** The records that every running [step] clears first. *)
Definition clear_records (self : t) : t :=
  set_flush_occurred false
    (set_control_hazard None
       (set_memory_warning None
          (set_stall_info None (set_forward_b None (set_forward_a None self))))).

(** [step]: one clock cycle, the stages run from WB back to IF. *)
Definition step (self : t) : outcome :=
  if halted self then Returned false self
  else
    let self := clear_records self in
    let old_IF_ID := IF_ID self in
    let old_ID_EX := ID_EX self in
    let old_EX_MEM := EX_MEM self in
    let old_MEM_WB := MEM_WB self in
    match _stage_wb self old_MEM_WB with
    | None => Raised self
    | Some self =>
        let mem := _stage_mem self old_EX_MEM in
        let self := mem.1 in
        let new_MEM_WB := mem.2 in
        let ex := _stage_ex self old_ID_EX old_EX_MEM old_MEM_WB in
        let self := ex.1 in
        let new_EX_MEM := ex.2 in
        match _stage_id self old_IF_ID (Some new_EX_MEM) with
        | None => Raised self
        | Some (self, new_ID_EX, branch_taken, jump_target) =>
            match _stage_if self with
            | None => Raised self
            | Some (self, new_IF_ID) =>
                commit self old_IF_ID old_MEM_WB new_MEM_WB new_EX_MEM new_ID_EX
                       branch_taken jump_target new_IF_ID
            end
        end
    end.

(** The state after [n] calls of [step], a call that raised included. *)
Fixpoint steps (n : nat) (self : t) : t :=
  match n with
  | O => self
  | S n' => steps n' (state_of (step self))
  end.

(** The states a CPU can be in: a program was loaded into it, and [step]
    was called any number of times. *)
Inductive reachable : t -> Prop :=
  | reachable_load (self : t) (machine_codes : list string) :
      reachable (load_program self machine_codes)
  | reachable_new : reachable new
  | reachable_step (self : t) : reachable self -> reachable (state_of (step self)).

(** *** The snapshot of [get_state] *)

(** A float of the performance block: the exact quotient that the source
    divides and rounds for display ([Quot 0 1] when it does not divide). *)
Inductive quotient : Type := Quot (num den : Z).

Module Performance.
Record t : Type := mk {
  cycles : Z;
  instructions : Z;
  cpi : quotient;
  stall_cycles : Z;
  stall_rate : quotient;
  forward_cycles : Z;
  forward_rate : quotient;
  flush_count : Z
}.
End Performance.

Module State.
Record t : Type := mk {
  pc : Z;
  cycle : Z;
  registers : list Z;
  data_memory : gmap string Z;
  instruction_memory : list string;
  IF_ID : IfId.t * string;
  ID_EX : IdEx.t * string;
  EX_MEM : ExMem.t * string;
  MEM_WB : MemWb.t * string;
  halted : bool;
  forward_a : option Forward.t;
  forward_b : option Forward.t;
  stall_info : option StallInfo.t;
  memory_warning : option MemoryWarning.t;
  control_hazard : option ControlHazard.t;
  flush_occurred : bool;
  pipeline_history : list Snapshot.t;
  stall_history : list Z;
  forward_history : list ForwardEntry.t;
  is_stalling : bool;
  performance : Performance.t
}.
End State.

(** The ['disasm'] entry that [_pipeline_stage_display] adds to a latch. *)
Definition disasm_of (instruction : option string) : string :=
  match instruction with
  | Some w => if Py.truthy w then Assembler.disassemble w else "NOP"
  | None => "NOP"
  end.

(** [{str(k): v for k, v in d.items()}]. *)
Definition str_keys (d : gmap Z Z) : list (string * Z) :=
  (fun kv => (Py.str (fst kv), snd kv)) <$> map_to_list d.

(** A dictionary built from its items in order, later items winning. *)
Definition dict_of_items {K V} `{Countable K} (items : list (K * V)) : gmap K V :=
  foldl (fun m kv => <[fst kv := snd kv]> m) ∅ items.

Definition get_state (self : t) : State.t :=
  let instructions_completed := Z.of_nat (size (_seen_in_wb self)) in
  let total_cycles := cycle self in
  let stall_cycles := Assembler.len (stall_history self) in
  let forward_cycles := Assembler.len (forward_history self) in
  let cpi :=
    if 0 <? instructions_completed then Quot total_cycles instructions_completed
    else Quot 0 1 in
  let stall_rate :=
    if 0 <? total_cycles then Quot (stall_cycles * 100) total_cycles else Quot 0 1 in
  let forward_rate :=
    if 0 <? total_cycles then Quot (forward_cycles * 100) total_cycles else Quot 0 1 in
  {| State.pc := pc self;
     State.cycle := cycle self;
     State.registers := registers self;
     State.data_memory := dict_of_items (str_keys (data_memory self));
     State.instruction_memory := instruction_memory self;
     State.IF_ID := (IF_ID self, disasm_of (IfId.instruction (IF_ID self)));
     State.ID_EX := (ID_EX self, disasm_of (IdEx.instruction (ID_EX self)));
     State.EX_MEM := (EX_MEM self, disasm_of (ExMem.instruction (EX_MEM self)));
     State.MEM_WB := (MEM_WB self, disasm_of (MemWb.instruction (MEM_WB self)));
     State.halted := halted self;
     State.forward_a := forward_a self;
     State.forward_b := forward_b self;
     State.stall_info := stall_info self;
     State.memory_warning := memory_warning self;
     State.control_hazard := control_hazard self;
     State.flush_occurred := flush_occurred self;
     State.pipeline_history := pipeline_history self;
     State.stall_history := stall_history self;
     State.forward_history := forward_history self;
     State.is_stalling := stall self;
     State.performance :=
       {| Performance.cycles := total_cycles;
          Performance.instructions := instructions_completed;
          Performance.cpi := cpi;
          Performance.stall_cycles := stall_cycles;
          Performance.stall_rate := stall_rate;
          Performance.forward_cycles := forward_cycles;
          Performance.forward_rate := forward_rate;
          Performance.flush_count := flush_count self |} |}.

(** *** Serialisation: [to_json] and [from_json]

    The value handed to [json.dumps] and received from [json.loads] is
    kept as a tree; the text between the two calls is not modelled: for a
    tree of dictionaries with string keys, lists, strings, integers,
    booleans and [None], [json.loads (json.dumps v)] is [v]. *)
#[local] Unset Elimination Schemes.
Inductive json : Type :=
  | JNull
  | JBool (b : bool)
  | JInt (n : Z)
  | JStr (s : string)
  | JList (l : list json)
  | JDict (d : list (string * json)).
#[local] Set Elimination Schemes.

Definition enc_word (w : option string) : json :=
  match w with
  | Some s => JStr s
  | None => JNull
  end.

Definition enc_int (n : option Z) : json :=
  match n with
  | Some z => JInt z
  | None => JNull
  end.

Definition enc_if_id (l : IfId.t) : json :=
  JDict [("instruction", enc_word (IfId.instruction l)); ("pc", JInt (IfId.pc l));
         ("valid", JBool (IfId.valid l))].

Definition enc_id_ex (l : IdEx.t) : json :=
  JDict [("instruction", enc_word (IdEx.instruction l)); ("pc", JInt (IdEx.pc l));
         ("opcode", JInt (IdEx.opcode l)); ("rs", JInt (IdEx.rs l));
         ("rt", JInt (IdEx.rt l)); ("rd", JInt (IdEx.rd l));
         ("funct", JInt (IdEx.funct l)); ("imm", JInt (IdEx.imm l));
         ("address", JInt (IdEx.address l)); ("rs_val", JInt (IdEx.rs_val l));
         ("rt_val", JInt (IdEx.rt_val l)); ("reg_write", JBool (IdEx.reg_write l));
         ("mem_read", JBool (IdEx.mem_read l)); ("mem_write", JBool (IdEx.mem_write l));
         ("mem_to_reg", JBool (IdEx.mem_to_reg l)); ("branch", JBool (IdEx.branch l));
         ("jump", JBool (IdEx.jump l)); ("alu_op", JStr (IdEx.alu_op l));
         ("valid", JBool (IdEx.valid l))].

Definition enc_ex_mem (l : ExMem.t) : json :=
  JDict [("instruction", enc_word (ExMem.instruction l)); ("pc", JInt (ExMem.pc l));
         ("alu_result", JInt (ExMem.alu_result l)); ("rt_val", JInt (ExMem.rt_val l));
         ("rd", JInt (ExMem.rd l)); ("reg_write", JBool (ExMem.reg_write l));
         ("mem_read", JBool (ExMem.mem_read l)); ("mem_write", JBool (ExMem.mem_write l));
         ("mem_to_reg", JBool (ExMem.mem_to_reg l)); ("valid", JBool (ExMem.valid l))].

Definition enc_mem_wb (l : MemWb.t) : json :=
  JDict [("instruction", enc_word (MemWb.instruction l)); ("pc", JInt (MemWb.pc l));
         ("alu_result", JInt (MemWb.alu_result l)); ("mem_data", JInt (MemWb.mem_data l));
         ("rd", JInt (MemWb.rd l)); ("reg_write", JBool (MemWb.reg_write l));
         ("mem_to_reg", JBool (MemWb.mem_to_reg l)); ("valid", JBool (MemWb.valid l))].

Definition enc_snapshot (c : Snapshot.t) : json :=
  JDict [("cycle", JInt (Snapshot.cycle c));
         ("IF", enc_word (Snapshot.IF_word c)); ("IF_PC", enc_int (Snapshot.IF_PC c));
         ("ID", enc_word (Snapshot.ID_word c)); ("ID_PC", enc_int (Snapshot.ID_PC c));
         ("EX", enc_word (Snapshot.EX_word c)); ("EX_PC", enc_int (Snapshot.EX_PC c));
         ("MEM", enc_word (Snapshot.MEM_word c)); ("MEM_PC", enc_int (Snapshot.MEM_PC c));
         ("WB", enc_word (Snapshot.WB_word c)); ("WB_PC", enc_int (Snapshot.WB_PC c))].

Definition enc_forward (f : option Forward.t) : json :=
  match f with
  | Some r => JDict [("source", JStr (Forward.source r)); ("reg", JStr (Forward.reg r));
                     ("value", JInt (Forward.value r))]
  | None => JNull
  end.

Definition enc_forward_entry (e : ForwardEntry.t) : json :=
  JDict [("cycle", JInt (ForwardEntry.cycle e));
         ("forward_a", enc_forward (ForwardEntry.forward_a e));
         ("forward_b", enc_forward (ForwardEntry.forward_b e))].

(** [[list(t) for t in s]] for a set of [(pc, word)] pairs. Python lists
    the elements in the order of its hash table; here they come in the
    order of [elements], and [dec_seen] reads them back in any order. *)
Definition enc_seen (s : gset (Z * string)) : json :=
  JList ((fun k => JList [JInt (fst k); JStr (snd k)]) <$> elements s).

Definition to_json (self : t) : json :=
  JDict [("pc", JInt (pc self));
         ("cycle", JInt (cycle self));
         ("registers", JList (JInt <$> registers self));
         ("data_memory", JDict ((fun kv => (fst kv, JInt (snd kv))) <$> str_keys (data_memory self)));
         ("instruction_memory", JList (JStr <$> instruction_memory self));
         ("IF_ID", enc_if_id (IF_ID self));
         ("ID_EX", enc_id_ex (ID_EX self));
         ("EX_MEM", enc_ex_mem (EX_MEM self));
         ("MEM_WB", enc_mem_wb (MEM_WB self));
         ("halted", JBool (halted self));
         ("stall", JBool (stall self));
         ("pipeline_history", JList (enc_snapshot <$> pipeline_history self));
         ("stall_history", JList (JInt <$> stall_history self));
         ("forward_history", JList (enc_forward_entry <$> forward_history self));
         ("flush_count", JInt (flush_count self));
         ("_seen_in_if", enc_seen (_seen_in_if self));
         ("_seen_in_wb", enc_seen (_seen_in_wb self))].

(** Reading a tree back. [from_json] stores what it finds; in the model a
    tree that is not the image of a value of the field's type is refused
    with [None], as is a missing key that the source indexes directly. *)
Definition dec_word (j : json) : option (option string) :=
  match j with
  | JNull => Some None
  | JStr s => Some (Some s)
  | _ => None
  end.

Definition dec_int (j : json) : option Z :=
  match j with
  | JInt n => Some n
  | _ => None
  end.

Definition dec_opt_int (j : json) : option (option Z) :=
  match j with
  | JNull => Some None
  | JInt n => Some (Some n)
  | _ => None
  end.

Definition dec_bool (j : json) : option bool :=
  match j with
  | JBool b => Some b
  | _ => None
  end.

Definition dec_str (j : json) : option string :=
  match j with
  | JStr s => Some s
  | _ => None
  end.

Definition dec_list {A} (f : json -> option A) (j : json) : option (list A) :=
  match j with
  | JList l => mapM f l
  | _ => None
  end.

Definition items (j : json) : option (list (string * json)) :=
  match j with
  | JDict d => Some d
  | _ => None
  end.

(** [d[k]], then the reading of the value. *)
Definition field {A} (d : list (string * json)) (k : string) (f : json -> option A)
  : option A :=
  Py.assoc d k ≫= f.

(** [d.get(k, default)], then the reading of the value. *)
Definition field_default {A} (d : list (string * json)) (k : string)
    (f : json -> option A) (dflt : A) : option A :=
  match Py.assoc d k with
  | Some j => f j
  | None => Some dflt
  end.

Definition dec_if_id (j : json) : option IfId.t :=
  d ← items j;
  instruction ← field d "instruction" dec_word;
  pc ← field d "pc" dec_int;
  valid ← field d "valid" dec_bool;
  Some {| IfId.instruction := instruction; IfId.pc := pc; IfId.valid := valid |}.

Definition dec_id_ex (j : json) : option IdEx.t :=
  d ← items j;
  instruction ← field d "instruction" dec_word;
  pc ← field d "pc" dec_int;
  opcode ← field d "opcode" dec_int;
  rs ← field d "rs" dec_int;
  rt ← field d "rt" dec_int;
  rd ← field d "rd" dec_int;
  funct ← field d "funct" dec_int;
  imm ← field d "imm" dec_int;
  address ← field d "address" dec_int;
  rs_val ← field d "rs_val" dec_int;
  rt_val ← field d "rt_val" dec_int;
  reg_write ← field d "reg_write" dec_bool;
  mem_read ← field d "mem_read" dec_bool;
  mem_write ← field d "mem_write" dec_bool;
  mem_to_reg ← field d "mem_to_reg" dec_bool;
  branch ← field d "branch" dec_bool;
  jump ← field d "jump" dec_bool;
  alu_op ← field d "alu_op" dec_str;
  valid ← field d "valid" dec_bool;
  Some {| IdEx.instruction := instruction; IdEx.pc := pc; IdEx.opcode := opcode;
          IdEx.rs := rs; IdEx.rt := rt; IdEx.rd := rd; IdEx.funct := funct;
          IdEx.imm := imm; IdEx.address := address; IdEx.rs_val := rs_val;
          IdEx.rt_val := rt_val; IdEx.reg_write := reg_write;
          IdEx.mem_read := mem_read; IdEx.mem_write := mem_write;
          IdEx.mem_to_reg := mem_to_reg; IdEx.branch := branch; IdEx.jump := jump;
          IdEx.alu_op := alu_op; IdEx.valid := valid |}.

Definition dec_ex_mem (j : json) : option ExMem.t :=
  d ← items j;
  instruction ← field d "instruction" dec_word;
  pc ← field d "pc" dec_int;
  alu_result ← field d "alu_result" dec_int;
  rt_val ← field d "rt_val" dec_int;
  rd ← field d "rd" dec_int;
  reg_write ← field d "reg_write" dec_bool;
  mem_read ← field d "mem_read" dec_bool;
  mem_write ← field d "mem_write" dec_bool;
  mem_to_reg ← field d "mem_to_reg" dec_bool;
  valid ← field d "valid" dec_bool;
  Some {| ExMem.instruction := instruction; ExMem.pc := pc;
          ExMem.alu_result := alu_result; ExMem.rt_val := rt_val; ExMem.rd := rd;
          ExMem.reg_write := reg_write; ExMem.mem_read := mem_read;
          ExMem.mem_write := mem_write; ExMem.mem_to_reg := mem_to_reg;
          ExMem.valid := valid |}.

Definition dec_mem_wb (j : json) : option MemWb.t :=
  d ← items j;
  instruction ← field d "instruction" dec_word;
  pc ← field d "pc" dec_int;
  alu_result ← field d "alu_result" dec_int;
  mem_data ← field d "mem_data" dec_int;
  rd ← field d "rd" dec_int;
  reg_write ← field d "reg_write" dec_bool;
  mem_to_reg ← field d "mem_to_reg" dec_bool;
  valid ← field d "valid" dec_bool;
  Some {| MemWb.instruction := instruction; MemWb.pc := pc;
          MemWb.alu_result := alu_result; MemWb.mem_data := mem_data; MemWb.rd := rd;
          MemWb.reg_write := reg_write; MemWb.mem_to_reg := mem_to_reg;
          MemWb.valid := valid |}.

Definition dec_snapshot (j : json) : option Snapshot.t :=
  d ← items j;
  cycle ← field d "cycle" dec_int;
  if_w ← field d "IF" dec_word;
  if_pc ← field d "IF_PC" dec_opt_int;
  id_w ← field d "ID" dec_word;
  id_pc ← field d "ID_PC" dec_opt_int;
  ex_w ← field d "EX" dec_word;
  ex_pc ← field d "EX_PC" dec_opt_int;
  mem_w ← field d "MEM" dec_word;
  mem_pc ← field d "MEM_PC" dec_opt_int;
  wb_w ← field d "WB" dec_word;
  wb_pc ← field d "WB_PC" dec_opt_int;
  Some {| Snapshot.cycle := cycle;
          Snapshot.IF_word := if_w; Snapshot.IF_PC := if_pc;
          Snapshot.ID_word := id_w; Snapshot.ID_PC := id_pc;
          Snapshot.EX_word := ex_w; Snapshot.EX_PC := ex_pc;
          Snapshot.MEM_word := mem_w; Snapshot.MEM_PC := mem_pc;
          Snapshot.WB_word := wb_w; Snapshot.WB_PC := wb_pc |}.

Definition dec_forward (j : json) : option (option Forward.t) :=
  match j with
  | JNull => Some None
  | JDict d =>
      source ← field d "source" dec_str;
      reg ← field d "reg" dec_str;
      value ← field d "value" dec_int;
      Some (Some {| Forward.source := source; Forward.reg := reg; Forward.value := value |})
  | _ => None
  end.

Definition dec_forward_entry (j : json) : option ForwardEntry.t :=
  d ← items j;
  cycle ← field d "cycle" dec_int;
  fa ← field d "forward_a" dec_forward;
  fb ← field d "forward_b" dec_forward;
  Some {| ForwardEntry.cycle := cycle; ForwardEntry.forward_a := fa;
          ForwardEntry.forward_b := fb |}.

(** [tuple(t)] for an entry of a "seen" list. *)
Definition dec_key (j : json) : option (Z * string) :=
  match j with
  | JList [JInt p; JStr w] => Some (p, w)
  | _ => None
  end.

(** [{tuple(t) for t in l}]. *)
Definition dec_seen (j : json) : option (gset (Z * string)) :=
  l ← dec_list dec_key j;
  Some (list_to_set l).

(** [{int(k): v for k, v in d.items()}]. *)
Definition dec_data_memory (j : json) : option (gmap Z Z) :=
  d ← items j;
  l ← mapM (fun kv => k ← Py.int10 (fst kv); v ← dec_int (snd kv); Some (k, v)) d;
  Some (dict_of_items l).

(** [from_json]: a new CPU, then the fields of the tree stored in it. *)
Definition from_json (state : json) : option t :=
  d ← items state;
  let cpu := new in
  pc' ← field d "pc" dec_int;
  cycle' ← field d "cycle" dec_int;
  registers' ← field d "registers" (dec_list dec_int);
  data_memory' ← field d "data_memory" dec_data_memory;
  instruction_memory' ← field d "instruction_memory" (dec_list dec_str);
  IF_ID' ← field d "IF_ID" dec_if_id;
  ID_EX' ← field d "ID_EX" dec_id_ex;
  EX_MEM' ← field d "EX_MEM" dec_ex_mem;
  MEM_WB' ← field d "MEM_WB" dec_mem_wb;
  halted' ← field d "halted" dec_bool;
  stall' ← field_default d "stall" dec_bool false;
  pipeline_history' ← field_default d "pipeline_history" (dec_list dec_snapshot) [];
  stall_history' ← field_default d "stall_history" (dec_list dec_int) [];
  forward_history' ← field_default d "forward_history" (dec_list dec_forward_entry) [];
  seen_if ← field_default d "_seen_in_if" dec_seen ∅;
  seen_wb ← field_default d "_seen_in_wb" dec_seen ∅;
  flush_count' ← field_default d "flush_count" dec_int 0;
  Some {| pc := pc'; registers := registers'; instruction_memory := instruction_memory';
          data_memory := data_memory'; cycle := cycle';
          IF_ID := IF_ID'; ID_EX := ID_EX'; EX_MEM := EX_MEM'; MEM_WB := MEM_WB';
          stall := stall'; flush_if := flush_if cpu; flush_id := flush_id cpu;
          halted := halted';
          forward_a := forward_a cpu; forward_b := forward_b cpu;
          stall_info := stall_info cpu; memory_warning := memory_warning cpu;
          control_hazard := control_hazard cpu; flush_occurred := flush_occurred cpu;
          if_id_was_held := if_id_was_held cpu;
          pipeline_history := pipeline_history'; stall_history := stall_history';
          forward_history := forward_history'; flush_count := flush_count';
          _seen_in_if := seen_if; _seen_in_wb := seen_wb |}.

End MIPS_CPU.

(** * The views

    The four views of [simulator/views.py] that run the CPU kept in the
    session. The session is the pair of its two entries, each absent or
    present; an entry that holds the text of [to_json] is the tree it
    encodes. A response is the dictionary passed to [JsonResponse], without
    its [success] entry, which is [True] in the first three forms and
    [False] in the last two. The views catch every exception and answer
    with a prefix followed by the text of the exception; the response keeps
    the prefix. *)

Module Views.

Import MIPS_CPU.

Record session : Type := {
  cpu_state : option json;
  cpu_state_history : option (list json)
}.

Inductive response : Type :=
  | StepResponse (cpu_state : State.t) (running can_step_back : bool)
  | ResetResponse (cpu_state : State.t)
  | RunResponse (cpu_state : State.t) (cycles_executed : Z) (halted : bool)
  | ErrorResponse (error : string)
  | ExceptionResponse (prefix : string).

(** [request.session.get('cpu_state_history', [])]. *)
Definition state_history_of (s : session) : list json :=
  default [] (cpu_state_history s).

(** [state_history[-100:]]. *)
Definition last_100 (state_history : list json) : list json :=
  drop (length state_history - 100) state_history.

Definition step_cpu (s : session) : session * response :=
  match cpu_state s with
  | None => (s, ErrorResponse "No program loaded. Please assemble code first.")
  | Some cpu_json =>
      let state_history := (state_history_of s ++ [cpu_json])%list in
      let state_history :=
        if 100 <? Assembler.len state_history then last_100 state_history
        else state_history in
      let s := {| cpu_state := cpu_state s; cpu_state_history := Some state_history |} in
      match from_json cpu_json with
      | None => (s, ExceptionResponse "Execution error")
      | Some cpu =>
          match step cpu with
          | Raised _ => (s, ExceptionResponse "Execution error")
          | Returned running cpu =>
              ({| cpu_state := Some (to_json cpu);
                  cpu_state_history := Some state_history |},
               StepResponse (get_state cpu) running (0 <? Assembler.len state_history))
          end
      end
  end.

Definition step_back_cpu (s : session) : session * response :=
  let state_history := state_history_of s in
  match last state_history with
  | None => (s, ErrorResponse "No previous state to go back to.")
  | Some previous_state =>
      let state_history := take (length state_history - 1) state_history in
      let s := {| cpu_state := Some previous_state;
                  cpu_state_history := Some state_history |} in
      match from_json previous_state with
      | None => (s, ExceptionResponse "Step back error")
      | Some cpu =>
          (s, StepResponse (get_state cpu) (negb (halted cpu))
                (0 <? Assembler.len state_history))
      end
  end.

(** [cpu.reset()] followed by the assignment of the instruction memory
    that was copied before. *)
Definition reset_keeping_program (cpu : t) : t :=
  let instruction_memory := instruction_memory cpu in
  let cpu := reset cpu in
  {| pc := pc cpu; registers := registers cpu; instruction_memory := instruction_memory;
     data_memory := data_memory cpu; cycle := cycle cpu;
     IF_ID := IF_ID cpu; ID_EX := ID_EX cpu; EX_MEM := EX_MEM cpu;
     MEM_WB := MEM_WB cpu; stall := stall cpu; flush_if := flush_if cpu;
     flush_id := flush_id cpu; halted := halted cpu;
     forward_a := forward_a cpu; forward_b := forward_b cpu;
     stall_info := stall_info cpu; memory_warning := memory_warning cpu;
     control_hazard := control_hazard cpu; flush_occurred := flush_occurred cpu;
     if_id_was_held := if_id_was_held cpu;
     pipeline_history := pipeline_history cpu; stall_history := stall_history cpu;
     forward_history := forward_history cpu; flush_count := flush_count cpu;
     _seen_in_if := _seen_in_if cpu; _seen_in_wb := _seen_in_wb cpu |}.

Definition reset_cpu (s : session) : session * response :=
  match cpu_state s with
  | Some cpu_json =>
      match from_json cpu_json with
      | None => (s, ExceptionResponse "Reset error")
      | Some cpu =>
          let cpu := reset_keeping_program cpu in
          ({| cpu_state := Some (to_json cpu); cpu_state_history := Some [] |},
           ResetResponse (get_state cpu))
      end
  | None =>
      let cpu := new in
      ({| cpu_state := Some (to_json cpu); cpu_state_history := cpu_state_history s |},
       ResetResponse (get_state cpu))
  end.

(** The loop [while cpu.step() and cycles_executed < max_cycles:
    cycles_executed += 1] of [run_all]: [Some None] when a call of [step]
    raises, [None] when [fuel] iterations do not reach the end of the
    loop. *)
Definition max_cycles : Z := 1000.

Fixpoint run_loop (fuel : nat) (cpu : t) (cycles_executed : Z) : option (option (t * Z)) :=
  match fuel with
  | O => None
  | S fuel =>
      match step cpu with
      | Raised _ => Some None
      | Returned running cpu =>
          if running && (cycles_executed <? max_cycles)
          then run_loop fuel cpu (cycles_executed + 1)
          else Some (Some (cpu, cycles_executed))
      end
  end.

(** [run_all]; the loop ends within 1001 iterations, see
    [run_all_counts]. *)
Definition run_all (s : session) : option (session * response) :=
  match cpu_state s with
  | None => Some (s, ErrorResponse "No program loaded. Please assemble code first.")
  | Some cpu_json =>
      match from_json cpu_json with
      | None => Some (s, ExceptionResponse "Execution error")
      | Some cpu =>
          outcome ← run_loop 1001 cpu 0;
          match outcome with
          | None => Some (s, ExceptionResponse "Execution error")
          | Some (cpu, cycles_executed) =>
              Some ({| cpu_state := Some (to_json cpu);
                       cpu_state_history := cpu_state_history s |},
                    RunResponse (get_state cpu) cycles_executed (halted cpu))
          end
      end
  end.

End Views.

(** * Definitions used by the statements and the proofs *)

Import Assembler MIPS_CPU.

(** ** Integers and their decimal text *)

(** The value of a decimal numeral read from the left with an accumulator,
    as [Py.scan_digits] reads it. *)

Fixpoint uint_val (d : Decimal.uint) (acc : Z) : Z :=
  match d with
  | Decimal.Nil => acc
  | Decimal.D0 l => uint_val l (acc * 10 + 0)
  | Decimal.D1 l => uint_val l (acc * 10 + 1)
  | Decimal.D2 l => uint_val l (acc * 10 + 2)
  | Decimal.D3 l => uint_val l (acc * 10 + 3)
  | Decimal.D4 l => uint_val l (acc * 10 + 4)
  | Decimal.D5 l => uint_val l (acc * 10 + 5)
  | Decimal.D6 l => uint_val l (acc * 10 + 6)
  | Decimal.D7 l => uint_val l (acc * 10 + 7)
  | Decimal.D8 l => uint_val l (acc * 10 + 8)
  | Decimal.D9 l => uint_val l (acc * 10 + 9)
  end.


(** ** The words the encoder can produce *)

(** The integers [0 .. n-1]. *)

Definition zrange (n : nat) : list Z := map Z.of_nat (seq 0 n).


(** A word re-assembles: its disassembly, tokenized as one line and
    encoded at address 0 with an empty label table, is the word again; a
    word is of 16 bits, and an LW or SW comes back in the two-operand
    form. *)
Definition reassembles (w : Z) : bool :=
  let text := disassemble (Py.format_04X w) in
  (0 <=? w) && (w <? 65536)
  &&
  match tokenize_line text with
  | (None, Some mnemonic, operands) =>
      match encode_instruction mnemonic operands ∅ 0 1 with
      | Ok w' =>
          (w' =? w)
          && (if (Z.shiftr w 12 =? 1) || (Z.shiftr w 12 =? 2)
              then (length operands =? 2)%nat else true)
      | Raise _ => false
      end
  | _ => false
  end.

(** The four shapes of a word that [encode_instruction] returns. *)

Definition encoder_image (w : Z) : Prop :=
  (exists f rs rt rd, In f (zrange 5) /\ In rs (zrange 8) /\ In rt (zrange 8)
     /\ In rd (zrange 8) /\ w = encode_r_type rs rt rd f)
  \/ (exists rs, In rs (zrange 8) /\ w = encode_r_type rs 0 0 5)
  \/ (exists op rs rt imm, In op (map snd I_TYPE_OPCODES) /\ In rs (zrange 8)
        /\ In rt (zrange 8) /\ In imm (zrange 64) /\ w = encode_i_type op rs rt imm)
  \/ (exists op a, In op (map snd J_TYPE_OPCODES) /\ In a (zrange 4096)
        /\ w = encode_j_type op a).


(** ** Invariants of the CPU *)

(** A value of 16 bits. *)

Definition word16 (v : Z) : Prop := 0 <= v <= 65535.

Record well_formed (self : t) : Prop := {
  wf_length : length (registers self) = 8%nat;
  wf_registers : Forall word16 (registers self);
  wf_zero : registers self !! 0%nat = Some 0;
  wf_memory : map_Forall (fun _ v => word16 v) (data_memory self);
  wf_id_ex : 0 <= IdEx.rd (ID_EX self) < 8;
  wf_ex_mem : 0 <= ExMem.rd (EX_MEM self) < 8;
  wf_mem_wb : 0 <= MemWb.rd (MEM_WB self) < 8
}.

Definition dispatch_result (d : dispatch) : IdEx.t :=
  match d with
  | EarlyReturn result _ => result
  | FallThrough result _ _ => result
  end.


(** What decode returns for an invalid IF/ID latch or a word it cannot read. *)

Definition no_decode : IdEx.t * bool * option Z * option StallInfo.t :=
  (_empty_id_ex, false, None, None).

(** The per-cycle records of a halted CPU are the cleared ones. *)
Definition quiet (self : t) : Prop :=
  halted self = true ->
  forward_a self = None /\ forward_b self = None /\ stall_info self = None
  /\ memory_warning self = None /\ control_hazard self = None
  /\ flush_occurred self = false.


(** A valid IF/ID latch holds a word that was fetched from the instruction
    memory, and the program counter is one past its address. *)
Definition fetch_point (self : t) : Prop :=
  IfId.valid (IF_ID self) = true ->
  - len (instruction_memory self) <= IfId.pc (IF_ID self)
  /\ pc self = IfId.pc (IF_ID self) + 1.


(** ** One cycle seen from the state before it *)

(** The views of one cycle: what each stage of [step self] computes, as
    a function of the state before the call. The stages run after
    [clear_records], and none of them reads what an earlier one wrote,
    except decode, which reads the registers after write-back. *)
Definition wb_registers (self : t) : option (list Z) :=
  write_back (registers self) (MEM_WB self).

Definition mem_result (self : t) : MemWb.t := mem_latch (data_memory self) (EX_MEM self).

Definition mem_memory (self : t) : gmap Z Z := mem_store (data_memory self) (EX_MEM self).

Definition ex_result (self : t) : ExMem.t :=
  ex_latch (ID_EX self) (EX_MEM self) (MEM_WB self) None None.

Definition decode_of_cycle (self : t)
  : option (IdEx.t * bool * option Z * option StallInfo.t) :=
  regs ← wb_registers self;
  decode regs (ID_EX self) (EX_MEM self) (MEM_WB self) (IF_ID self) (Some (ex_result self)).

(** The hazard unit asserts a stall in the cycle that [step self] runs. *)
Definition asserts_stall (self : t) : bool :=
  match decode_of_cycle self with
  | Some d => Py.not_none d.2
  | None => false
  end.


(** The stall flag when [step] tests it: asserted by the decode of the
    cycle, or still set from before. *)
Definition stalled (self : t) (d : IdEx.t * bool * option Z * option StallInfo.t) : bool :=
  Py.not_none d.2 || stall self.

(** Decode resolved a taken branch or a jump. *)
Definition redirects (d : IdEx.t * bool * option Z * option StallInfo.t) : bool :=
  d.1.1.2 || Py.not_none d.1.2.

(** What a call of [step] that returns leaves in [self'], given what
    write-back ([regs]), decode ([d]) and fetch ([fetched]) computed. *)
Record cycle_facts (self self' : t) (regs : list Z)
    (d : IdEx.t * bool * option Z * option StallInfo.t) (fetched : IfId.t) : Prop := {
  cf_wb : wb_registers self = Some regs;
  cf_decode : decode_of_cycle self = Some d;
  cf_fetch : fetch (pc self) (instruction_memory self) = Some fetched;
  cf_registers : registers self' = regs;
  cf_data_memory : data_memory self' = mem_memory self;
  cf_instruction_memory : instruction_memory self' = instruction_memory self;
  cf_MEM_WB : MEM_WB self' = mem_result self;
  cf_EX_MEM : EX_MEM self' = ex_result self;
  cf_ID_EX : ID_EX self' = (if stalled self d then _empty_id_ex else d.1.1.1);
  cf_IF_ID :
    IF_ID self' =
      (if stalled self d then IF_ID self
       else if redirects d then _empty_if_id else fetched);
  cf_pc :
    pc self' =
      (if stalled self d then IfId.pc (IF_ID self) + 1
       else match d.1.2 with
            | Some target => target
            | None => if pc self <? len (instruction_memory self)
                      then pc self + 1 else pc self
            end);
  cf_stall : stall self' = false;
  cf_halted :
    halted self' =
      negb (IfId.valid (IF_ID self')) && negb (IdEx.valid (ID_EX self'))
      && negb (ExMem.valid (EX_MEM self')) && negb (MemWb.valid (MEM_WB self'))
      && (len (instruction_memory self') <=? pc self');
  cf_cycle : cycle self' = cycle self + 1;
  cf_flush_count :
    flush_count self' = (if redirects d then flush_count self + 1 else flush_count self);
  cf_stall_history :
    stall_history self' =
      (if stalled self d || (negb (IdEx.valid (ID_EX self')) && IfId.valid (IF_ID self))
       then stall_history self ++ [cycle self + 1] else stall_history self)%list;
  cf_forward_a :
    forward_a self' =
      (if IdEx.valid (ID_EX self)
       then ex_forward (IdEx.rs (ID_EX self)) (EX_MEM self) (MEM_WB self) None else None);
  cf_forward_b :
    forward_b self' =
      (if IdEx.valid (ID_EX self)
       then ex_forward (IdEx.rt (ID_EX self)) (EX_MEM self) (MEM_WB self) None else None)
}.

(** ** Serialisation *)

(** The state without the three attributes that neither [step] reads nor
    [get_state] shows nor [to_json] writes. *)
Definition forget (self : t) : t :=
  {| pc := pc self; registers := registers self;
     instruction_memory := instruction_memory self;
     data_memory := data_memory self; cycle := cycle self;
     IF_ID := IF_ID self; ID_EX := ID_EX self; EX_MEM := EX_MEM self;
     MEM_WB := MEM_WB self; stall := stall self; flush_if := false; flush_id := false;
     halted := halted self;
     forward_a := forward_a self; forward_b := forward_b self;
     stall_info := stall_info self; memory_warning := memory_warning self;
     control_hazard := control_hazard self; flush_occurred := flush_occurred self;
     if_id_was_held := false;
     pipeline_history := pipeline_history self; stall_history := stall_history self;
     forward_history := forward_history self; flush_count := flush_count self;
     _seen_in_if := _seen_in_if self; _seen_in_wb := _seen_in_wb self |}.

Definition running_of (o : outcome) : option bool :=
  match o with
  | Returned b _ => Some b
  | Raised _ => None
  end.

(** The state that [from_json] builds from [to_json self]: the attributes
    that are written, in a new CPU. *)
Definition restore (self : t) : t :=
  {| pc := pc self; registers := registers self;
     instruction_memory := instruction_memory self;
     data_memory := data_memory self; cycle := cycle self;
     IF_ID := IF_ID self; ID_EX := ID_EX self; EX_MEM := EX_MEM self;
     MEM_WB := MEM_WB self; stall := stall self;
     flush_if := flush_if new; flush_id := flush_id new;
     halted := halted self;
     forward_a := forward_a new; forward_b := forward_b new;
     stall_info := stall_info new; memory_warning := memory_warning new;
     control_hazard := control_hazard new; flush_occurred := flush_occurred new;
     if_id_was_held := if_id_was_held new;
     pipeline_history := pipeline_history self; stall_history := stall_history self;
     forward_history := forward_history self; flush_count := flush_count self;
     _seen_in_if := _seen_in_if self; _seen_in_wb := _seen_in_wb self |}.


(** ** Instruction words and the load-use interlock *)

(** The fields of an instruction word, as decode extracts them. *)
Definition code_opcode (code : Z) : Z := Z.land (Z.shiftr code 12) 15.
Definition code_rs (code : Z) : Z := Z.land (Z.shiftr code 9) 7.
Definition code_rt (code : Z) : Z := Z.land (Z.shiftr code 6) 7.
Definition code_rd (code : Z) : Z := Z.land (Z.shiftr code 3) 7.
Definition code_funct (code : Z) : Z := Z.land code 7.
Definition code_imm (code : Z) : Z :=
  if negb (Z.land (Z.land code 63) 32 =? 0) then Z.land code 63 - 64 else Z.land code 63.

(** An ALU instruction or a load: neither a store, nor a branch, nor a
    jump, nor an undefined word. *)
Definition alu_or_load (code : Z) : bool :=
  if code_opcode code =? 0 then code_funct code <? 5
  else (code_opcode code =? 1) || (code_opcode code =? 3) || (code_opcode code =? 4)
       || (code_opcode code =? 5) || (code_opcode code =? 8).

(** The instruction reads register [r] as a source: [rs] always, [rt] for
    the R-type. *)
Definition reads (code r : Z) : bool :=
  (code_rs code =? r) || ((code_opcode code =? 0) && (code_rt code =? r)).

(** The ALU operation that decode selects for such an instruction. *)
Definition alu_op_of (code : Z) : string :=
  if code_opcode code =? 0
  then default "NOP" (Py.index ["ADD"; "SUB"; "AND"; "OR"; "SLT"] (code_funct code))
  else if code_opcode code =? 4 then "SUBI"
  else if code_opcode code =? 5 then "SLTI"
  else if code_opcode code =? 8 then "ANDI"
  else "ADDI".

(** Register [q] of a register file. *)
Definition reg (registers : list Z) (q : Z) : Z := default 0 (Py.index registers q).

(** What the instruction computes in EX from a register file in which
    every older instruction has retired. *)
Definition reference_result (code : Z) (registers : list Z) : Z :=
  alu (alu_op_of code) (reg registers (code_rs code)) (reg registers (code_rt code))
      (code_imm code) 0.

(** The latch of a decoded LW that loads register [r], [r] not 0. *)
Definition load_latch (l : IdEx.t) (r : Z) : bool :=
  IdEx.valid l && IdEx.mem_read l && IdEx.mem_to_reg l && IdEx.reg_write l
  && (IdEx.rd l =? r) && negb (r =? 0).

(** Any instruction but SW. *)
Definition non_store (code : Z) : bool := negb (code_opcode code =? 2).

(** A source text of the given lines, and the machine code that [assemble]
    returns for a source text. *)
Definition source_text (lines : list string) : string :=
  String.concat (String (Py.chr 10) EmptyString) lines.

Definition machine_codes_of (code : string) : option (list string) :=
  match assemble code with
  | Ok (machine_codes, _, _) => Some machine_codes
  | Raise _ => None
  end.

(** The state after [k] calls of [step] on a new CPU loaded with
    [machine_codes]. *)
Definition run (machine_codes : list string) (k : nat) : t :=
  steps k (load_program new machine_codes).

(** ** The consumer of a load, retired *)

(** The call of [step] returns. *)
Definition returns (self : t) : bool :=
  match step self with
  | Returned _ _ => true
  | Raised _ => false
  end.

(** The destination register of an ALU instruction or a load. *)
Definition dest_of (code : Z) : Z :=
  if code_opcode code =? 0 then code_rd code else code_rt code.

(** The register file that an ALU instruction or a load leaves when it
    executes alone, unpipelined, on a register file and a data memory: the
    ALU result, or for a load the word at the address that the ALU computes,
    is written to the destination register, cut to 16 bits, unless that
    register is $r0. *)
Definition reference_registers (code : Z) (registers : list Z) (data_memory : gmap Z Z)
  : list Z :=
  let result := reference_result code registers in
  let value :=
    if code_opcode code =? 1 then default 0 (data_memory !! Z.land result 65535)
    else result in
  if dest_of code =? 0 then registers
  else <[Z.to_nat (dest_of code) := Z.land value 65535]> registers.

(** ** Words, fields and literals *)

(** The checks behind the field tables: what the decode stage extracts
    from a word that one of the three encoders packed. *)
Definition r_fields_ok (rs rt rd funct : Z) : bool :=
  let w := encode_r_type rs rt rd funct in
  (0 <=? w) && (w <? 4096) && (code_opcode w =? 0) && (code_rs w =? rs)
  && (code_rt w =? rt) && (code_rd w =? rd) && (code_funct w =? funct).

Definition i_fields_ok (opcode rs rt imm : Z) : bool :=
  let w := encode_i_type opcode rs rt imm in
  (0 <=? w) && (w <? 65536) && (code_opcode w =? opcode) && (code_rs w =? rs)
  && (code_rt w =? rt) && (code_imm w =? (if imm <? 32 then imm else imm - 64)).

Definition j_fields_ok (opcode address : Z) : bool :=
  let w := encode_j_type opcode address in
  (0 <=? w) && (w <? 65536) && (code_opcode w =? opcode) && (Z.land w 4095 =? address).

(** A word of 16 bits is written by [format(w, '04X')] in four characters
    that [int(s, 16)] reads back. *)
Definition hex_ok (w : Z) : bool :=
  (String.length (Py.format_04X w) =? 4)%nat
  && match Py.int16 (Py.format_04X w) with
     | Some v => v =? w
     | None => false
     end.

(** Every character of the string satisfies [p]. *)
Fixpoint all_chars (p : ascii -> bool) (s : string) : bool :=
  match s with
  | EmptyString => true
  | String c r => p c && all_chars p r
  end.

(** A character of a decimal literal as [str] writes it. *)
Definition literal_char (c : ascii) : bool :=
  Py.isdigit_char c || (if ascii_dec c "-" then true else false).

(** The address of an instruction that the first pass collected. *)
Definition addr_of (i : Z * Z * string * list string) : Z := i.1.1.1.

(** A machine code of the assembler: four characters that [int(s, 16)]
    reads as a word of the encoders. *)
Definition machine_code (c : string) : Prop :=
  String.length c = 4%nat /\ exists w, encoder_image w /\ Py.int16 c = Some w.

(** ** Comments *)

(** Neither ['#'] nor ['/']. *)
Definition code_char (c : ascii) : bool :=
  negb (if ascii_dec c "#" then true else false)
  && negb (if ascii_dec c "/" then true else false).

(** ** The histories *)

(** The cycles [1, ..., n]. *)
Definition cycles (n : Z) : list Z :=
  map (fun k => Z.of_nat k + 1) (seq 0 (Z.to_nat n)).

(** The (pc, word) keys that the snapshots show in their IF column, and
    in their WB column. *)
Definition if_entry (c : Snapshot.t) : option (Z * string) :=
  match Snapshot.IF_PC c, Snapshot.IF_word c with
  | Some pc, Some w => Some (pc, w)
  | _, _ => None
  end.

Definition wb_entry (c : Snapshot.t) : option (Z * string) :=
  match Snapshot.WB_PC c, Snapshot.WB_word c with
  | Some pc, Some w => Some (pc, w)
  | _, _ => None
  end.

(** What the counters and the histories of a CPU satisfy. *)
Record accounting (self : t) : Prop := {
  acc_cycle : 0 <= cycle self;
  acc_snapshots : map Snapshot.cycle (pipeline_history self) = cycles (cycle self);
  acc_stalls : sublist (stall_history self) (cycles (cycle self));
  acc_forwards :
    sublist (map ForwardEntry.cycle (forward_history self)) (cycles (cycle self));
  acc_flushes : 0 <= flush_count self <= cycle self;
  acc_if : NoDup (omap if_entry (pipeline_history self));
  acc_seen_if : _seen_in_if self = list_to_set (omap if_entry (pipeline_history self));
  acc_wb : NoDup (omap wb_entry (pipeline_history self));
  acc_seen_wb : _seen_in_wb self = list_to_set (omap wb_entry (pipeline_history self))
}.

(** The attributes that a call of [step] leaves as they were when it
    raises: everything but the per-cycle records, the register file, the
    data memory and the stall flag. *)
Record same_progress (self self' : t) : Prop := {
  sp_pc : pc self' = pc self;
  sp_cycle : cycle self' = cycle self;
  sp_instruction_memory : instruction_memory self' = instruction_memory self;
  sp_IF_ID : IF_ID self' = IF_ID self;
  sp_ID_EX : ID_EX self' = ID_EX self;
  sp_EX_MEM : EX_MEM self' = EX_MEM self;
  sp_MEM_WB : MEM_WB self' = MEM_WB self;
  sp_halted : halted self' = halted self;
  sp_pipeline_history : pipeline_history self' = pipeline_history self;
  sp_stall_history : stall_history self' = stall_history self;
  sp_forward_history : forward_history self' = forward_history self;
  sp_flush_count : flush_count self' = flush_count self;
  sp_seen_in_if : _seen_in_if self' = _seen_in_if self;
  sp_seen_in_wb : _seen_in_wb self' = _seen_in_wb self
}.

(** What a call of [step] that returns appends to the histories. *)
Record history_facts (self self' : t) : Prop := {
  hf_snapshot :
    exists snapshot,
      pipeline_history self' = (pipeline_history self ++ [snapshot])%list
      /\ Snapshot.cycle snapshot = cycle self + 1
      /\ if_entry snapshot
         = first_seen (IfId.pc (IF_ID self')) (IfId.instruction (IF_ID self'))
                      (_seen_in_if self)
      /\ wb_entry snapshot
         = first_seen (MemWb.pc (MEM_WB self))
                      (if MemWb.valid (MEM_WB self)
                       then MemWb.instruction (MEM_WB self) else None)
                      (_seen_in_wb self)
      /\ _seen_in_if self' = add_seen (if_entry snapshot) (_seen_in_if self)
      /\ _seen_in_wb self' = add_seen (wb_entry snapshot) (_seen_in_wb self);
  hf_forward_history :
    forward_history self' =
      (if Py.not_none (forward_a self') || Py.not_none (forward_b self')
       then forward_history self
            ++ [{| ForwardEntry.cycle := cycle self + 1;
                   ForwardEntry.forward_a := forward_a self';
                   ForwardEntry.forward_b := forward_b self' |}]
       else forward_history self)%list
}.

(** The pipeline is drained: no latch is valid and the program counter
    is at or past the end of the instruction memory. *)
Definition drained (self : t) : Prop :=
  IfId.valid (IF_ID self) = false /\ IdEx.valid (ID_EX self) = false
  /\ ExMem.valid (EX_MEM self) = false /\ MemWb.valid (MEM_WB self) = false
  /\ len (instruction_memory self) <= pc self.

(** ** The ALU *)

(** The check behind the table of [_signed]: on a word of 16 bits it is
    the two's complement reading. *)
Definition signed_ok (v : Z) : bool :=
  let s := _signed v in
  (-32768 <=? s) && (s <=? 32767) && (s mod 65536 =? v)
  && (if v <? 32768 then s =? v else s =? v - 65536).

(** ** Forwarding *)

(** The latch of a decoded instruction that writes its ALU result to
    register [r], [r] not 0. *)
Definition alu_latch (l : IdEx.t) (r : Z) : bool :=
  IdEx.valid l && IdEx.reg_write l && negb (IdEx.mem_read l)
  && negb (IdEx.mem_to_reg l) && (IdEx.rd l =? r) && negb (r =? 0).

(** ** Branches *)

(** The value that the decode stage compares for register [q] of a
    branch: the register file after the write-back of the cycle, with the
    results that are still in the pipeline forwarded. *)
Definition branch_operand (self : t) (regs : list Z) (q : Z) : Z :=
  id_forward q (reg regs q) (EX_MEM self) (MEM_WB self) (Some (ex_result self)).

(** The decision of the decode stage for the branch [code]. *)
Definition branch_decision (self : t) (regs : list Z) (code : Z) : bool :=
  let equal := branch_operand self regs (code_rs code)
               =? branch_operand self regs (code_rt code) in
  if code_opcode code =? 6 then equal else negb equal.

(** No load is in ID/EX nor in EX/MEM. *)
Definition no_load_ahead (self : t) : bool :=
  negb (IdEx.valid (ID_EX self) && IdEx.mem_read (ID_EX self))
  && negb (ExMem.valid (EX_MEM self) && ExMem.mem_to_reg (EX_MEM self)).

(** ** Jump register *)

(** The instruction in ID/EX writes register [rs], [rs] not 0: a JR that
    reads [rs] waits for it. *)
Definition jr_waits (self : t) (rs : Z) : bool :=
  IdEx.valid (ID_EX self) && IdEx.reg_write (ID_EX self)
  && (IdEx.rd (ID_EX self) =? rs) && negb (rs =? 0).

(** ** Trees without some keys *)

(** The dictionary [j] without the keys [ks]. *)
Definition without_keys (ks : list string) (j : json) : json :=
  match j with
  | JDict d => JDict (List.filter (fun kv => negb (existsb (String.eqb (fst kv)) ks)) d)
  | _ => j
  end.

(** The keys that [from_json] reads with [state.get], and the ones it
    indexes. *)
Definition optional_keys : list string :=
  ["stall"; "pipeline_history"; "stall_history"; "forward_history"; "flush_count";
   "_seen_in_if"; "_seen_in_wb"].

Definition required_keys : list string :=
  ["pc"; "cycle"; "registers"; "data_memory"; "instruction_memory";
   "IF_ID"; "ID_EX"; "EX_MEM"; "MEM_WB"; "halted"].

(** ** Requests *)

Import Views.

(** The four views, and the session that a request leaves. *)
Inductive view : Type := StepCpu | StepBackCpu | ResetCpu | RunAll.

Definition serve (s : session) (v : view) : session :=
  match v with
  | StepCpu => (step_cpu s).1
  | StepBackCpu => (step_back_cpu s).1
  | ResetCpu => (reset_cpu s).1
  | RunAll => match run_all s with Some r => r.1 | None => s end
  end.

(** The session that holds the CPU [cpu] and the undo history
    [state_history]. *)
Definition session_of (cpu : t) (state_history : list json) : session :=
  {| cpu_state := Some (to_json cpu); cpu_state_history := Some state_history |}.

(** The first [m] calls of [step] on [cpu] return [True] and the next one
    returns. *)
Definition loop_calls (cpu : t) (m : nat) : Prop :=
  (forall i : nat, (i <= m)%nat ->
     step (steps i cpu) = Returned (negb (halted (steps (S i) cpu))) (steps (S i) cpu))
  /\ (forall i : nat, (i < m)%nat -> halted (steps (S i) cpu) = false).


(** * Properties *)

(** ** Python's [int] reads back what [str] writes *)

Lemma scan_digits_uint (d : Decimal.uint) (acc : Z) :
  Py.scan_digits 10 (NilEmpty.string_of_uint d) false acc = Some (uint_val d acc, "").
Proof.
  revert acc. induction d; intros acc; cbn [NilEmpty.string_of_uint uint_val]; try reflexivity;
    (rewrite <- IHd; reflexivity).
Qed.

Lemma uint_val_pos (d : Decimal.uint) (a : positive) :
  uint_val d (Zpos a) = Zpos (Pos.of_uint_acc d a).
Proof.
  revert a. induction d; intros a; cbn [uint_val Pos.of_uint_acc]; try reflexivity;
    (rewrite <- IHd; f_equal; lia).
Qed.

Lemma uint_val_zero (d : Decimal.uint) : uint_val d 0 = Z.of_N (Pos.of_uint d).
Proof.
  induction d; cbn [uint_val Pos.of_uint]; try reflexivity;
    try exact IHd; cbn [Z.of_N]; rewrite <- uint_val_pos; reflexivity.
Qed.

Lemma int10_digits (p : positive) :
  Py.int10 (NilEmpty.string_of_uint (Pos.to_uint p)) = Some (Zpos p)
  /\ Py.int10 (String "-" (NilEmpty.string_of_uint (Pos.to_uint p))) = Some (Zneg p).
Proof.
  pose proof (Unsigned.to_uint_nonnil p) as Hnil.
  pose proof (Unsigned.of_to p) as Hp.
  pose proof (scan_digits_uint (Pos.to_uint p) 0) as Hs.
  rewrite uint_val_zero, Hp in Hs. cbn [Z.of_N] in Hs.
  destruct (Pos.to_uint p) as [|l|l|l|l|l|l|l|l|l|l]; [congruence|..];
    cbn [NilEmpty.string_of_uint] in *;
    unfold Py.int10, Py.int_base;
    try (split; lazy -[Py.scan_digits NilEmpty.string_of_uint]; rewrite Hs; reflexivity).
  destruct (NilEmpty.string_of_uint l); split; lazy -[Py.scan_digits NilEmpty.string_of_uint]; rewrite Hs;
    reflexivity.
Qed.

Lemma int10_str (z : Z) : Py.int10 (Py.str z) = Some z.
Proof.
  destruct z as [|p|p]; [reflexivity| |]; apply int10_digits.
Qed.


(** ** The assembler *)

Lemma zrange_In (n : nat) (x : Z) : 0 <= x < Z.of_nat n -> In x (zrange n).
Proof.
  intros Hx. unfold zrange. apply in_map_iff. exists (Z.to_nat x). split; [lia|].
  apply in_seq. lia.
Qed.

Lemma bind_Ok {A B} (m : res A) (k : A -> res B) (b : B) :
  (m ≫= k) = Ok b -> exists a, m = Ok a /\ k a = Ok b.
Proof. destruct m as [a|e]; cbn; [eauto | discriminate]. Qed.

Lemma assoc_In {K V} `{EqDecision K} (d : list (K * V)) (k : K) (v : V) :
  Py.assoc d k = Some v -> In v (map snd d).
Proof.
  induction d as [|[k' v'] d IH]; cbn; [discriminate|].
  destruct (decide (k = k')); [intros [= ->]; auto | auto].
Qed.

Lemma parse_register_range (s : string) (l n : Z) :
  parse_register s l = Ok n -> In n (zrange 8).
Proof.
  unfold parse_register. destruct (Py.assoc REGISTERS _) as [v|] eqn:E; [|discriminate].
  intros [= <-]. apply assoc_In in E. apply zrange_In.
  cbn in E. lia.
Qed.

Lemma parse_immediate_range (s : string) (l n : Z) :
  parse_immediate s l = Ok n -> In n (zrange 64).
Proof.
  unfold parse_immediate, parse_immediate_bits.
  destruct (if _ : bool then _ else _) as [v|]; [|discriminate].
  destruct (_ || _); [discriminate|]. intros [= <-].
  apply zrange_In. change (Z.shiftl 1 6 - 1) with (Z.ones 6).
  rewrite Z.land_ones by lia. pose proof (Z.mod_pos_bound (if v <? 0 then Z.shiftl 1 6 + v else v) (2 ^ 6)). lia.
Qed.

Lemma r_type_funct (i : string) (f : Z) :
  Py.assoc R_TYPE_FUNCT i = Some f ->
  (i = "JR" /\ f = 5) \/ (String.eqb i "JR" = false /\ In f (zrange 5)).
Proof.
  unfold R_TYPE_FUNCT. cbn [Py.assoc].
  repeat (case_decide; [subst i; intros [= <-]; first [left; split; reflexivity | right; split; [reflexivity | cbn; tauto]] |]).
  discriminate.
Qed.

Ltac inv_bind :=
  repeat match goal with
    | H : (_ ≫= _) = Ok _ |- _ =>
        let a := fresh "a" in let Ha := fresh "Ha" in
        apply bind_Ok in H; destruct H as (a & Ha & H)
    | H : Ok _ = Ok _ |- _ => injection H as H
    | H : Raise _ = Ok _ |- _ => discriminate H
    | H : parse_register _ _ = Ok _ |- _ => apply parse_register_range in H
    | H : parse_immediate _ _ = Ok _ |- _ => apply parse_immediate_range in H
    end.

Lemma encode_instruction_image (instruction : string) (operands : list string)
    (labels : gmap string Z) (current_addr line_num w : Z) :
  encode_instruction instruction operands labels current_addr line_num = Ok w ->
  encoder_image w.
Proof.
  unfold encode_instruction, encoder_image.
  destruct (Py.assoc R_TYPE_FUNCT instruction) as [funct|] eqn:ER.
  { apply r_type_funct in ER as [[-> ->]|[Hne Hf]].
    - cbn [String.eqb Ascii.eqb Bool.eqb]. destruct operands as [|o0 [|? ?]]; try discriminate.
      intros H. inv_bind. subst w. right; left. eauto.
    - rewrite Hne. destruct operands as [|o0 [|o1 [|o2 [|? ?]]]]; try discriminate.
      intros H. inv_bind. subst w. left. eauto 10. }
  destruct (Py.assoc I_TYPE_OPCODES instruction) as [opcode|] eqn:EI.
  { apply assoc_In in EI. intros H. right; right; left.
    destruct (_ || _).
    - destruct operands as [|o0 [|o1 [|o2 [|? ?]]]]; try discriminate.
      + apply bind_Ok in H as (rt & Hrt & H).
        destruct (match_memory_operand o1) as [[g1 g2]|]; [|discriminate].
        inv_bind. subst w. eauto 10.
      + inv_bind. subst w. eauto 10.
    - destruct (_ || _).
      + destruct operands as [|o0 [|o1 [|o2 [|? ?]]]]; try discriminate.
        inv_bind. subst w. eauto 10.
      + destruct operands as [|o0 [|o1 [|o2 [|? ?]]]]; try discriminate.
        inv_bind. subst w. eauto 10. }
  destruct (Py.assoc J_TYPE_OPCODES instruction) as [opcode|] eqn:EJ; [|discriminate].
  apply assoc_In in EJ. intros H. right; right; right.
  destruct operands as [|o0 [|? ?]]; try discriminate.
  apply bind_Ok in H as (address & _ & H).
  destruct (_ || _) eqn:Hrange; [discriminate|]. injection H as <-.
  exists opcode, address. split; [assumption|]. split; [|reflexivity].
  apply zrange_In. apply orb_false_iff in Hrange as [H1 H2]. lia.
Qed.


(** ** Invariants of the CPU *)

Lemma land_word16 (v : Z) : word16 (Z.land v 65535).
Proof.
  unfold word16. replace (Z.land v 65535) with (v mod 2 ^ 16)
    by (symmetry; apply (Z.land_ones v 16); lia).
  pose proof (Z.mod_pos_bound v (2 ^ 16)). lia.
Qed.

Lemma land_7_range (v : Z) : 0 <= Z.land v 7 < 8.
Proof.
  replace (Z.land v 7) with (v mod 2 ^ 3) by (symmetry; apply (Z.land_ones v 3); lia).
  pose proof (Z.mod_pos_bound v (2 ^ 3)). lia.
Qed.

Lemma well_formed_initial : well_formed initial.
Proof.
  constructor; cbn; try lia; try reflexivity.
  - repeat constructor; unfold word16; lia.
  - apply map_Forall_empty.
Qed.

Lemma well_formed_load (self : t) (machine_codes : list string) :
  well_formed (load_program self machine_codes).
Proof. destruct well_formed_initial. constructor; assumption. Qed.

Lemma well_formed_clear (self : t) : well_formed self -> well_formed (clear_records self).
Proof. intros []. constructor; assumption. Qed.

Lemma write_back_spec (regs regs' : list Z) (mem_wb : MemWb.t) :
  write_back regs mem_wb = Some regs' ->
  regs' = regs
  \/ exists data, word16 data /\ MemWb.rd mem_wb <> 0
                 /\ Py.setitem regs (MemWb.rd mem_wb) data = Some regs'.
Proof.
  unfold write_back. destruct (negb _); [intros [= <-]; auto|].
  destruct (_ && _) eqn:Hw; [|intros [= <-]; auto].
  apply andb_true_iff in Hw as [_ Hrd]. apply negb_true_iff, Z.eqb_neq in Hrd.
  destruct (MemWb.mem_to_reg _); intros H; right; eexists; (split; [apply land_word16|]);
    split; eassumption.
Qed.

Lemma well_formed_wb (self s1 : t) :
  well_formed self -> _stage_wb self (MEM_WB self) = Some s1 -> well_formed s1.
Proof.
  intros Hwf. unfold _stage_wb, mbind, option_bind.
  destruct (write_back _ _) as [regs|] eqn:Hwb; [|discriminate]. intros [= <-].
  destruct Hwf as [Hlen Hregs Hzero Hmem Hid Hex Hwb'].
  apply write_back_spec in Hwb as [->|(data & Hdata & Hrd & Hset)];
    [constructor; assumption|].
  unfold Py.setitem in Hset. rewrite Hlen in Hset.
  replace ((0 <=? MemWb.rd (MEM_WB self)) && (MemWb.rd (MEM_WB self) <? Z.of_nat 8))
    with true in Hset
    by (symmetry; apply andb_true_iff; split; [apply Z.leb_le | apply Z.ltb_lt]; lia).
  injection Hset as <-.
  constructor; cbn [registers set_registers data_memory ID_EX EX_MEM MEM_WB]; try assumption.
  - rewrite length_insert. assumption.
  - apply Forall_insert; assumption.
  - rewrite list_lookup_insert_ne by lia. assumption.
Qed.

Lemma well_formed_mem (self : t) (ex_mem : ExMem.t) :
  well_formed self -> well_formed (_stage_mem self ex_mem).1.
Proof.
  intros [Hlen Hregs Hzero Hmem Hid Hex Hwb].
  constructor; cbn; try assumption.
  unfold mem_store. destruct (_ && _ && _); [|assumption].
  apply map_Forall_insert_2; [apply land_word16 | assumption].
Qed.

Lemma well_formed_ex (self : t) (id_ex : IdEx.t) (ex_mem : ExMem.t) (mem_wb : MemWb.t) :
  well_formed self -> well_formed (_stage_ex self id_ex ex_mem mem_wb).1.
Proof. intros []. constructor; assumption. Qed.

Lemma decode_r_type_rd registers ID_EX EX_MEM MEM_WB new_ex_mem code result d :
  decode_r_type registers ID_EX EX_MEM MEM_WB new_ex_mem code result = Some d ->
  0 <= IdEx.rd (dispatch_result d) < 8.
Proof.
  unfold decode_r_type, mbind, option_bind. intros H.
  destruct (Py.index registers _); [|discriminate].
  destruct (Py.index registers _); [|discriminate].
  repeat case_match; try discriminate; simplify_eq; cbn; apply land_7_range.
Qed.

Lemma decode_j_type_rd if_id opcode code result :
  IdEx.rd result = 0 ->
  0 <= IdEx.rd (dispatch_result (decode_j_type if_id opcode code result)) < 8.
Proof. intros H. unfold decode_j_type. case_match; cbn; lia. Qed.

Lemma decode_i_type_rd registers EX_MEM MEM_WB if_id new_ex_mem opcode code result d :
  decode_i_type registers EX_MEM MEM_WB if_id new_ex_mem opcode code result = Some d ->
  0 <= IdEx.rd (dispatch_result d) < 8.
Proof.
  unfold decode_i_type, mbind, option_bind. intros H.
  destruct (Py.index registers _); [|discriminate].
  destruct (Py.index registers _); [|discriminate].
  injection H as <-.
  repeat case_match; cbn; apply land_7_range.
Qed.

Lemma decode_rd registers ID_EX EX_MEM MEM_WB if_id new_ex_mem d :
  decode registers ID_EX EX_MEM MEM_WB if_id new_ex_mem = Some d ->
  0 <= IdEx.rd d.1.1.1 < 8.
Proof.
  unfold decode. intros H.
  destruct (negb _); [injection H as <-; cbn; lia|].
  destruct (IfId.instruction if_id) as [instruction|]; [|injection H as <-; cbn; lia].
  destruct (Py.int16 instruction) as [code|]; [|injection H as <-; cbn; lia].
  cbv zeta in H. unfold mbind, option_bind in H.
  match type of H with match ?m with _ => _ end = _ => destruct m as [disp|] eqn:Hd end;
    [|discriminate].
  assert (0 <= IdEx.rd (dispatch_result disp) < 8) as Hrd.
  { destruct (_ =? 0).
    - eapply decode_r_type_rd; eassumption.
    - destruct (_ || _).
      + injection Hd as <-. apply decode_j_type_rd. reflexivity.
      + eapply decode_i_type_rd; eassumption. }
  destruct disp; injection H as <-; exact Hrd.
Qed.

Lemma well_formed_id (self s4 : t) if_id new_ex_mem idex bt jt :
  well_formed self ->
  _stage_id self if_id new_ex_mem = Some (s4, idex, bt, jt) ->
  well_formed s4 /\ 0 <= IdEx.rd idex < 8.
Proof.
  intros Hwf. unfold _stage_id.
  unfold mbind, option_bind.
  destruct (decode _ _ _ _ _ _) as [d|] eqn:Hd; [|discriminate].
  intros [= <- <- <- <-].
  split; [destruct Hwf; constructor; assumption | eapply decode_rd; eassumption].
Qed.

Lemma well_formed_if (self s5 : t) if_id :
  well_formed self -> _stage_if self = Some (s5, if_id) -> well_formed s5.
Proof.
  intros Hwf. unfold _stage_if, mbind, option_bind.
  destruct (fetch _ _); [|discriminate].
  intros [= <- <-]. destruct Hwf; constructor; assumption.
Qed.

Lemma well_formed_step (self : t) : well_formed self -> well_formed (state_of (step self)).
Proof.
  intros Hwf. unfold step. destruct (halted self); [assumption|].
  pose proof (well_formed_clear _ Hwf) as H0.
  destruct (_stage_wb _ _) as [s1|] eqn:Hwb; [|assumption].
  apply (well_formed_wb (clear_records self)) in Hwb as H1; [|assumption].
  pose proof (well_formed_mem s1 (EX_MEM (clear_records self)) H1) as H2.
  pose proof (well_formed_ex _ (ID_EX (clear_records self)) (EX_MEM (clear_records self))
                (MEM_WB (clear_records self)) H2) as H3.
  cbv zeta.
  destruct (_stage_id _ _ _) as [[[[s4 idex] bt] jt]|] eqn:Hid; [|assumption].
  apply well_formed_id in Hid as [H4 Hidex]; [|assumption].
  destruct (_stage_if s4) as [[s5 ifid]|] eqn:Hif; [|assumption].
  apply well_formed_if in Hif as H5; [|assumption].
  destruct H5 as [Hlen Hregs Hzero Hmem Hid' Hex' Hwb'].
  destruct Hwf as [_ _ _ _ Hid0 Hex0 Hwb0].
  constructor; cbn [state_of commit registers data_memory ID_EX EX_MEM MEM_WB];
    try assumption.
  - destruct (stall s5); [cbn; lia | assumption].
  - cbn [snd _stage_ex]. unfold ex_latch.
    destruct (IdEx.valid _); cbn; [assumption | lia].
  - cbn [snd _stage_mem]. unfold mem_latch.
    destruct (ExMem.valid _); cbn; [assumption | lia].
Qed.

Lemma well_formed_reachable (self : t) : reachable self -> well_formed self.
Proof.
  induction 1.
  - apply well_formed_load.
  - apply well_formed_initial.
  - apply well_formed_step. assumption.
Qed.

Lemma steps_reachable (n : nat) (self : t) : reachable self -> reachable (steps n self).
Proof.
  revert self. induction n as [|n IH]; intros self H; cbn [steps]; [assumption|].
  apply IH. constructor. assumption.
Qed.

Lemma decode_r_type_valid registers ID_EX EX_MEM MEM_WB new_ex_mem code result d :
  decode_r_type registers ID_EX EX_MEM MEM_WB new_ex_mem code result = Some d ->
  IdEx.valid (dispatch_result d) = IdEx.valid result.
Proof.
  unfold decode_r_type, mbind, option_bind. intros H.
  destruct (Py.index registers _); [|discriminate].
  destruct (Py.index registers _); [|discriminate].
  repeat case_match; try discriminate; simplify_eq; reflexivity.
Qed.

Lemma decode_j_type_valid if_id opcode code result :
  IdEx.valid (dispatch_result (decode_j_type if_id opcode code result)) = IdEx.valid result.
Proof. unfold decode_j_type. case_match; reflexivity. Qed.

Lemma decode_i_type_valid registers EX_MEM MEM_WB if_id new_ex_mem opcode code result d :
  decode_i_type registers EX_MEM MEM_WB if_id new_ex_mem opcode code result = Some d ->
  IdEx.valid (dispatch_result d) = IdEx.valid result.
Proof.
  unfold decode_i_type, mbind, option_bind. intros H.
  destruct (Py.index registers _); [|discriminate].
  destruct (Py.index registers _); [|discriminate].
  injection H as <-.
  repeat case_match; reflexivity.
Qed.

Lemma decode_invalid registers ID_EX EX_MEM MEM_WB if_id new_ex_mem d :
  decode registers ID_EX EX_MEM MEM_WB if_id new_ex_mem = Some d ->
  IdEx.valid d.1.1.1 = false -> d = no_decode.
Proof.
  unfold decode, no_decode. intros H.
  destruct (negb _); [injection H as <-; reflexivity|].
  destruct (IfId.instruction if_id) as [instruction|]; [|injection H as <-; reflexivity].
  destruct (Py.int16 instruction) as [code|]; [|injection H as <-; reflexivity].
  cbv zeta in H. unfold mbind, option_bind in H.
  match type of H with match ?m with _ => _ end = _ => destruct m as [disp|] eqn:Hd end;
    [|discriminate].
  assert (IdEx.valid (dispatch_result disp) = true) as Hv.
  { destruct (_ =? 0).
    - erewrite decode_r_type_valid by eassumption. reflexivity.
    - destruct (_ || _).
      + injection Hd as <-. rewrite decode_j_type_valid. reflexivity.
      + erewrite decode_i_type_valid by eassumption. reflexivity. }
  destruct disp; injection H as <-; cbn in *; congruence.
Qed.

Lemma decode_bubble registers ID_EX EX_MEM MEM_WB if_id new_ex_mem :
  IfId.valid if_id = false ->
  decode registers ID_EX EX_MEM MEM_WB if_id new_ex_mem = Some no_decode.
Proof. intros H. unfold decode. rewrite H. reflexivity. Qed.

Lemma halted_step (self : t) : halted self = true -> step self = Returned false self.
Proof. intros H. unfold step. rewrite H. reflexivity. Qed.

Lemma halted_steps (n : nat) (self : t) : halted self = true -> steps n self = self.
Proof.
  intros H. induction n as [|n IH]; [reflexivity|].
  cbn [steps]. rewrite (halted_step _ H). exact IH.
Qed.

Ltac norm :=
  cbn [pc registers instruction_memory data_memory cycle IF_ID ID_EX EX_MEM MEM_WB
       stall flush_if flush_id halted forward_a forward_b stall_info memory_warning
       control_hazard flush_occurred if_id_was_held pipeline_history stall_history
       forward_history flush_count _seen_in_if _seen_in_wb
       set_pc set_registers set_data_memory set_cycle set_IF_ID set_ID_EX set_EX_MEM
       set_MEM_WB set_stall set_halted set_forward_a set_forward_b set_stall_info
       set_memory_warning set_control_hazard set_flush_occurred set_if_id_was_held
       set_pipeline_history set_stall_history set_forward_history set_flush_count
       set_seen_in_if set_seen_in_wb clear_records forget fst snd state_of running_of].

Lemma quiet_step (self : t) : quiet self -> quiet (state_of (step self)).
Proof.
  intros Hq. destruct (halted self) eqn:Hh; [rewrite halted_step by assumption; exact Hq|].
  clear Hq. unfold quiet, step. rewrite Hh.
  unfold _stage_wb, _stage_mem, _stage_ex, _stage_id, _stage_if, mbind, option_bind.
  cbv zeta. norm.
  destruct (write_back _ _) as [regs|]; norm; [|congruence].
  destruct (decode _ _ _ _ _ _) as [d|] eqn:Hd; norm; [|congruence].
  destruct (fetch _ _) as [f|]; norm; [|congruence].
  unfold commit. cbv zeta. norm. rewrite Hh.
  destruct (negb _ && _ && _ && _ && _) eqn:Hc; [intros _|congruence].
  repeat (apply andb_true_iff in Hc as [Hc ?]).
  repeat match goal with H : negb _ = true |- _ => apply negb_true_iff in H end.
  assert (ExMem.valid (EX_MEM self) = false) as Hex
    by (unfold mem_latch in *; destruct (ExMem.valid (EX_MEM self)); [discriminate|reflexivity]).
  assert (IdEx.valid (ID_EX self) = false) as Hid
    by (unfold ex_latch in *; destruct (IdEx.valid (ID_EX self)); [discriminate|reflexivity]).
  assert (d = no_decode) as ->.
  { destruct (Py.not_none d.2 || stall self).
    - rewrite decode_bubble in Hd by assumption. congruence.
    - eapply decode_invalid; eassumption. }
  unfold mem_warning. rewrite Hid, Hex. cbn. repeat split; reflexivity.
Qed.

Lemma quiet_reachable (self : t) : reachable self -> quiet self.
Proof.
  induction 1; [discriminate | discriminate | apply quiet_step; assumption].
Qed.


(** ** One cycle *)

Lemma step_returned (self self' : t) (running : bool) :
  halted self = false ->
  step self = Returned running self' ->
  exists regs d fetched, cycle_facts self self' regs d fetched.
Proof.
  intros Hh. unfold step. rewrite Hh.
  unfold _stage_wb, _stage_mem, _stage_ex, _stage_id, _stage_if, mbind, option_bind.
  cbv zeta. norm.
  destruct (write_back _ _) as [regs|] eqn:Hwb; [|discriminate]. norm.
  destruct (decode _ _ _ _ _ _) as [d|] eqn:Hd; [|discriminate]. norm.
  destruct (fetch _ _) as [fetched|] eqn:Hf; [|discriminate].
  unfold commit. cbv zeta. norm. rewrite Hh.
  intros [= <- <-]. exists regs, d, fetched.
  constructor; unfold stalled, redirects, wb_registers, decode_of_cycle, mem_memory,
    mem_result, ex_result, mbind, option_bind; norm;
    try reflexivity; try assumption.
  - unfold wb_registers in *. rewrite Hwb. exact Hd.
  - destruct (Py.not_none d.2 || stall self); [reflexivity|].
    destruct d.1.2; cbn [Py.not_none]; [rewrite orb_true_r|]; reflexivity.
  - destruct (_ && _ && _ && _ && _); reflexivity.
Qed.

(** ** Serialisation *)

Lemma step_forget (self : t) :
  forget (state_of (step (forget self))) = forget (state_of (step self))
  /\ running_of (step (forget self)) = running_of (step self).
Proof.
  unfold step. norm.
  destruct (halted self); [split; reflexivity|].
  unfold _stage_wb, _stage_mem, _stage_ex, _stage_id, _stage_if, mbind, option_bind.
  cbv zeta. norm.
  destruct (write_back _ _) as [regs|]; [|split; reflexivity].
  norm.
  destruct (decode _ _ _ _ _ _) as [d|]; [|split; reflexivity].
  norm.
  destruct (fetch _ _) as [f|]; [|split; reflexivity].
  unfold commit. cbv zeta. norm.
  split; reflexivity.
Qed.

Lemma dec_enc_if_id (l : IfId.t) : dec_if_id (enc_if_id l) = Some l.
Proof. destruct l as [[w|] p v]; reflexivity. Qed.

Lemma dec_enc_id_ex (l : IdEx.t) : dec_id_ex (enc_id_ex l) = Some l.
Proof. destruct l as [[w|]]; reflexivity. Qed.

Lemma dec_enc_ex_mem (l : ExMem.t) : dec_ex_mem (enc_ex_mem l) = Some l.
Proof. destruct l as [[w|]]; reflexivity. Qed.

Lemma dec_enc_mem_wb (l : MemWb.t) : dec_mem_wb (enc_mem_wb l) = Some l.
Proof. destruct l as [[w|]]; reflexivity. Qed.

Lemma dec_enc_snapshot (c : Snapshot.t) : dec_snapshot (enc_snapshot c) = Some c.
Proof.
  destruct c as [c [w1|] [p1|] [w2|] [p2|] [w3|] [p3|] [w4|] [p4|] [w5|] [p5|]];
    reflexivity.
Qed.

Lemma dec_enc_forward (f : option Forward.t) : dec_forward (enc_forward f) = Some f.
Proof. destruct f as [[]|]; reflexivity. Qed.

Lemma dec_enc_forward_entry (e : ForwardEntry.t) :
  dec_forward_entry (enc_forward_entry e) = Some e.
Proof. destruct e as [c [[]|] [[]|]]; reflexivity. Qed.

Lemma dec_enc_list {A} (enc : A -> json) (dec : json -> option A) (l : list A) :
  (forall x, dec (enc x) = Some x) -> dec_list dec (JList (enc <$> l)) = Some l.
Proof. intros H. cbn. apply mapM_fmap_Some. exact H. Qed.

Lemma dec_enc_seen (s : gset (Z * string)) : dec_seen (enc_seen s) = Some s.
Proof.
  unfold dec_seen, enc_seen.
  rewrite (dec_enc_list (fun k => JList [JInt k.1; JStr k.2]) dec_key)
    by (intros []; reflexivity).
  cbn. f_equal. apply list_to_set_elements_L.
Qed.

Lemma dict_of_items_union {K V} `{Countable K} (l : list (K * V)) (acc : gmap K V) :
  foldl (fun m kv => <[kv.1 := kv.2]> m) acc l = list_to_map (reverse l) ∪ acc.
Proof.
  revert acc. induction l as [|[k v] l IH]; intros acc; cbn [foldl].
  - cbn. rewrite (left_id_L ∅ (∪)). reflexivity.
  - rewrite IH, reverse_cons, list_to_map_app.
    change (list_to_map [(k, v)]) with (<[k:=v]> (∅ : gmap K V)).
    rewrite insert_empty, <- (assoc_L (∪)), <- insert_union_singleton_l.
    reflexivity.
Qed.

Lemma dict_of_items_map_to_list (m : gmap Z Z) : dict_of_items (map_to_list m) = m.
Proof.
  unfold dict_of_items. rewrite dict_of_items_union, (right_id_L ∅ (∪)).
  rewrite <- (list_to_map_to_list m) at 2.
  apply list_to_map_proper.
  - rewrite fmap_reverse, reverse_Permutation. apply NoDup_fst_map_to_list.
  - apply reverse_Permutation.
Qed.

Lemma dec_enc_data_memory (m : gmap Z Z) :
  dec_data_memory (JDict ((fun kv => (kv.1, JInt kv.2)) <$> str_keys m)) = Some m.
Proof.
  unfold dec_data_memory, str_keys. cbn [items mbind option_bind].
  rewrite <- list_fmap_compose.
  erewrite (mapM_fmap_Some _ _ (map_to_list m)).
  - cbn. f_equal. apply dict_of_items_map_to_list.
  - intros [k v]. cbn. rewrite int10_str. reflexivity.
Qed.

Ltac lookup_keys :=
  repeat match goal with
    | |- context [Py.assoc ?d ?k] =>
        let v := eval hnf in (Py.assoc d k) in change (Py.assoc d k) with v
    end.

Lemma from_json_to_json (self : t) : from_json (to_json self) = Some (restore self).
Proof.
  unfold from_json, to_json. cbn [items mbind option_bind].
  unfold field, field_default. lookup_keys.
  cbn [mbind option_bind dec_int dec_bool].
  rewrite (dec_enc_list JInt dec_int) by reflexivity.
  rewrite dec_enc_data_memory.
  rewrite (dec_enc_list JStr dec_str) by reflexivity.
  rewrite dec_enc_if_id, dec_enc_id_ex, dec_enc_ex_mem, dec_enc_mem_wb.
  rewrite (dec_enc_list enc_snapshot dec_snapshot) by apply dec_enc_snapshot.
  rewrite (dec_enc_list JInt dec_int) by reflexivity.
  rewrite (dec_enc_list enc_forward_entry dec_forward_entry) by apply dec_enc_forward_entry.
  rewrite !dec_enc_seen.
  reflexivity.
Qed.

Lemma get_state_forget (self : t) : get_state (forget self) = get_state self.
Proof. reflexivity. Qed.

Lemma steps_forget (n : nat) (a b : t) :
  forget a = forget b -> forget (steps n a) = forget (steps n b).
Proof.
  revert a b. induction n as [|n IH]; intros a b Hab; cbn [steps]; [assumption|].
  apply IH.
  destruct (step_forget a) as [<- _]. destruct (step_forget b) as [<- _].
  rewrite Hab. reflexivity.
Qed.

Lemma step_restore (self : t) :
  halted self = false ->
  forget (state_of (step (restore self))) = forget (state_of (step self)).
Proof.
  intros Hh. unfold step. norm. cbn [restore halted]. rewrite Hh.
  unfold _stage_wb, _stage_mem, _stage_ex, _stage_id, _stage_if, mbind, option_bind.
  cbv zeta. unfold restore. norm.
  destruct (write_back _ _) as [regs|]; [|reflexivity].
  norm.
  destruct (decode _ _ _ _ _ _) as [d|]; [|reflexivity].
  norm.
  destruct (fetch _ _) as [f|]; [|reflexivity].
  unfold commit. cbv zeta. norm.
  reflexivity.
Qed.


(** ** Decode and execute of an ALU instruction or a load *)

Lemma index_reg (regs : list Z) (q : Z) :
  length regs = 8%nat -> 0 <= q < 8 -> Py.index regs q = Some (reg regs q).
Proof.
  intros Hlen Hq. unfold reg, Py.index. rewrite Hlen.
  replace ((0 <=? q) && (q <? Z.of_nat 8)) with true
    by (symmetry; apply andb_true_iff; split; [apply Z.leb_le | apply Z.ltb_lt]; lia).
  destruct (regs !! Z.to_nat q) eqn:E; [reflexivity|].
  apply lookup_ge_None in E. lia.
Qed.

Lemma funct_cases (code : Z) :
  (code_funct code <? 5) = true ->
  code_funct code = 0 \/ code_funct code = 1 \/ code_funct code = 2
  \/ code_funct code = 3 \/ code_funct code = 4.
Proof. intros H. apply Z.ltb_lt in H. pose proof (land_7_range code). unfold code_funct in *. lia. Qed.

Lemma load_branch_hazard_none (EX_MEM : ExMem.t) (l : IdEx.t) :
  IdEx.branch l = false -> IdEx.jump l = false -> load_branch_hazard EX_MEM l = None.
Proof.
  intros Hb Hj. unfold load_branch_hazard. rewrite Hb, Hj.
  destruct (_ && _); reflexivity.
Qed.

Ltac eval_index :=
  match goal with
  | |- context [Py.index (?a :: ?l) ?k] =>
      let v := eval vm_compute in (Py.index (a :: l) k) in
      change (Py.index (a :: l) k) with v
  end.

Lemma decode_alu_or_load (regs : list Z) (ID_EX : IdEx.t) (EX_MEM : ExMem.t)
    (MEM_WB : MemWb.t) (if_id : IfId.t) (new_ex_mem : option ExMem.t)
    (w : string) (code : Z) :
  length regs = 8%nat ->
  IfId.valid if_id = true ->
  IfId.instruction if_id = Some w ->
  Py.int16 w = Some code ->
  alu_or_load code = true ->
  exists l : IdEx.t,
    decode regs ID_EX EX_MEM MEM_WB if_id new_ex_mem
    = Some (l, false, None, load_use_hazard ID_EX l)
    /\ IdEx.valid l = true
    /\ IdEx.instruction l = Some w
    /\ IdEx.rs l = code_rs code
    /\ IdEx.rt l = code_rt code
    /\ IdEx.imm l = (if code_opcode code =? 0 then 0 else code_imm code)
    /\ IdEx.alu_op l = alu_op_of code
    /\ IdEx.rs_val l = reg regs (code_rs code)
    /\ IdEx.rt_val l = reg regs (code_rt code)
    /\ IdEx.mem_write l = false.
Proof.
  intros Hlen Hv Hi Hc Ha.
  unfold decode. rewrite Hv, Hi, Hc. cbn [negb]. cbv zeta.
  fold (code_opcode code).
  unfold alu_or_load, alu_op_of in *.
  destruct (code_opcode code =? 0) eqn:Hop.
  - unfold decode_r_type. fold (code_rs code) (code_rt code) (code_funct code).
    rewrite !index_reg by (assumption || apply land_7_range).
    apply funct_cases in Ha as Hf.
    destruct Hf as [Hf|[Hf|[Hf|[Hf|Hf]]]]; rewrite Hf;
      unfold mbind, option_bind; repeat eval_index;
      cbn -[load_use_hazard load_branch_hazard reg];
      rewrite load_branch_hazard_none by reflexivity;
      (eexists; split; [reflexivity|]); cbn; repeat split; reflexivity.
  - assert (code_opcode code = 1 \/ code_opcode code = 3 \/ code_opcode code = 4
            \/ code_opcode code = 5 \/ code_opcode code = 8) as Hcases.
    { repeat (apply orb_true_iff in Ha as [Ha|Ha]); apply Z.eqb_eq in Ha; auto. }
    unfold decode_i_type. fold (code_rs code) (code_rt code) (code_imm code).
    rewrite !index_reg by (assumption || apply land_7_range).
    destruct Hcases as [Ho|[Ho|[Ho|[Ho|Ho]]]]; rewrite Ho;
      unfold mbind, option_bind;
      cbn -[load_use_hazard load_branch_hazard reg id_forward];
      rewrite load_branch_hazard_none by reflexivity;
      (eexists; split; [reflexivity|]); cbn; repeat split; reflexivity.
Qed.

Lemma land_word16_id (v : Z) : word16 v -> Z.land v 65535 = v.
Proof.
  intros Hv. unfold word16 in Hv.
  replace (Z.land v 65535) with (v mod 2 ^ 16) by (symmetry; apply (Z.land_ones v 16); lia).
  apply Z.mod_small. lia.
Qed.

Lemma load_use_hazard_load (ID_EX l : IdEx.t) (r : Z) :
  load_latch ID_EX r = true ->
  IdEx.mem_write l = false ->
  (IdEx.rs l =? r) || (IdEx.rt l =? r) = true ->
  Py.not_none (load_use_hazard ID_EX l) = true.
Proof.
  unfold load_latch, load_use_hazard. intros Hl Hw Hr.
  repeat (apply andb_true_iff in Hl as [Hl ?]).
  match goal with H : (IdEx.rd ID_EX =? r) = true |- _ => apply Z.eqb_eq in H; rewrite H end.
  rewrite Hl. repeat match goal with H : _ = true |- _ => rewrite H end.
  rewrite Hw. cbn [andb negb].
  destruct (IdEx.rs l =? r); [reflexivity|].
  cbn [orb] in Hr. rewrite Hr. reflexivity.
Qed.

Lemma load_use_hazard_bubble (l : IdEx.t) : load_use_hazard _empty_id_ex l = None.
Proof. reflexivity. Qed.

Lemma reads_latch (code r : Z) (l : IdEx.t) :
  reads code r = true -> IdEx.rs l = code_rs code -> IdEx.rt l = code_rt code ->
  (IdEx.rs l =? r) || (IdEx.rt l =? r) = true.
Proof.
  unfold reads. intros H -> ->.
  apply orb_true_iff in H as [H|H]; [rewrite H; reflexivity|].
  apply andb_true_iff in H as [_ H]. rewrite H. apply orb_true_r.
Qed.

Lemma alu_of_code (code a b x : Z) :
  alu_or_load code = true ->
  alu (alu_op_of code) a b (if code_opcode code =? 0 then 0 else code_imm code) x
  = alu (alu_op_of code) a b (code_imm code) 0.
Proof.
  unfold alu_or_load, alu_op_of. intros Ha.
  destruct (code_opcode code =? 0) eqn:Hop.
  - apply funct_cases in Ha. destruct Ha as [Hf|[Hf|[Hf|[Hf|Hf]]]]; rewrite Hf; reflexivity.
  - assert (code_opcode code = 1 \/ code_opcode code = 3 \/ code_opcode code = 4
            \/ code_opcode code = 5 \/ code_opcode code = 8) as Hcases.
    { repeat (apply orb_true_iff in Ha as [Ha|Ha]); apply Z.eqb_eq in Ha; auto. }
    destruct Hcases as [Ho|[Ho|[Ho|[Ho|Ho]]]]; rewrite Ho; reflexivity.
Qed.

Lemma returned_state (self self' : t) (running : bool) :
  step self = Returned running self' -> state_of (step self) = self'.
Proof. intros ->. reflexivity. Qed.

Lemma reg_insert (regs : list Z) (r q v : Z) :
  length regs = 8%nat -> 0 < r < 8 -> 0 <= q < 8 ->
  reg (<[Z.to_nat r := v]> regs) q = if q =? r then v else reg regs q.
Proof.
  intros Hlen Hr Hq. unfold reg, Py.index. rewrite length_insert, Hlen.
  replace ((0 <=? q) && (q <? Z.of_nat 8)) with true
    by (symmetry; apply andb_true_iff; split; [apply Z.leb_le | apply Z.ltb_lt]; lia).
  destruct (q =? r) eqn:E.
  - apply Z.eqb_eq in E. subst q. rewrite list_lookup_insert_eq by lia. reflexivity.
  - apply Z.eqb_neq in E. rewrite list_lookup_insert_ne by lia. reflexivity.
Qed.

Lemma ex_latch_valid (id_ex : IdEx.t) (ex_mem : ExMem.t) (mem_wb : MemWb.t)
    (fa fb : option Forward.t) :
  IdEx.valid id_ex = true ->
  let e := ex_latch id_ex ex_mem mem_wb fa fb in
  ExMem.valid e = true
  /\ ExMem.instruction e = IdEx.instruction id_ex
  /\ ExMem.rd e = IdEx.rd id_ex
  /\ ExMem.reg_write e = IdEx.reg_write id_ex
  /\ ExMem.mem_read e = IdEx.mem_read id_ex
  /\ ExMem.mem_to_reg e = IdEx.mem_to_reg id_ex
  /\ ExMem.alu_result e =
       alu (IdEx.alu_op id_ex)
           (ex_operand (IdEx.rs id_ex) (IdEx.rs_val id_ex) ex_mem mem_wb fa)
           (ex_operand (IdEx.rt id_ex) (IdEx.rt_val id_ex) ex_mem mem_wb fb)
           (IdEx.imm id_ex) (IdEx.rs_val id_ex).
Proof. intros Hv. unfold ex_latch. rewrite Hv. cbn. repeat split; reflexivity. Qed.

Lemma mem_latch_valid (dm : gmap Z Z) (ex_mem : ExMem.t) :
  ExMem.valid ex_mem = true ->
  let m := mem_latch dm ex_mem in
  MemWb.valid m = true
  /\ MemWb.instruction m = ExMem.instruction ex_mem
  /\ MemWb.rd m = ExMem.rd ex_mem
  /\ MemWb.reg_write m = ExMem.reg_write ex_mem
  /\ MemWb.mem_to_reg m = ExMem.mem_to_reg ex_mem
  /\ MemWb.alu_result m = ExMem.alu_result ex_mem
  /\ MemWb.mem_data m =
       (if ExMem.mem_read ex_mem
        then default 0 (dm !! Z.land (ExMem.alu_result ex_mem) 65535) else 0).
Proof. intros Hv. unfold mem_latch. rewrite Hv. cbn. repeat split; reflexivity. Qed.

Lemma ex_operand_after_bubble (q v0 r : Z) (mem_wb : MemWb.t) :
  MemWb.valid mem_wb = true -> MemWb.reg_write mem_wb = true ->
  MemWb.rd mem_wb = r -> r <> 0 ->
  ex_operand q v0 _empty_ex_mem mem_wb None = (if q =? r then write_data mem_wb else v0).
Proof.
  intros Hv Hw Hrd Hr. unfold ex_operand, ex_mem_forwards, mem_wb_forwards.
  rewrite Hv, Hw, Hrd. cbn.
  replace (r =? 0) with false by (symmetry; apply Z.eqb_neq; assumption).
  cbn. rewrite andb_true_r. reflexivity.
Qed.

Lemma ex_forward_after_bubble (q r : Z) (mem_wb : MemWb.t) :
  MemWb.valid mem_wb = true -> MemWb.reg_write mem_wb = true ->
  MemWb.rd mem_wb = r -> r <> 0 -> q = r ->
  ex_forward q _empty_ex_mem mem_wb None
  = Some (forward_record "MEM_WB" r (write_data mem_wb)).
Proof.
  intros Hv Hw Hrd Hr ->. unfold ex_forward, ex_mem_forwards, mem_wb_forwards.
  rewrite Hv, Hw, Hrd. cbn.
  replace (r =? 0) with false by (symmetry; apply Z.eqb_neq; assumption).
  rewrite Z.eqb_refl. reflexivity.
Qed.

(** The decode of the cycle, for an ALU instruction or a load in IF/ID. *)
Lemma decode_of_cycle_consumer (self self' : t) regs d f (w : string) (code : Z) :
  cycle_facts self self' regs d f ->
  well_formed self' ->
  IfId.valid (IF_ID self) = true ->
  IfId.instruction (IF_ID self) = Some w ->
  Py.int16 w = Some code ->
  alu_or_load code = true ->
  exists l : IdEx.t,
    d = (l, false, None, load_use_hazard (ID_EX self) l)
    /\ IdEx.valid l = true
    /\ IdEx.instruction l = Some w
    /\ IdEx.rs l = code_rs code
    /\ IdEx.rt l = code_rt code
    /\ IdEx.imm l = (if code_opcode code =? 0 then 0 else code_imm code)
    /\ IdEx.alu_op l = alu_op_of code
    /\ IdEx.rs_val l = reg (registers self') (code_rs code)
    /\ IdEx.rt_val l = reg (registers self') (code_rt code)
    /\ IdEx.mem_write l = false.
Proof.
  intros F Hwf Hv Hi Hc Ha.
  pose proof (cf_decode _ _ _ _ _ F) as Hd.
  unfold decode_of_cycle in Hd. rewrite (cf_wb _ _ _ _ _ F) in Hd.
  cbn [mbind option_bind] in Hd.
  assert (length regs = 8%nat) as Hlen
    by (rewrite <- (cf_registers _ _ _ _ _ F); apply wf_length; assumption).
  destruct (decode_alu_or_load regs (ID_EX self) (EX_MEM self) (MEM_WB self) (IF_ID self)
              (Some (ex_result self)) w code Hlen Hv Hi Hc Ha) as (l & Hl & Hrest).
  rewrite Hl in Hd. injection Hd as <-.
  exists l. rewrite (cf_registers _ _ _ _ _ F). split; [reflexivity | exact Hrest].
Qed.


(** ** A call of [step] that returns *)

Lemma index_is_Some {A} (l : list A) (i : Z) :
  - Z.of_nat (length l) <= i < Z.of_nat (length l) -> is_Some (Py.index l i).
Proof.
  intros Hi. unfold Py.index.
  destruct ((0 <=? i) && (i <? _)) eqn:E1.
  - apply andb_true_iff in E1 as [H1 H2]. apply Z.leb_le in H1. apply Z.ltb_lt in H2.
    apply lookup_lt_is_Some. lia.
  - destruct ((- _ <=? i) && (i <? 0)) eqn:E2.
    + apply andb_true_iff in E2 as [H1 H2]. apply Z.leb_le in H1. apply Z.ltb_lt in H2.
      apply lookup_lt_is_Some. lia.
    + apply andb_false_iff in E1, E2.
      rewrite Z.leb_gt, Z.ltb_ge in E1, E2. lia.
Qed.

Lemma index_Some_range {A} (l : list A) (i : Z) (x : A) :
  Py.index l i = Some x -> - Z.of_nat (length l) <= i < Z.of_nat (length l).
Proof.
  unfold Py.index.
  destruct ((0 <=? i) && (i <? _)) eqn:E1.
  - apply andb_true_iff in E1 as [H1 H2]. apply Z.leb_le in H1. apply Z.ltb_lt in H2. lia.
  - destruct ((- _ <=? i) && (i <? 0)) eqn:E2; [|discriminate].
    apply andb_true_iff in E2 as [H1 H2]. apply Z.leb_le in H1. apply Z.ltb_lt in H2. lia.
Qed.

Lemma fetch_total (pc : Z) (instruction_memory : list string) :
  - len instruction_memory <= pc -> is_Some (fetch pc instruction_memory).
Proof.
  intros Hpc. unfold fetch. destruct (pc <? len instruction_memory) eqn:E; [|eauto].
  apply Z.ltb_lt in E.
  destruct (index_is_Some instruction_memory pc) as [word ->]; [unfold len in *; lia|].
  cbn. eauto.
Qed.

Lemma fetch_valid (pc : Z) (instruction_memory : list string) (fetched : IfId.t) :
  fetch pc instruction_memory = Some fetched -> IfId.valid fetched = true ->
  - len instruction_memory <= pc < len instruction_memory /\ IfId.pc fetched = pc.
Proof.
  unfold fetch. destruct (pc <? len instruction_memory) eqn:E; [|intros [= <-]; discriminate].
  unfold mbind, option_bind.
  destruct (Py.index instruction_memory pc) as [word|] eqn:Hi; [|discriminate].
  intros [= <-] _. apply index_Some_range in Hi. unfold len. split; [lia | reflexivity].
Qed.

Lemma write_back_total (regs : list Z) (mem_wb : MemWb.t) :
  length regs = 8%nat -> 0 <= MemWb.rd mem_wb < 8 ->
  exists regs', write_back regs mem_wb = Some regs' /\ length regs' = 8%nat.
Proof.
  intros Hlen Hrd. unfold write_back.
  destruct (negb _); [eauto|]. destruct (_ && _); [|eauto].
  unfold Py.setitem. rewrite Hlen.
  replace ((0 <=? MemWb.rd mem_wb) && (MemWb.rd mem_wb <? Z.of_nat 8)) with true
    by (symmetry; apply andb_true_iff; split; [apply Z.leb_le | apply Z.ltb_lt]; lia).
  destruct (MemWb.mem_to_reg mem_wb); eexists; (split; [reflexivity|]);
    rewrite length_insert; assumption.
Qed.

Lemma decode_total (regs : list Z) (ID_EX : IdEx.t) (EX_MEM : ExMem.t)
    (MEM_WB : MemWb.t) (if_id : IfId.t) (new_ex_mem : option ExMem.t) :
  length regs = 8%nat -> is_Some (decode regs ID_EX EX_MEM MEM_WB if_id new_ex_mem).
Proof.
  intros Hlen. unfold decode.
  destruct (negb _); [eauto|].
  destruct (IfId.instruction if_id) as [instruction|]; [|eauto].
  destruct (Py.int16 instruction) as [code|]; [|eauto].
  cbv zeta.
  match goal with
  | |- is_Some (mbind _ ?m) => assert (is_Some m) as [disp ->]
  end.
  { destruct (_ =? 0).
    - unfold decode_r_type. cbv zeta.
      rewrite !(index_reg regs) by (try assumption; apply land_7_range).
      cbn [mbind option_bind].
      destruct (_ =? 5); [repeat case_match; eauto|].
      destruct (Z.land code 7 <? 5) eqn:E; [|eauto].
      apply Z.ltb_lt in E. pose proof (land_7_range code).
      destruct (index_is_Some ["ADD"; "SUB"; "AND"; "OR"; "SLT"] (Z.land code 7))
        as [name ->]; [cbn; lia|].
      cbn. eauto.
    - destruct (_ || _); [eauto|].
      unfold decode_i_type. cbv zeta.
      rewrite !(index_reg regs) by (try assumption; apply land_7_range).
      cbn [mbind option_bind]. eauto. }
  cbn [mbind option_bind]. destruct disp; eauto.
Qed.

Lemma step_returns (self : t) :
  well_formed self -> halted self = false ->
  - len (instruction_memory self) <= pc self ->
  step self = Returned (negb (halted (state_of (step self)))) (state_of (step self)).
Proof.
  intros Hwf Hh Hpc.
  destruct (write_back_total (registers self) (MEM_WB self))
    as (regs & Hwb & Hlen); [apply wf_length, Hwf | apply wf_mem_wb, Hwf |].
  destruct (decode_total regs (ID_EX self) (EX_MEM self) (MEM_WB self) (IF_ID self)
              (Some (ex_result self)) Hlen) as [d Hd].
  destruct (fetch_total _ _ Hpc) as [fetched Hf].
  unfold ex_result in Hd.
  unfold step. rewrite Hh.
  unfold _stage_wb, _stage_mem, _stage_ex, _stage_id, _stage_if, mbind, option_bind.
  cbv zeta. norm. rewrite Hwb. norm. rewrite Hd. norm. rewrite Hf.
  unfold commit. cbv zeta. norm. reflexivity.
Qed.

Lemma fetch_point_step (self : t) : fetch_point self -> fetch_point (state_of (step self)).
Proof.
  intros Hp. unfold step. destruct (halted self) eqn:Hh; [exact Hp|].
  unfold _stage_wb, _stage_mem, _stage_ex, _stage_id, _stage_if, mbind, option_bind.
  cbv zeta. norm.
  destruct (write_back _ _) as [regs|]; norm; [|exact Hp].
  destruct (decode _ _ _ _ _ _) as [d|] eqn:Hd; norm; [|exact Hp].
  destruct (fetch _ _) as [f|] eqn:Hf; norm; [|exact Hp].
  unfold commit. cbv zeta. norm. unfold fetch_point. norm.
  destruct (Py.not_none d.2 || stall self);
    [intros Hv; split; [apply Hp; assumption | reflexivity]|].
  destruct (d.1.1.2 || Py.not_none d.1.2) eqn:Hr; [discriminate|].
  intros Hv. destruct (fetch_valid _ _ _ Hf Hv) as (Hrange & ->).
  split; [lia|].
  apply orb_false_iff in Hr as [_ Hr]. destruct d.1.2; [discriminate|].
  replace (pc self <? len (instruction_memory self)) with true
    by (symmetry; apply Z.ltb_lt; lia).
  reflexivity.
Qed.

Lemma fetch_point_reachable (self : t) : reachable self -> fetch_point self.
Proof.
  induction 1; [discriminate | discriminate | apply fetch_point_step; assumption].
Qed.

(** ** Fields of the encoded words *)

Lemma r_fields_table :
  forallb (fun rs => forallb (fun rt => forallb (fun rd => forallb (fun funct =>
    r_fields_ok rs rt rd funct) (zrange 8)) (zrange 8)) (zrange 8)) (zrange 8) = true.
Proof. vm_cast_no_check (@eq_refl bool true). Qed.

Lemma i_fields_table :
  forallb (fun opcode => forallb (fun rs => forallb (fun rt => forallb (fun imm =>
    i_fields_ok opcode rs rt imm) (zrange 64)) (zrange 8)) (zrange 8)) (zrange 16) = true.
Proof. vm_cast_no_check (@eq_refl bool true). Qed.

Lemma j_fields_table :
  forallb (fun opcode => forallb (fun hi => forallb (fun lo =>
    j_fields_ok opcode (64 * hi + lo)) (zrange 64)) (zrange 64)) (zrange 16) = true.
Proof. vm_cast_no_check (@eq_refl bool true). Qed.

Lemma hex_table :
  forallb (fun hi => forallb (fun lo => hex_ok (256 * hi + lo)) (zrange 256)) (zrange 256)
  = true.
Proof. vm_cast_no_check (@eq_refl bool true). Qed.

Lemma forallb_zrange (n : nat) (p : Z -> bool) (x : Z) :
  forallb p (zrange n) = true -> 0 <= x < Z.of_nat n -> p x = true.
Proof.
  intros H Hx. rewrite forallb_forall in H. apply H, zrange_In. assumption.
Qed.

Lemma zrange_bounds (n : nat) (x : Z) : In x (zrange n) -> 0 <= x < Z.of_nat n.
Proof.
  unfold zrange. intros H. apply in_map_iff in H as (k & <- & Hk).
  apply in_seq in Hk. lia.
Qed.

Ltac table_facts T :=
  repeat (apply andb_true_iff in T as [T ?]);
  repeat match goal with
         | H : (_ =? _) = true |- _ => apply Z.eqb_eq in H
         | H : (_ <=? _) = true |- _ => apply Z.leb_le in H
         | H : (_ <? _) = true |- _ => apply Z.ltb_lt in H
         end.

Lemma r_fields (rs rt rd funct : Z) :
  0 <= rs < 8 -> 0 <= rt < 8 -> 0 <= rd < 8 -> 0 <= funct < 8 ->
  let w := encode_r_type rs rt rd funct in
  0 <= w < 4096 /\ code_opcode w = 0 /\ code_rs w = rs /\ code_rt w = rt
  /\ code_rd w = rd /\ code_funct w = funct.
Proof.
  intros Hrs Hrt Hrd Hf w. pose proof r_fields_table as T.
  apply (forallb_zrange 8 _ rs) in T; [|lia].
  apply (forallb_zrange 8 _ rt) in T; [|lia].
  apply (forallb_zrange 8 _ rd) in T; [|lia].
  apply (forallb_zrange 8 _ funct) in T; [|lia].
  unfold r_fields_ok in T. fold w in T. table_facts T.
  repeat apply conj; first [assumption | lia].
Qed.

Lemma i_fields (opcode rs rt imm : Z) :
  0 <= opcode < 16 -> 0 <= rs < 8 -> 0 <= rt < 8 -> 0 <= imm < 64 ->
  let w := encode_i_type opcode rs rt imm in
  0 <= w < 65536 /\ code_opcode w = opcode /\ code_rs w = rs /\ code_rt w = rt
  /\ code_imm w = (if imm <? 32 then imm else imm - 64).
Proof.
  intros Ho Hrs Hrt Hi w. pose proof i_fields_table as T.
  apply (forallb_zrange 16 _ opcode) in T; [|lia].
  apply (forallb_zrange 8 _ rs) in T; [|lia].
  apply (forallb_zrange 8 _ rt) in T; [|lia].
  apply (forallb_zrange 64 _ imm) in T; [|lia].
  unfold i_fields_ok in T. fold w in T. table_facts T.
  repeat apply conj; first [assumption | lia].
Qed.

Lemma encode_i_type_mod (opcode rs rt imm : Z) :
  encode_i_type opcode rs rt (imm mod 64) = encode_i_type opcode rs rt imm.
Proof.
  unfold encode_i_type. f_equal. change 63 with (Z.ones 6).
  rewrite !Z.land_ones by lia. apply Z.mod_mod. lia.
Qed.

Lemma i_fields_signed (opcode rs rt imm : Z) :
  0 <= opcode < 16 -> 0 <= rs < 8 -> 0 <= rt < 8 -> -32 <= imm < 32 ->
  let w := encode_i_type opcode rs rt imm in
  0 <= w < 65536 /\ code_opcode w = opcode /\ code_rs w = rs /\ code_rt w = rt
  /\ code_imm w = imm.
Proof.
  intros Ho Hrs Hrt Hi w.
  pose proof (Z.mod_pos_bound imm 64 ltac:(lia)) as Hm.
  destruct (i_fields opcode rs rt (imm mod 64) Ho Hrs Hrt Hm) as (H1 & H2 & H3 & H4 & H5).
  rewrite encode_i_type_mod in *. fold w in H1, H2, H3, H4, H5.
  refine (conj H1 (conj H2 (conj H3 (conj H4 _)))). etransitivity; [exact H5|].
  destruct (Z_lt_le_dec imm 0) as [Hneg|Hpos].
  - replace (imm mod 64) with (imm + 64)
      by (apply (Z.mod_unique_pos imm 64 (-1)); lia).
    replace (imm + 64 <? 32) with false by (symmetry; apply Z.ltb_ge; lia). lia.
  - rewrite Z.mod_small by lia.
    replace (imm <? 32) with true by (symmetry; apply Z.ltb_lt; lia). reflexivity.
Qed.

Lemma j_fields (opcode address : Z) :
  0 <= opcode < 16 -> 0 <= address < 4096 ->
  let w := encode_j_type opcode address in
  0 <= w < 65536 /\ code_opcode w = opcode /\ Z.land w 4095 = address.
Proof.
  intros Ho Ha w. pose proof j_fields_table as T.
  apply (forallb_zrange 16 _ opcode) in T; [|lia].
  apply (forallb_zrange 64 _ (address / 64)) in T;
    [|split; [apply Z.div_pos; lia | apply Z.div_lt_upper_bound; lia]].
  apply (forallb_zrange 64 _ (address mod 64)) in T; [|apply Z.mod_pos_bound; lia].
  cbv beta in T. rewrite <- Z.div_mod in T by lia.
  unfold j_fields_ok in T. fold w in T. table_facts T.
  repeat apply conj; first [assumption | lia].
Qed.

Lemma hex_reads_back (w : Z) :
  0 <= w < 65536 ->
  String.length (Py.format_04X w) = 4%nat /\ Py.int16 (Py.format_04X w) = Some w.
Proof.
  intros Hw. pose proof hex_table as T.
  apply (forallb_zrange 256 _ (w / 256)) in T;
    [|split; [apply Z.div_pos; lia | apply Z.div_lt_upper_bound; lia]].
  apply (forallb_zrange 256 _ (w mod 256)) in T; [|apply Z.mod_pos_bound; lia].
  cbv beta in T. rewrite <- Z.div_mod in T by lia. unfold hex_ok in T.
  apply andb_true_iff in T as [T1 T2]. apply Nat.eqb_eq in T1.
  destruct (Py.int16 (Py.format_04X w)) as [v|]; [|discriminate].
  apply Z.eqb_eq in T2. subst v. split; [assumption | reflexivity].
Qed.

Lemma encoder_image_word (w : Z) : encoder_image w -> 0 <= w < 65536.
Proof.
  intros [(f & rs & rt & rd & Hf & Hrs & Hrt & Hrd & ->)
         |[(rs & Hrs & ->)
          |[(op & rs & rt & imm & Hop & Hrs & Hrt & Himm & ->)
           |(op & a & Hop & Ha & ->)]]];
    repeat match goal with H : In _ (zrange _) |- _ => apply zrange_bounds in H end.
  - pose proof (r_fields rs rt rd f) as H. cbv zeta in H. lia.
  - pose proof (r_fields rs 0 0 5) as H. cbv zeta in H. lia.
  - assert (0 <= op < 16) as Ho by (cbn in Hop; lia).
    pose proof (i_fields op rs rt imm Ho) as H. cbv zeta in H. lia.
  - assert (0 <= op < 16) as Ho by (cbn in Hop; lia).
    pose proof (j_fields op a Ho) as H. cbv zeta in H. lia.
Qed.

(** ** Decimal literals *)

Lemma srev_onto_twice (s a b : string) :
  Py.srev_onto (Py.srev_onto s a) b = Py.srev_onto a (s ++ b)%string.
Proof.
  revert a b. induction s as [|c r IH]; intros a b; [reflexivity|].
  cbn [Py.srev_onto]. rewrite IH. reflexivity.
Qed.

Lemma string_app_nil (s : string) : (s ++ "")%string = s.
Proof.
  induction s as [|c r IH]; [reflexivity|].
  change (String c r +:+ "") with (String c (r +:+ "")). f_equal. exact IH.
Qed.

Lemma srev_involutive (s : string) : Py.srev (Py.srev s) = s.
Proof. unfold Py.srev. rewrite srev_onto_twice. cbn. apply string_app_nil. Qed.

Lemma all_chars_srev_onto (p : ascii -> bool) (s a : string) :
  all_chars p (Py.srev_onto s a) = all_chars p s && all_chars p a.
Proof.
  revert a. induction s as [|c r IH]; intros a; cbn; [reflexivity|].
  rewrite IH. cbn. destruct (p c), (all_chars p r); reflexivity.
Qed.

Lemma lstrip_no_space (s : string) :
  all_chars (fun c => negb (Py.isspace c)) s = true -> Py.lstrip s = s.
Proof.
  destruct s as [|c r]; [reflexivity|]. cbn. intros H.
  apply andb_true_iff in H as [H _]. apply negb_true_iff in H. rewrite H. reflexivity.
Qed.

Lemma strip_no_space (s : string) :
  all_chars (fun c => negb (Py.isspace c)) s = true -> Py.strip s = s.
Proof.
  intros H. unfold Py.strip, Py.rstrip. rewrite (lstrip_no_space s H).
  rewrite lstrip_no_space; [apply srev_involutive|].
  unfold Py.srev. rewrite all_chars_srev_onto, H. reflexivity.
Qed.

Lemma all_chars_impl (p q : ascii -> bool) (s : string) :
  (forall c, p c = true -> q c = true) -> all_chars p s = true -> all_chars q s = true.
Proof.
  intros Hpq. induction s as [|c r IH]; cbn; [reflexivity|].
  intros H. apply andb_true_iff in H as [H1 H2].
  rewrite (Hpq _ H1), (IH H2). reflexivity.
Qed.

Lemma literal_char_no_space (c : ascii) :
  literal_char c = true -> negb (Py.isspace c) = true.
Proof.
  unfold literal_char. intros H. apply orb_true_iff in H as [H|H].
  - unfold Py.isdigit_char, Py.isspace in *. cbv zeta in *.
    apply andb_true_iff in H as [H1 H2]. apply Z.leb_le in H1. apply Z.leb_le in H2.
    apply negb_true_iff, orb_false_iff.
    split; apply andb_false_iff; right; apply Z.leb_gt; lia.
  - destruct (ascii_dec c "-") as [->|]; [reflexivity | discriminate].
Qed.

Lemma uint_literal (d : Decimal.uint) :
  all_chars Py.isdigit_char (NilEmpty.string_of_uint d) = true.
Proof. induction d; cbn [NilEmpty.string_of_uint all_chars]; try reflexivity; exact IHd. Qed.

Lemma str_literal (v : Z) : all_chars literal_char (Py.str v) = true.
Proof.
  assert (forall d, all_chars literal_char (NilEmpty.string_of_uint d) = true) as H.
  { intros d. apply (all_chars_impl Py.isdigit_char); [|apply uint_literal].
    intros c Hc. unfold literal_char. rewrite Hc. reflexivity. }
  destruct v as [|p|p]; cbn [Py.str]; [reflexivity | apply H |].
  cbn [all_chars]. rewrite H. reflexivity.
Qed.

Lemma strip_str (v : Z) : Py.strip (Py.str v) = Py.str v.
Proof.
  apply strip_no_space, (all_chars_impl literal_char); [|apply str_literal].
  apply literal_char_no_space.
Qed.

Lemma str_not_hex (v : Z) :
  Py.startswith "0x" (Py.str v) = false /\ Py.startswith "0X" (Py.str v) = false.
Proof.
  pose proof (str_literal v) as H. unfold Py.startswith.
  destruct (Py.str v) as [|c [|d r]]; [split; reflexivity | |].
  - split; cbn [String.prefix]; destruct (ascii_dec _ c); reflexivity.
  - cbn [all_chars] in H. apply andb_true_iff in H as [_ H].
    apply andb_true_iff in H as [H _].
    split; cbn [String.prefix]; (destruct (ascii_dec _ c); [|reflexivity]);
      (destruct (ascii_dec _ d) as [<-|]; [discriminate H | reflexivity]).
Qed.

Lemma parse_immediate_str (v l : Z) :
  parse_immediate (Py.str v) l =
    if (v <? -32) || (v >? 31)
    then Raise (AssemblerError
                  ("Immediate value " +:+ Py.str v +:+ " out of range [-32, 31]") l)
    else Ok (v mod 64).
Proof.
  unfold parse_immediate, parse_immediate_bits. rewrite strip_str.
  destruct (str_not_hex v) as [-> ->]. cbn [orb].
  assert ((if Py.startswith "-" (Py.str v) then Py.int10 (Py.str v)
           else Py.int10 (Py.str v)) = Some v) as ->
    by (destruct (Py.startswith _ _); apply int10_str).
  cbv zeta. change (Z.shiftl 1 (6 - 1) - 1) with 31.
  change (- Z.shiftl 1 (6 - 1)) with (-32).
  destruct ((v <? -32) || (v >? 31)) eqn:E; [reflexivity|].
  f_equal. change (Z.shiftl 1 6 - 1) with (Z.ones 6). rewrite Z.land_ones by lia.
  apply orb_false_iff in E as [E1 E2]. apply Z.ltb_ge in E1.
  destruct (v <? 0) eqn:E3; [|reflexivity].
  change (Z.shiftl 1 6) with (1 * 2 ^ 6). rewrite Z.add_comm, Z.mod_add by lia.
  reflexivity.
Qed.

(** ** Operands and labels *)

Lemma parse_register_bounds (s : string) (l n : Z) :
  parse_register s l = Ok n -> 0 <= n < 8.
Proof. intros H. apply parse_register_range, zrange_bounds in H. lia. Qed.

Lemma r_type_none (b : string) :
  b = "BEQ" \/ b = "BNQ" \/ b = "JUMP" \/ b = "JAL" -> Py.assoc R_TYPE_FUNCT b = None.
Proof. intros [->|[->|[->| ->]]]; vm_compute; reflexivity. Qed.

Lemma branch_opcode (b : string) :
  b = "BEQ" \/ b = "BNQ" ->
  Py.assoc I_TYPE_OPCODES b = Some (if String.eqb b "BEQ" then 6 else 7)
  /\ (String.eqb b "LW" || String.eqb b "SW") = false
  /\ (String.eqb b "BEQ" || String.eqb b "BNQ") = true.
Proof. intros [->| ->]; vm_compute; repeat split; reflexivity. Qed.

Lemma jump_opcode (j : string) :
  j = "JUMP" \/ j = "JAL" ->
  Py.assoc I_TYPE_OPCODES j = None
  /\ Py.assoc J_TYPE_OPCODES j = Some (if String.eqb j "JUMP" then 9 else 10).
Proof. intros [->| ->]; vm_compute; split; reflexivity. Qed.

(** ** The two passes of [assemble] *)

Lemma first_pass_addresses (lines : list string) :
  forall (line_num current_addr : Z) (labels labels' : gmap string Z)
         (instructions instructions' : list (Z * Z * string * list string)),
    first_pass lines line_num current_addr labels instructions = Ok (labels', instructions') ->
    current_addr = len instructions ->
    map addr_of instructions = zrange (length instructions) ->
    map_Forall (fun _ t => 0 <= t <= current_addr) labels ->
    map addr_of instructions' = zrange (length instructions')
    /\ map_Forall (fun _ t => 0 <= t <= len instructions') labels'.
Proof.
  induction lines as [|line rest IH];
    intros line_num current_addr labels labels' instructions instructions' H Haddr Hmap Hlab.
  - cbn in H. injection H as <- <-. subst current_addr. split; assumption.
  - cbn [first_pass] in H.
    destruct (tokenize_line line) as [[label instruction] operands].
    apply bind_Ok in H as (labels1 & Hl1 & H).
    assert (map_Forall (fun _ t => 0 <= t <= current_addr) labels1) as Hlab1.
    { destruct label as [l|]; [|injection Hl1 as <-; assumption].
      destruct (Py.truthy l); [|injection Hl1 as <-; assumption].
      destruct (labels !! l); [discriminate|]. injection Hl1 as <-.
      apply map_Forall_insert_2; [unfold len in *; lia | assumption]. }
    assert (forall instrs, first_pass rest (line_num + 1) current_addr labels1 instructions
                           = Ok (labels', instrs) ->
                           map addr_of instrs = zrange (length instrs)
                           /\ map_Forall (fun _ t => 0 <= t <= len instrs) labels') as Hskip
      by (intros instrs Hi; eapply IH; eassumption).
    destruct instruction as [i|]; [|apply Hskip; assumption].
    destruct (Py.truthy i); [|apply Hskip; assumption].
    eapply IH; [eassumption | | |].
    + unfold len in *. rewrite length_app. cbn. lia.
    + rewrite map_app, length_app, Hmap. cbn [map length addr_of fst].
      unfold zrange. rewrite Nat.add_1_r, seq_S, map_app. cbn [map Nat.add].
      do 2 f_equal. unfold len in Haddr. lia.
    + eapply map_Forall_impl; [exact Hlab1|]. cbn. intros _ t Ht. lia.
Qed.

Lemma second_pass_codes (lines : list string) (labels : gmap string Z)
    (instructions : list (Z * Z * string * list string)) :
  forall (machine_codes machine_codes' : list string) (addr_to_source a2s' : gmap Z string),
    second_pass lines labels instructions machine_codes addr_to_source
    = Ok (machine_codes', a2s') ->
    length machine_codes' = (length machine_codes + length instructions)%nat
    /\ (Forall machine_code machine_codes -> Forall machine_code machine_codes')
    /\ (forall a, is_Some (a2s' !! a)
                  <-> is_Some (addr_to_source !! a) \/ In a (map addr_of instructions)).
Proof.
  induction instructions as [|[[[addr line_num] instruction] operands] rest IH];
    intros machine_codes machine_codes' addr_to_source a2s' H.
  - cbn in H. injection H as <- <-. split; [cbn; lia|]. split; [auto|].
    intros a. cbn. tauto.
  - cbn [second_pass] in H.
    destruct (encode_instruction _ _ _ _ _) as [w|[m l|lit b]] eqn:He; try discriminate.
    destruct (Py.index lines (line_num - 1)) as [src|]; [|discriminate].
    apply IH in H as (Hlen & Hcodes & Hkeys).
    split; [rewrite Hlen, length_app; cbn; lia|]. split.
    + intros Hmc. apply Hcodes, Forall_app. split; [assumption|].
      constructor; [|constructor].
      apply encode_instruction_image in He. pose proof (encoder_image_word _ He) as Hw.
      destruct (hex_reads_back w Hw) as [H4 Hr]. split; [assumption|]. eauto.
    + intros a. rewrite Hkeys. cbn [map addr_of fst In].
      destruct (decide (addr = a)) as [->|Hne].
      * rewrite lookup_insert_eq. split; intros _; [right; left; reflexivity|].
        left. eexists. reflexivity.
      * rewrite lookup_insert_ne by assumption. intuition congruence.
Qed.

(** ** Memory operands *)

Lemma take_drop_while_app (p : ascii -> bool) (a : string) (c : ascii) (rest : string) :
  all_chars p a = true -> p c = false ->
  Py.take_while p (a +:+ String c rest) = a
  /\ Py.drop_while p (a +:+ String c rest) = String c rest.
Proof.
  intros Ha Hc. induction a as [|d a IH].
  - change ("" +:+ String c rest) with (String c rest).
    cbn [Py.take_while Py.drop_while]. rewrite Hc. split; reflexivity.
  - cbn [all_chars] in Ha. apply andb_true_iff in Ha as [Hd Ha].
    destruct (IH Ha) as [IH1 IH2].
    change (String d a +:+ String c rest) with (String d (a +:+ String c rest)).
    cbn [Py.take_while Py.drop_while]. rewrite Hd, IH1, IH2. split; reflexivity.
Qed.

Lemma uint_text_truthy (p : positive) :
  Py.truthy (NilEmpty.string_of_uint (Pos.to_uint p)) = true.
Proof.
  pose proof (int10_str (Zpos p)) as H. cbn [Py.str] in H.
  destruct (NilEmpty.string_of_uint (Pos.to_uint p)); [discriminate H | reflexivity].
Qed.

Lemma digit_first (c : ascii) (r : string) :
  Py.isdigit_char c = true ->
  match String c r with
  | String "-" r' => ("-", r')
  | _ => ("", String c r)
  end = ("", String c r).
Proof.
  intros H. destruct c as [[] [] [] [] [] [] [] []];
    first [discriminate H | reflexivity].
Qed.

Lemma register_text (rs : Z) :
  0 <= rs < 8 ->
  exists d : ascii,
    Py.str rs = String d "" /\ Py.isdigit_char d = true
    /\ forall l : Z, parse_register ("$r" +:+ Py.str rs) l = Ok rs.
Proof.
  intros H.
  assert (rs = 0 \/ rs = 1 \/ rs = 2 \/ rs = 3 \/ rs = 4 \/ rs = 5 \/ rs = 6 \/ rs = 7)
    as [->|[->|[->|[->|[->|[->|[->| ->]]]]]]] by lia;
    eexists; (split; [reflexivity|]); (split; [reflexivity|]); intros l; reflexivity.
Qed.

Lemma match_memory_digits (digits : string) (d : ascii) :
  all_chars Py.isdigit_char digits = true -> Py.truthy digits = true ->
  Py.isdigit_char d = true ->
  match_memory_operand (digits +:+ "(" +:+ "$r" +:+ String d "" +:+ ")")
  = Some (digits, "$r" +:+ String d "")
  /\ match_memory_operand (String "-" digits +:+ "(" +:+ "$r" +:+ String d "" +:+ ")")
     = Some (String "-" digits, "$r" +:+ String d "").
Proof.
  intros Hd Ht Hdig.
  change ("(" +:+ "$r" +:+ String d "" +:+ ")")
    with (String "(" (String "$" (String "r" (String d ")")))).
  destruct (take_drop_while_app Py.isdigit_char digits "("
              (String "$" (String "r" (String d ")"))) Hd eq_refl) as [Htw Hdw].
  split.
  - destruct digits as [|c ds]; [discriminate Ht|].
    cbn [all_chars] in Hd. apply andb_true_iff in Hd as [Hc _].
    change (String c ds +:+ ?x) with (String c (ds +:+ x)) in *.
    unfold match_memory_operand. rewrite (digit_first c _ Hc).
    rewrite Htw, Hdw. cbn [Py.truthy negb]. cbv -[Py.isdigit_char]. rewrite Hdig. reflexivity.
  - change (String "-" digits +:+ ?x) with (String "-" (digits +:+ x)).
    unfold match_memory_operand. cbv iota beta. rewrite Htw, Hdw, Ht.
    cbv -[Py.isdigit_char]. rewrite Hdig. reflexivity.
Qed.

Lemma match_memory_text (imm rs : Z) :
  0 <= rs < 8 ->
  match_memory_operand (Py.str imm +:+ "(" +:+ "$r" +:+ Py.str rs +:+ ")")
  = Some (Py.str imm, "$r" +:+ Py.str rs).
Proof.
  intros Hrs. destruct (register_text rs Hrs) as (d & -> & Hd & _).
  destruct imm as [|p|p]; cbn [Py.str].
  - apply (match_memory_digits "0" d); [reflexivity | reflexivity | exact Hd].
  - apply match_memory_digits; [apply uint_literal | apply uint_text_truthy | exact Hd].
  - apply match_memory_digits; [apply uint_literal | apply uint_text_truthy | exact Hd].
Qed.

Lemma memory_opcode (m : string) :
  m = "LW" \/ m = "SW" ->
  Py.assoc R_TYPE_FUNCT m = None
  /\ Py.assoc I_TYPE_OPCODES m = Some (if String.eqb m "LW" then 1 else 2)
  /\ (String.eqb m "LW" || String.eqb m "SW") = true.
Proof. intros [->| ->]; vm_compute; repeat split; reflexivity. Qed.

(** ** Comments *)

Lemma app_cons (d : ascii) (a b : string) : String d a +:+ b = String d (a +:+ b).
Proof. reflexivity. Qed.

Lemma before_char_at (c : ascii) (a b : string) :
  Py.before_char c (a +:+ String c b) = Py.before_char c a.
Proof.
  induction a as [|d a IH].
  - change ("" +:+ String c b) with (String c b). cbn [Py.before_char].
    destruct (ascii_dec c c); [reflexivity | contradiction].
  - rewrite app_cons. cbn [Py.before_char]. destruct (ascii_dec d c); [reflexivity|].
    rewrite IH. reflexivity.
Qed.

Lemma before_char_code (a b : string) :
  all_chars code_char a = true ->
  Py.before_char "#" (a +:+ b) = a +:+ Py.before_char "#" b.
Proof.
  induction a as [|d a IH]; intros H; [reflexivity|].
  cbn [all_chars] in H. apply andb_true_iff in H as [Hd Ha].
  rewrite !app_cons. cbn [Py.before_char].
  unfold code_char in Hd. destruct (ascii_dec d "#"); [discriminate Hd|].
  rewrite (IH Ha). reflexivity.
Qed.

Lemma before_sub_code (a b : string) :
  all_chars code_char a = true ->
  Py.before_sub "//" (a +:+ "//" +:+ b) = a /\ Py.before_sub "//" a = a.
Proof.
  induction a as [|d a IH]; intros H.
  - split; [destruct b|]; reflexivity.
  - cbn [all_chars] in H. apply andb_true_iff in H as [Hd Ha].
    destruct (IH Ha) as [IH1 IH2].
    assert (forall r, String.prefix "//" (String d r) = false) as Hp.
    { intros r. unfold code_char in Hd. cbn [String.prefix].
      destruct (ascii_dec "/" d) as [<-|]; [discriminate Hd | reflexivity]. }
    change (String d a +:+ "//" +:+ b) with (String d (a +:+ "//" +:+ b)).
    cbn [Py.before_sub]. rewrite !Hp.
    rewrite IH1, IH2. split; reflexivity.
Qed.

Lemma before_char_code_id (a : string) :
  all_chars code_char a = true -> Py.before_char "#" a = a.
Proof.
  induction a as [|d a IH]; intros H; [reflexivity|].
  cbn [all_chars] in H. apply andb_true_iff in H as [Hd Ha].
  cbn [Py.before_char]. unfold code_char in Hd.
  destruct (ascii_dec d "#"); [discriminate Hd|]. rewrite (IH Ha). reflexivity.
Qed.

(** ** The outcomes of [step] *)

Lemma step_raised (self s : t) :
  step self = Raised s -> halted self = false /\ same_progress self s.
Proof.
  unfold step. destruct (halted self) eqn:Hh; [discriminate|].
  unfold _stage_wb, _stage_mem, _stage_ex, _stage_id, _stage_if, mbind, option_bind.
  cbv zeta. norm.
  destruct (write_back _ _) as [regs|]; norm;
    [|intros [= <-]; split; [reflexivity|]; constructor; norm; reflexivity].
  destruct (decode _ _ _ _ _ _) as [d|]; norm;
    [|intros [= <-]; split; [reflexivity|]; constructor; norm; reflexivity].
  destruct (fetch _ _) as [f|]; norm;
    [|intros [= <-]; split; [reflexivity|]; constructor; norm; reflexivity].
  unfold commit. cbv zeta. discriminate.
Qed.

Lemma step_histories (self self' : t) (running : bool) :
  halted self = false -> step self = Returned running self' -> history_facts self self'.
Proof.
  intros Hh. unfold step. rewrite Hh.
  unfold _stage_wb, _stage_mem, _stage_ex, _stage_id, _stage_if, mbind, option_bind.
  cbv zeta. norm.
  destruct (write_back _ _) as [regs|]; [|discriminate]. norm.
  destruct (decode _ _ _ _ _ _) as [d|]; [|discriminate]. norm.
  destruct (fetch _ _) as [fetched|]; [|discriminate].
  unfold commit. cbv zeta. norm.
  intros [= <- <-]. constructor; norm; [|reflexivity].
  eexists. split; [reflexivity|].
  unfold if_entry, wb_entry.
  cbn [Snapshot.cycle Snapshot.IF_PC Snapshot.IF_word Snapshot.WB_PC Snapshot.WB_word].
  split; [reflexivity|].
  repeat match goal with
         | |- context [first_seen ?a ?b ?c] =>
             let k := fresh "k" in
             set (k := first_seen a b c); clearbody k
         end.
  repeat match goal with
         | k : option (Z * string) |- _ => destruct k as [[? ?]|]
         end; cbn; repeat split; reflexivity.
Qed.

Lemma step_running (self self' : t) (running : bool) :
  step self = Returned running self' -> running = negb (halted self').
Proof.
  unfold step. destruct (halted self) eqn:Hh; [intros [= <- <-]; rewrite Hh; reflexivity|].
  unfold _stage_wb, _stage_mem, _stage_ex, _stage_id, _stage_if, mbind, option_bind.
  cbv zeta. norm.
  destruct (write_back _ _) as [regs|]; [|discriminate]. norm.
  destruct (decode _ _ _ _ _ _) as [d|]; [|discriminate]. norm.
  destruct (fetch _ _) as [fetched|]; [|discriminate].
  unfold commit. cbv zeta. norm. intros [= <- <-]. norm. reflexivity.
Qed.

(** ** The histories *)

Lemma cycles_succ (n : Z) : 0 <= n -> cycles (n + 1) = (cycles n ++ [n + 1])%list.
Proof.
  intros Hn. unfold cycles. rewrite Z2Nat.inj_add by lia.
  change (Z.to_nat 1) with 1%nat. rewrite Nat.add_1_r, seq_S, map_app.
  cbn [map Nat.add]. do 2 f_equal. lia.
Qed.

Lemma length_cycles (n : Z) : 0 <= n -> len (cycles n) = n.
Proof. intros Hn. unfold len, cycles. rewrite length_map, length_seq. lia. Qed.

Lemma sublist_cycles_step (l : list Z) (n : Z) (b : bool) :
  0 <= n -> sublist l (cycles n) ->
  sublist (if b then l ++ [n + 1] else l)%list (cycles (n + 1)).
Proof.
  intros Hn Hl. rewrite cycles_succ by assumption. destruct b.
  - apply sublist_app; [assumption | reflexivity].
  - apply sublist_inserts_r. assumption.
Qed.

Lemma first_seen_fresh (pc : Z) (word : option string) (seen : gset (Z * string))
    (k : Z * string) :
  first_seen pc word seen = Some k -> k ∉ seen.
Proof.
  unfold first_seen. destruct word as [w|]; [|discriminate].
  destruct (Py.truthy w); [|discriminate]. cbn [andb].
  destruct (bool_decide ((pc, w) ∈ seen)) eqn:E; [discriminate|].
  intros [= <-]. apply bool_decide_eq_false in E. assumption.
Qed.

Lemma keys_step (entry : Snapshot.t -> option (Z * string)) (history : list Snapshot.t)
    (snapshot : Snapshot.t) (seen : gset (Z * string)) (pc : Z) (word : option string) :
  NoDup (omap entry history) ->
  seen = list_to_set (omap entry history) ->
  entry snapshot = first_seen pc word seen ->
  NoDup (omap entry (history ++ [snapshot])%list)
  /\ add_seen (entry snapshot) seen = list_to_set (omap entry (history ++ [snapshot])%list).
Proof.
  intros Hnd Hseen He. rewrite omap_app.
  assert (omap entry [snapshot]
          = match entry snapshot with Some k => [k] | None => [] end) as ->
    by (cbn; destruct (entry snapshot); reflexivity).
  destruct (entry snapshot) as [k|] eqn:Ek.
  - symmetry in He. apply first_seen_fresh in He.
    cbn [add_seen]. split.
    + apply NoDup_app. split; [assumption|]. split; [|apply NoDup_singleton].
      intros x Hx Hk. apply list_elem_of_singleton in Hk. subst x.
      apply He. rewrite Hseen. apply elem_of_list_to_set. assumption.
    + rewrite list_to_set_app_L, Hseen. cbn [list_to_set foldr].
      rewrite (right_id_L ∅ (∪)). apply (comm_L (∪)).
  - cbn [add_seen]. rewrite app_nil_r. split; assumption.
Qed.

Lemma length_omap_le {A B} (f : A -> option B) (l : list A) :
  (length (omap f l) <= length l)%nat.
Proof.
  induction l as [|a l IH]; cbn; [lia|]. destruct (f a); cbn; lia.
Qed.

Lemma accounting_initial (machine_codes : list string) :
  accounting (load_program new machine_codes) /\ accounting new.
Proof.
  split; constructor; cbn; try lia; try reflexivity; try constructor.
Qed.

Lemma accounting_step (self : t) : accounting self -> accounting (state_of (step self)).
Proof.
  intros [Hc Hsn Hst Hfw Hfl Hif Hsif Hwb Hswb].
  destruct (step self) as [running self'|self'] eqn:E; cbn [state_of].
  - destruct (halted self) eqn:Hh.
    { rewrite halted_step in E by assumption. injection E as _ <-.
      constructor; assumption. }
    destruct (step_returned _ _ _ Hh E) as (regs & d & fetched & F).
    destruct (step_histories _ _ _ Hh E) as [(snapshot & Hph & Hcy & Hie & Hwe & Hsi & Hsw) Hfh].
    destruct (keys_step if_entry _ snapshot _ _ _ Hif Hsif Hie) as [Hif' Hsif'].
    destruct (keys_step wb_entry _ snapshot _ _ _ Hwb Hswb Hwe) as [Hwb' Hswb'].
    constructor; rewrite ?(cf_cycle _ _ _ _ _ F), ?Hph.
    + lia.
    + rewrite map_app, Hsn, cycles_succ by assumption. cbn [map]. rewrite Hcy. reflexivity.
    + rewrite (cf_stall_history _ _ _ _ _ F). apply sublist_cycles_step; assumption.
    + rewrite Hfh.
      match goal with
      | |- sublist (map _ (if ?b then _ else _)) _ =>
          replace (map ForwardEntry.cycle
                     (if b then (forward_history self ++ _)%list else forward_history self))
            with (if b then (map ForwardEntry.cycle (forward_history self)
                             ++ [cycle self + 1])%list
                  else map ForwardEntry.cycle (forward_history self))
            by (destruct b; [rewrite map_app|]; reflexivity)
      end.
      apply sublist_cycles_step; assumption.
    + rewrite (cf_flush_count _ _ _ _ _ F). destruct (redirects d); lia.
    + assumption.
    + rewrite Hsi. assumption.
    + assumption.
    + rewrite Hsw. assumption.
  - apply step_raised in E as [_ []].
    constructor; rewrite ?sp_cycle0, ?sp_pipeline_history0, ?sp_stall_history0,
      ?sp_forward_history0, ?sp_flush_count0, ?sp_seen_in_if0, ?sp_seen_in_wb0; assumption.
Qed.

Lemma accounting_reachable (self : t) : reachable self -> accounting self.
Proof.
  induction 1; [apply accounting_initial; exact [] | apply (accounting_initial []) |].
  apply accounting_step. assumption.
Qed.

Lemma instruction_memory_step (self : t) :
  instruction_memory (state_of (step self)) = instruction_memory self.
Proof.
  destruct (step self) as [running self'|self'] eqn:E; cbn [state_of].
  - destruct (halted self) eqn:Hh.
    + rewrite halted_step in E by assumption. injection E as _ <-. reflexivity.
    + destruct (step_returned _ _ _ Hh E) as (regs & d & fetched & F).
      apply (cf_instruction_memory _ _ _ _ _ F).
  - apply step_raised in E as [_ []]. assumption.
Qed.

Lemma instruction_memory_steps (n : nat) (self : t) :
  instruction_memory (steps n self) = instruction_memory self.
Proof.
  revert self. induction n as [|n IH]; intros self; [reflexivity|].
  cbn [steps]. rewrite IH. apply instruction_memory_step.
Qed.

Lemma cycle_step (self : t) :
  cycle self <= cycle (state_of (step self)) <= cycle self + 1.
Proof.
  destruct (step self) as [running self'|self'] eqn:E; cbn [state_of].
  - destruct (halted self) eqn:Hh.
    + rewrite halted_step in E by assumption. injection E as _ <-. lia.
    + destruct (step_returned _ _ _ Hh E) as (regs & d & fetched & F).
      rewrite (cf_cycle _ _ _ _ _ F). lia.
  - apply step_raised in E as [_ []]. lia.
Qed.

Lemma cycle_steps (n : nat) (self : t) :
  cycle self <= cycle (steps n self) <= cycle self + Z.of_nat n.
Proof.
  revert self. induction n as [|n IH]; intros self; [cbn; lia|].
  cbn [steps]. pose proof (IH (state_of (step self))). pose proof (cycle_step self). lia.
Qed.

(** ** Halting *)

Lemma drained_step (self : t) :
  (halted self = true -> drained self) ->
  halted (state_of (step self)) = true -> drained (state_of (step self)).
Proof.
  intros Hd. destruct (step self) as [running self'|self'] eqn:E; cbn [state_of].
  - destruct (halted self) eqn:Hh.
    + rewrite halted_step in E by assumption. injection E as _ <-. intros _. auto.
    + destruct (step_returned _ _ _ Hh E) as (regs & d & fetched & F).
      rewrite (cf_halted _ _ _ _ _ F). intros H.
      repeat (apply andb_true_iff in H as [H ?]).
      repeat match goal with H : negb _ = true |- _ => apply negb_true_iff in H end.
      match goal with H : (_ <=? _) = true |- _ => apply Z.leb_le in H end.
      repeat split; assumption.
  - apply step_raised in E as [Hh []]. rewrite sp_halted0, Hh. discriminate.
Qed.

Lemma drained_reachable (self : t) : reachable self -> halted self = true -> drained self.
Proof.
  induction 1; [discriminate | discriminate | apply drained_step; assumption].
Qed.

(** ** A call of [step] that raises *)

Lemma fetch_below_start (pc : Z) (instruction_memory : list string) :
  pc < - len instruction_memory -> fetch pc instruction_memory = None.
Proof.
  intros Hpc. unfold fetch, len in *.
  replace (pc <? Z.of_nat (length instruction_memory)) with true
    by (symmetry; apply Z.ltb_lt; lia).
  unfold Py.index.
  replace ((0 <=? pc) && (pc <? Z.of_nat (length instruction_memory))) with false
    by (symmetry; apply andb_false_iff; left; apply Z.leb_gt; lia).
  replace ((- Z.of_nat (length instruction_memory) <=? pc) && (pc <? 0)) with false
    by (symmetry; apply andb_false_iff; left; apply Z.leb_gt; lia).
  reflexivity.
Qed.

Lemma step_raises (self : t) :
  well_formed self -> halted self = false ->
  pc self < - len (instruction_memory self) ->
  exists s, step self = Raised s.
Proof.
  intros Hwf Hh Hpc.
  destruct (write_back_total (registers self) (MEM_WB self))
    as (regs & Hwb & Hlen); [apply wf_length, Hwf | apply wf_mem_wb, Hwf |].
  destruct (decode_total regs (ID_EX self) (EX_MEM self) (MEM_WB self) (IF_ID self)
              (Some (ex_result self)) Hlen) as [d Hd].
  pose proof (fetch_below_start _ _ Hpc) as Hf.
  unfold ex_result in Hd.
  unfold step. rewrite Hh.
  unfold _stage_wb, _stage_mem, _stage_ex, _stage_id, _stage_if, mbind, option_bind.
  cbv zeta. norm. rewrite Hwb. norm. rewrite Hd. norm. rewrite Hf.
  eexists. reflexivity.
Qed.

Lemma raises_forever (m : nat) (self : t) :
  well_formed self -> halted self = false ->
  pc self < - len (instruction_memory self) ->
  exists s, step (steps m self) = Raised s.
Proof.
  revert self. induction m as [|m IH]; intros self Hwf Hh Hpc.
  - apply step_raises; assumption.
  - cbn [steps]. destruct (step_raises self Hwf Hh Hpc) as [s Hs].
    pose proof (well_formed_step self Hwf) as Hwf'.
    rewrite Hs in *. cbn [state_of] in *.
    apply step_raised in Hs as [_ []].
    apply IH; [assumption | congruence | rewrite sp_pc0, sp_instruction_memory0; assumption].
Qed.

(** ** The ALU *)

Lemma signed_table :
  forallb (fun hi => forallb (fun lo => signed_ok (256 * hi + lo)) (zrange 256)) (zrange 256)
  = true.
Proof. vm_cast_no_check (@eq_refl bool true). Qed.

Lemma word16_land (v : Z) : word16 v <-> Z.land v 65535 = v.
Proof.
  split; [apply land_word16_id|]. intros <-. apply land_word16.
Qed.

Lemma word16_land_l (a b : Z) : word16 a -> word16 (Z.land a b).
Proof.
  intros Ha. apply word16_land. apply word16_land in Ha.
  rewrite <- Ha at 2. rewrite <- !Z.land_assoc. f_equal. apply Z.land_comm.
Qed.

Lemma word16_lor (a b : Z) : word16 a -> word16 b -> word16 (Z.lor a b).
Proof.
  intros Ha Hb. apply word16_land. apply word16_land in Ha, Hb.
  rewrite Z.land_lor_distr_l, Ha, Hb. reflexivity.
Qed.

(** ** Forwarding *)

Lemma write_back_reg (regs regs' : list Z) (mem_wb : MemWb.t) (q : Z) :
  length regs = 8%nat -> 0 <= MemWb.rd mem_wb < 8 -> 0 <= q < 8 ->
  write_back regs mem_wb = Some regs' ->
  reg regs' q = (if mem_wb_forwards mem_wb && (q =? MemWb.rd mem_wb)
                 then Z.land (write_data mem_wb) 65535 else reg regs q).
Proof.
  intros Hlen Hrd Hq. unfold write_back, mem_wb_forwards, write_data.
  destruct (MemWb.valid mem_wb); cbn [negb andb]; [|intros [= <-]; reflexivity].
  destruct (MemWb.reg_write mem_wb); cbn [andb]; [|intros [= <-]; reflexivity].
  destruct (MemWb.rd mem_wb =? 0) eqn:E0; cbn [negb andb]; [intros [= <-]; reflexivity|].
  apply Z.eqb_neq in E0. unfold Py.setitem. rewrite Hlen.
  replace ((0 <=? MemWb.rd mem_wb) && (MemWb.rd mem_wb <? Z.of_nat 8)) with true
    by (symmetry; apply andb_true_iff; split; [apply Z.leb_le | apply Z.ltb_lt]; lia).
  destruct (MemWb.mem_to_reg mem_wb); intros [= <-]; apply reg_insert; (assumption || lia).
Qed.

Lemma ex_operand_forwarded (q v0 r : Z) (ex_mem : ExMem.t) (mem_wb : MemWb.t) :
  ex_mem_forwards ex_mem = true -> ExMem.rd ex_mem = r ->
  ex_operand q v0 ex_mem mem_wb None
  = (if q =? r then ExMem.alu_result ex_mem
     else if mem_wb_forwards mem_wb && (q =? MemWb.rd mem_wb) then write_data mem_wb
          else v0).
Proof.
  intros Hf Hrd. unfold ex_operand. rewrite Hf, Hrd. cbn [andb].
  destruct (q =? r); cbn [Py.not_none negb]; [rewrite andb_false_r; reflexivity|].
  rewrite andb_true_r. reflexivity.
Qed.

Lemma ex_forward_forwarded (q r : Z) (ex_mem : ExMem.t) (mem_wb : MemWb.t) :
  ex_mem_forwards ex_mem = true -> ExMem.rd ex_mem = r -> q = r ->
  ex_forward q ex_mem mem_wb None
  = Some (forward_record "EX_MEM" r (ExMem.alu_result ex_mem)).
Proof.
  intros Hf Hrd ->. unfold ex_forward. rewrite Hf, Hrd, Z.eqb_refl. cbn [andb].
  cbn [Py.not_none negb]. rewrite andb_false_r. reflexivity.
Qed.

(** ** Jumps *)

Lemma load_use_hazard_zero (ID_EX l : IdEx.t) :
  IdEx.rs l = 0 -> IdEx.rt l = 0 -> load_use_hazard ID_EX l = None.
Proof.
  intros Hrs Hrt. unfold load_use_hazard. rewrite Hrs, Hrt.
  destruct (_ && _); [|reflexivity]. cbv zeta.
  destruct (IdEx.rd ID_EX) as [|p|p]; reflexivity.
Qed.

Lemma load_branch_hazard_zero (EX_MEM : ExMem.t) (l : IdEx.t) :
  IdEx.rs l = 0 -> IdEx.rt l = 0 -> load_branch_hazard EX_MEM l = None.
Proof.
  intros Hrs Hrt. unfold load_branch_hazard. rewrite Hrs, Hrt.
  destruct (_ && _); [|reflexivity]. cbv zeta.
  destruct (IdEx.branch l || IdEx.jump l); [|reflexivity].
  destruct (ExMem.rd EX_MEM) as [|p|p]; reflexivity.
Qed.

Lemma decode_jump (regs : list Z) (ID_EX : IdEx.t) (EX_MEM : ExMem.t)
    (MEM_WB : MemWb.t) (if_id : IfId.t) (new_ex_mem : option ExMem.t)
    (w : string) (code : Z) :
  IfId.valid if_id = true ->
  IfId.instruction if_id = Some w ->
  Py.int16 w = Some code ->
  code_opcode code = 9 \/ code_opcode code = 10 ->
  exists l : IdEx.t,
    decode regs ID_EX EX_MEM MEM_WB if_id new_ex_mem
    = Some (l, false, Some (Z.land code 4095), None)
    /\ IdEx.valid l = true
    /\ IdEx.instruction l = Some w
    /\ IdEx.jump l = true
    /\ IdEx.mem_read l = false /\ IdEx.mem_write l = false /\ IdEx.mem_to_reg l = false
    /\ (code_opcode code = 9 -> IdEx.reg_write l = false /\ IdEx.alu_op l = "JUMP")
    /\ (code_opcode code = 10 ->
        IdEx.reg_write l = true /\ IdEx.rd l = 7 /\ IdEx.alu_op l = "JAL"
        /\ IdEx.rs_val l = IfId.pc if_id + 1).
Proof.
  intros Hv Hi Hc Hop.
  unfold decode. rewrite Hv, Hi, Hc. cbn [negb]. cbv zeta.
  fold (code_opcode code).
  destruct Hop as [Hop|Hop]; rewrite Hop; cbn [Z.eqb Pos.eqb orb];
    unfold decode_j_type; cbn [Z.eqb Pos.eqb mbind option_bind];
    rewrite load_use_hazard_zero, load_branch_hazard_zero by reflexivity;
    (eexists; split; [reflexivity|]); cbn;
    repeat split; try reflexivity; intros; discriminate.
Qed.

(** ** Branches *)

Lemma decode_branch (self : t) (regs : list Z) (w : string) (code : Z) :
  length regs = 8%nat ->
  IfId.valid (IF_ID self) = true ->
  IfId.instruction (IF_ID self) = Some w ->
  Py.int16 w = Some code ->
  code_opcode code = 6 \/ code_opcode code = 7 ->
  no_load_ahead self = true ->
  exists l : IdEx.t,
    decode regs (ID_EX self) (EX_MEM self) (MEM_WB self) (IF_ID self)
           (Some (ex_result self))
    = Some (l, branch_decision self regs code,
            if branch_decision self regs code
            then Some (IfId.pc (IF_ID self) + 1 + code_imm code) else None,
            None)
    /\ IdEx.valid l = true
    /\ IdEx.instruction l = Some w
    /\ IdEx.branch l = true
    /\ IdEx.reg_write l = false /\ IdEx.mem_read l = false /\ IdEx.mem_write l = false.
Proof.
  intros Hlen Hv Hi Hc Hop Hno.
  unfold no_load_ahead in Hno. apply andb_true_iff in Hno as [Hno1 Hno2].
  apply negb_true_iff in Hno1, Hno2.
  unfold decode. rewrite Hv, Hi, Hc. cbn [negb]. cbv zeta.
  fold (code_opcode code).
  unfold branch_decision, branch_operand.
  assert (forall l, load_use_hazard (ID_EX self) l = None) as Hlu
    by (intros l; unfold load_use_hazard; rewrite Hno1; reflexivity).
  assert (forall l, load_branch_hazard (EX_MEM self) l = None) as Hlb
    by (intros l; unfold load_branch_hazard; rewrite Hno2; reflexivity).
  destruct Hop as [Hop|Hop]; rewrite Hop; cbn [Z.eqb Pos.eqb orb];
    unfold decode_i_type; fold (code_rs code) (code_rt code) (code_imm code);
    rewrite !index_reg by (assumption || apply land_7_range);
    unfold mbind, option_bind; cbn [Z.eqb Pos.eqb];
    destruct (id_forward (code_rs code) _ _ _ _ =? id_forward (code_rt code) _ _ _ _);
    cbn [negb]; rewrite Hlu, Hlb;
    (eexists; split; [reflexivity|]); cbn; repeat split; reflexivity.
Qed.

(** ** Jump register *)

Lemma decode_jr (self : t) (regs : list Z) (w : string) (code : Z) :
  length regs = 8%nat ->
  IfId.valid (IF_ID self) = true ->
  IfId.instruction (IF_ID self) = Some w ->
  Py.int16 w = Some code ->
  code_opcode code = 0 -> code_funct code = 5 ->
  no_load_ahead self = true ->
  exists (l : IdEx.t) (info : StallInfo.t),
    decode regs (ID_EX self) (EX_MEM self) (MEM_WB self) (IF_ID self)
           (Some (ex_result self))
    = Some (if jr_waits self (code_rs code)
            then (l, false, None, Some info)
            else (l, false, Some (branch_operand self regs (code_rs code)), None))
    /\ IdEx.valid l = true
    /\ IdEx.instruction l = Some w
    /\ IdEx.jump l = true
    /\ IdEx.reg_write l = false /\ IdEx.mem_read l = false /\ IdEx.mem_write l = false
    /\ StallInfo.type info = "Data Hazard (JR)".
Proof.
  intros Hlen Hv Hi Hc Hop Hf Hno.
  unfold no_load_ahead in Hno. apply andb_true_iff in Hno as [Hno1 Hno2].
  apply negb_true_iff in Hno1, Hno2.
  unfold decode. rewrite Hv, Hi, Hc. cbn [negb]. cbv zeta.
  fold (code_opcode code). rewrite Hop. cbn [Z.eqb].
  unfold decode_r_type. fold (code_rs code) (code_rt code) (code_rd code) (code_funct code).
  rewrite !index_reg by (assumption || apply land_7_range).
  rewrite Hf. cbn [Z.eqb Pos.eqb mbind option_bind].
  assert (forall l, load_use_hazard (ID_EX self) l = None) as Hlu
    by (intros l; unfold load_use_hazard; rewrite Hno1; reflexivity).
  assert (forall l, load_branch_hazard (EX_MEM self) l = None) as Hlb
    by (intros l; unfold load_branch_hazard; rewrite Hno2; reflexivity).
  assert (IdEx.valid (ID_EX self) && IdEx.mem_read (ID_EX self)
          && (IdEx.rd (ID_EX self) =? code_rs code) && negb (code_rs code =? 0) = false)
    as -> by (rewrite Hno1; reflexivity).
  fold (jr_waits self (code_rs code)). fold (branch_operand self regs (code_rs code)).
  destruct (jr_waits self (code_rs code)); cbn [mbind option_bind].
  - eexists. eexists. split; [reflexivity|]. cbn. repeat split; reflexivity.
  - rewrite Hlb, Hlu. eexists.
    exists (jr_stall_info "Data Hazard (JR)" "instruction" " from previous instruction" 0).
    split; [reflexivity|]. cbn. repeat split; reflexivity.
Qed.

(** ** The data memory of [get_state] *)

Lemma str_inj : Inj (=) (=) Py.str.
Proof.
  intros a b H. pose proof (int10_str a) as Ha. rewrite H, int10_str in Ha. congruence.
Qed.

Lemma str_keys_kmap (m : gmap Z Z) :
  dict_of_items (str_keys m) = kmap (M2 := gmap string) Py.str m.
Proof.
  pose proof str_inj as Hinj.
  unfold dict_of_items, str_keys. rewrite dict_of_items_union, (right_id_L ∅ (∪)).
  unfold kmap. apply list_to_map_proper.
  - rewrite fmap_reverse, reverse_Permutation, <- list_fmap_compose.
    change (fst ∘ (fun kv : Z * Z => (Py.str kv.1, kv.2))) with (Py.str ∘ (fst : Z * Z -> Z)).
    rewrite list_fmap_compose. apply NoDup_fmap_2; [assumption|].
    apply NoDup_fst_map_to_list.
  - rewrite reverse_Permutation. reflexivity.
Qed.

(** ** The first pass over a program in two parts *)

Lemma first_pass_app (lines1 lines2 : list string) :
  forall (line_num current_addr : Z) (labels : gmap string Z)
         (instructions : list (Z * Z * string * list string)),
    first_pass (lines1 ++ lines2) line_num current_addr labels instructions
    = match first_pass lines1 line_num current_addr labels instructions with
      | Ok (labels1, instructions1) =>
          first_pass lines2 (line_num + len lines1)
                     (current_addr + (len instructions1 - len instructions))
                     labels1 instructions1
      | Raise e => Raise e
      end.
Proof.
  induction lines1 as [|line rest IH]; intros line_num current_addr labels instructions.
  - cbn. unfold len. cbn. f_equal; lia.
  - cbn [app first_pass].
    destruct (tokenize_line line) as [[label instruction] operands].
    match goal with
    | |- (?m ≫= _) = _ => destruct m as [labels1|e]; cbn [mbind res_bind]; [|reflexivity]
    end.
    destruct instruction as [i|]; [destruct (Py.truthy i)|]; rewrite IH;
      destruct (first_pass rest _ _ _ _) as [[l1 i1]|e]; try reflexivity;
      f_equal; unfold len; cbn [length]; rewrite ?length_app; cbn [length]; lia.
Qed.

(** ** The loop of [run_all] *)

Lemma steps_succ (n : nat) (self : t) :
  steps (S n) self = state_of (step (steps n self)).
Proof.
  revert self. induction n as [|n IH]; intros self; [reflexivity|].
  change (steps (S (S n)) self) with (steps (S n) (state_of (step self))).
  rewrite IH. reflexivity.
Qed.

Lemma cycle_running_step (self self' : t) (running : bool) :
  halted self = false -> step self = Returned running self' -> cycle self' = cycle self + 1.
Proof.
  intros Hh E. destruct (step_returned _ _ _ Hh E) as (regs & d & fetched & F).
  apply (cf_cycle _ _ _ _ _ F).
Qed.

Lemma loop_calls_shift (cpu c : t) (m : nat) :
  step cpu = Returned true c -> loop_calls c m -> loop_calls cpu (S m).
Proof.
  intros E [H1 H2].
  assert (c = state_of (step cpu)) as Hc by (rewrite E; reflexivity).
  pose proof (step_running _ _ _ E) as Hr.
  split.
  - intros [|i] Hi.
    + cbn [steps]. rewrite <- Hc, <- Hr. exact E.
    + change (steps (S i) cpu) with (steps i (state_of (step cpu))).
      change (steps (S (S i)) cpu) with (steps (S i) (state_of (step cpu))).
      rewrite <- Hc. apply H1. lia.
  - intros [|i] Hi.
    + cbn [steps]. rewrite <- Hc. destruct (halted c); [discriminate | reflexivity].
    + change (steps (S (S i)) cpu) with (steps (S i) (state_of (step cpu))).
      rewrite <- Hc. apply H2. lia.
Qed.

Lemma run_loop_spec (fuel : nat) :
  forall (cpu : t) (k : nat),
    (k <= 1000)%nat -> (1000 - k < fuel)%nat ->
    (exists m : nat,
        (k + m <= 1000)%nat
        /\ run_loop fuel cpu (Z.of_nat k)
           = Some (Some (steps (S m) cpu, Z.of_nat (k + m)))
        /\ loop_calls cpu m
        /\ ((k + m < 1000)%nat -> halted (steps (S m) cpu) = true))
    \/ (run_loop fuel cpu (Z.of_nat k) = Some None
        /\ exists (i : nat) (c : t), (i <= 1000 - k)%nat /\ step (steps i cpu) = Raised c).
Proof.
  induction fuel as [|fuel IH]; intros cpu k Hk Hfuel; [lia|].
  cbn [run_loop]. destruct (step cpu) as [running c|c] eqn:E.
  - pose proof (step_running _ _ _ E) as Hr.
    assert (c = state_of (step cpu)) as Hc by (rewrite E; reflexivity).
    unfold max_cycles.
    destruct (running && (Z.of_nat k <? 1000)) eqn:Hcont.
    + apply andb_true_iff in Hcont as [-> Hlt]. apply Z.ltb_lt in Hlt.
      replace (Z.of_nat k + 1) with (Z.of_nat (S k)) by lia.
      destruct (IH c (S k)) as [(m & Hm & Hrun & Hcalls & Hhalt)|(Hrun & i & c' & Hi & Hraise)];
        [lia | lia | |].
      * left. exists (S m). split; [lia|].
        change (steps (S (S m)) cpu) with (steps (S m) (state_of (step cpu))).
        rewrite <- Hc. replace (k + S m)%nat with (S k + m)%nat by lia.
        split; [exact Hrun|]. split; [apply (loop_calls_shift _ c); assumption|].
        exact Hhalt.
      * right. split; [exact Hrun|]. exists (S i), c'. split; [lia|].
        change (steps (S i) cpu) with (steps i (state_of (step cpu))).
        rewrite <- Hc. exact Hraise.
    + left. exists 0%nat. rewrite Nat.add_0_r. split; [lia|].
      cbn [steps]. rewrite <- Hc. split; [reflexivity|]. split.
      * split; [|intros i Hi; lia].
        intros i Hi. assert (i = 0)%nat as -> by lia. cbn [steps].
        rewrite <- Hc, <- Hr. exact E.
      * intros Hlt. apply andb_false_iff in Hcont as [->|Hge].
        -- destruct (halted c); [reflexivity | discriminate].
        -- apply Z.ltb_ge in Hge. lia.
  - right. split; [reflexivity|]. exists 0%nat, c. split; [lia | exact E].
Qed.

Lemma loop_calls_cycle (cpu : t) (m : nat) :
  halted cpu = false -> loop_calls cpu m ->
  forall j : nat, (j <= S m)%nat -> cycle (steps j cpu) = cycle cpu + Z.of_nat j.
Proof.
  intros Hh [H1 H2]. induction j as [|j IHj]; intros Hj; [cbn [steps]; lia|].
  rewrite (cycle_running_step (steps j cpu) (steps (S j) cpu)
             (negb (halted (steps (S j) cpu)))).
  - rewrite IHj by lia. lia.
  - destruct j as [|j]; [exact Hh | apply H2; lia].
  - apply H1. lia.
Qed.

(** ** The undo history *)

Lemma step_cpu_history (s : session) (cpu_json : json) :
  cpu_state s = Some cpu_json ->
  cpu_state_history (step_cpu s).1
  = Some (drop (length (state_history_of s) - 99) (state_history_of s) ++ [cpu_json])%list.
Proof.
  intros Hs. unfold step_cpu. rewrite Hs.
  set (h := state_history_of s).
  assert ((if 100 <? len (h ++ [cpu_json])%list then last_100 (h ++ [cpu_json])%list
           else (h ++ [cpu_json])%list)
          = (drop (length h - 99) h ++ [cpu_json])%list) as ->.
  { unfold len, last_100. rewrite length_app. cbn [length].
    destruct (100 <? Z.of_nat (length h + 1)) eqn:E.
    - apply Z.ltb_lt in E. rewrite drop_app_le by lia. f_equal. f_equal. lia.
    - apply Z.ltb_ge in E. replace (length h - 99)%nat with 0%nat by lia. reflexivity. }
  destruct (from_json cpu_json) as [cpu|]; [|reflexivity].
  destruct (step cpu); reflexivity.
Qed.

(** ** The consumer of a load, retired *)

Lemma decode_consumer_writes (regs : list Z) (ID_EX : IdEx.t) (EX_MEM : ExMem.t)
    (MEM_WB : MemWb.t) (if_id : IfId.t) (new_ex_mem : option ExMem.t)
    (w : string) (code : Z) (l : IdEx.t) (taken : bool) (target : option Z)
    (info : option StallInfo.t) :
  length regs = 8%nat ->
  IfId.valid if_id = true ->
  IfId.instruction if_id = Some w ->
  Py.int16 w = Some code ->
  alu_or_load code = true ->
  decode regs ID_EX EX_MEM MEM_WB if_id new_ex_mem = Some (l, taken, target, info) ->
  IdEx.rd l = dest_of code /\ IdEx.reg_write l = true
  /\ IdEx.mem_read l = (code_opcode code =? 1)
  /\ IdEx.mem_to_reg l = (code_opcode code =? 1).
Proof.
  intros Hlen Hv Hi Hc Ha.
  unfold decode. rewrite Hv, Hi, Hc. cbn [negb]. cbv zeta.
  fold (code_opcode code).
  unfold alu_or_load, dest_of in *.
  destruct (code_opcode code =? 0) eqn:Hop.
  - unfold decode_r_type. fold (code_rs code) (code_rt code) (code_rd code) (code_funct code).
    rewrite !index_reg by (assumption || apply land_7_range).
    apply Z.eqb_eq in Hop. rewrite Hop.
    apply funct_cases in Ha as Hf.
    destruct Hf as [Hf|[Hf|[Hf|[Hf|Hf]]]]; rewrite Hf;
      unfold mbind, option_bind; repeat eval_index;
      cbn -[load_use_hazard load_branch_hazard reg];
      intros [= <- _ _ _]; cbn; repeat split; reflexivity.
  - assert (code_opcode code = 1 \/ code_opcode code = 3 \/ code_opcode code = 4
            \/ code_opcode code = 5 \/ code_opcode code = 8) as Hcases.
    { repeat (apply orb_true_iff in Ha as [Ha|Ha]); apply Z.eqb_eq in Ha; auto. }
    unfold decode_i_type. fold (code_rs code) (code_rt code) (code_imm code).
    rewrite !index_reg by (assumption || apply land_7_range).
    destruct Hcases as [Ho|[Ho|[Ho|[Ho|Ho]]]]; rewrite Ho;
      unfold mbind, option_bind;
      cbn -[load_use_hazard load_branch_hazard reg id_forward];
      intros [= <- _ _ _]; cbn; repeat split; reflexivity.
Qed.

Lemma returns_step (self : t) :
  returns self = true ->
  step self = Returned (negb (halted (state_of (step self)))) (state_of (step self)).
Proof.
  unfold returns. destruct (step self) as [running s|s] eqn:E; [|discriminate].
  intros _. cbn [state_of]. rewrite (step_running _ _ _ E). reflexivity.
Qed.

(** An instruction that leaves the EX stage with nothing valid ahead of it
    is written back by the second call of [step] after that, when both
    calls return. *)
Lemma consumer_retires (self : t) :
  let s1 := state_of (step self) in
  let s2 := state_of (step s1) in
  well_formed self ->
  halted self = false ->
  MemWb.valid (MEM_WB self) = false ->
  ExMem.valid (EX_MEM self) = true ->
  returns self = true -> returns s1 = true ->
  step self = Returned true s1
  /\ registers s1 = registers self
  /\ MEM_WB s1 = mem_latch (data_memory self) (EX_MEM self)
  /\ write_back (registers s1) (MEM_WB s1) = Some (registers s2).
Proof.
  intros s1 s2 Hwf Hh Hm Hx Hr1 Hr2.
  apply returns_step in Hr1 as R1. fold s1 in R1.
  apply returns_step in Hr2 as R2. fold s2 in R2.
  clearbody s2. clearbody s1.
  pose proof R1 as S1. apply step_returned in S1 as (regs1 & d1 & f1 & F1); [|assumption].
  pose proof (cf_MEM_WB _ _ _ _ _ F1) as E1_mw. unfold mem_result in E1_mw.
  assert (halted s1 = false) as Hh1.
  { rewrite (cf_halted _ _ _ _ _ F1), E1_mw. unfold mem_latch. rewrite Hx.
    cbn [MemWb.valid negb]. rewrite andb_false_r. reflexivity. }
  rewrite Hh1 in R1. cbn [negb] in R1.
  assert (registers s1 = registers self) as E1_r.
  { rewrite (cf_registers _ _ _ _ _ F1). pose proof (cf_wb _ _ _ _ _ F1) as Hwb.
    unfold wb_registers, write_back in Hwb. rewrite Hm in Hwb. cbn [negb] in Hwb.
    congruence. }
  pose proof R2 as S2. apply step_returned in S2 as (regs2 & d2 & f2 & F2); [|assumption].
  pose proof (cf_wb _ _ _ _ _ F2) as Hwb2. unfold wb_registers in Hwb2.
  rewrite <- (cf_registers _ _ _ _ _ F2) in Hwb2.
  exact (conj R1 (conj E1_r (conj E1_mw Hwb2))).
Qed.

Lemma write_back_reference (code : Z) (regs : list Z) (dm : gmap Z Z) (m : MemWb.t) :
  length regs = 8%nat ->
  0 <= dest_of code < 8 ->
  MemWb.valid m = true -> MemWb.reg_write m = true ->
  MemWb.rd m = dest_of code ->
  MemWb.mem_to_reg m = (code_opcode code =? 1) ->
  MemWb.alu_result m = reference_result code regs ->
  MemWb.mem_data m
  = (if code_opcode code =? 1
     then default 0 (dm !! Z.land (reference_result code regs) 65535) else 0) ->
  write_back regs m = Some (reference_registers code regs dm).
Proof.
  intros Hlen Hd Hv Hw Hrd Hm Ha Hdata.
  unfold write_back, reference_registers. rewrite Hv, Hw, Hrd, Hm, Ha, Hdata.
  cbn [negb andb]. destruct (dest_of code =? 0) eqn:E0; cbn [negb].
  - reflexivity.
  - apply Z.eqb_neq in E0.
    assert (forall v, Py.setitem regs (dest_of code) v
                      = Some (<[Z.to_nat (dest_of code) := v]> regs)) as Hset.
    { intros v. unfold Py.setitem. rewrite Hlen.
      replace ((0 <=? dest_of code) && (dest_of code <? Z.of_nat 8)) with true
        by (symmetry; apply andb_true_iff; split; [apply Z.leb_le | apply Z.ltb_lt]; lia).
      reflexivity. }
    destruct (code_opcode code =? 1); apply Hset.
Qed.

(** * The claims *)

(** ** Register 0 *)

(** C1. Register 0 is hardwired to zero: write-back leaves the registers
    as they are when the destination register is 0, and after any number
    of [step] calls on a CPU in which a program was loaded, register 0
    reads 0. *)
Theorem register_zero_invariant :
  (forall (registers : list Z) (mem_wb : MemWb.t),
      MemWb.rd mem_wb = 0 -> write_back registers mem_wb = Some registers)
  /\ (forall (self : t) (mem_wb : MemWb.t),
         MemWb.rd mem_wb = 0 ->
         registers <$> _stage_wb self mem_wb = Some (registers self))
  /\ (forall (self : t) (machine_codes : list string) (n : nat),
         Py.index (registers (steps n (load_program self machine_codes))) 0 = Some 0).
Proof.
  assert (forall regs mem_wb, MemWb.rd mem_wb = 0 -> write_back regs mem_wb = Some regs)
    as Hwb.
  { intros regs mem_wb Hrd. unfold write_back. rewrite Hrd.
    destruct (negb _); [reflexivity|]. rewrite andb_false_r. reflexivity. }
  split; [exact Hwb|]. split.
  - intros self mem_wb Hrd. unfold _stage_wb. rewrite (Hwb _ _ Hrd). reflexivity.
  - intros self machine_codes n.
    pose proof (well_formed_reachable _
                  (steps_reachable n _ (reachable_load self machine_codes))) as Hwf.
    unfold Py.index. rewrite (wf_length _ Hwf). exact (wf_zero _ Hwf).
Qed.

(** ** Values of 16 bits *)

(** C10. After any number of [step] calls on a new CPU, a reset CPU, or a
    CPU in which a program was loaded, every register and every value of
    the data memory is in [0, 65535]; the ALU helpers reduce modulo 2^16. *)
Theorem sixteen_bit_state :
  (forall a b : Z, _alu_add a b = (a + b) mod 65536 /\ _alu_sub a b = (a - b) mod 65536)
  /\ (forall (self : t) (machine_codes : list string) (n : nat),
         let after := steps n (load_program self machine_codes) in
         Forall word16 (registers after)
         /\ map_Forall (fun _ v => word16 v) (data_memory after))
  /\ (forall (self : t) (n : nat),
         let after := steps n (reset self) in
         Forall word16 (registers after)
         /\ map_Forall (fun _ v => word16 v) (data_memory after))
  /\ (forall n : nat,
         let after := steps n new in
         Forall word16 (registers after)
         /\ map_Forall (fun _ v => word16 v) (data_memory after)).
Proof.
  split; [|split; [|split]].
  - intros a b. unfold _alu_add, _alu_sub. split; apply (Z.land_ones _ 16); lia.
  - intros self machine_codes n after.
    pose proof (well_formed_reachable _
                  (steps_reachable n _ (reachable_load self machine_codes))) as Hwf.
    split; [exact (wf_registers _ Hwf) | exact (wf_memory _ Hwf)].
  - intros self n after.
    pose proof (well_formed_reachable _ (steps_reachable n _ reachable_new)) as Hwf.
    split; [exact (wf_registers _ Hwf) | exact (wf_memory _ Hwf)].
  - intros n after.
    pose proof (well_formed_reachable _ (steps_reachable n _ reachable_new)) as Hwf.
    split; [exact (wf_registers _ Hwf) | exact (wf_memory _ Hwf)].
Qed.

(** ** No program *)

(** C9. With an empty instruction memory the first [step] halts the CPU
    and returns [False]; every later call returns [False] and leaves the
    whole state as the first call left it. *)
Theorem empty_program_halts :
  let first := step (load_program new []) in
  load_program new [] = new
  /\ first = Returned false (state_of first)
  /\ halted (state_of first) = true
  /\ forall n : nat,
       step (steps n (state_of first)) = Returned false (state_of first)
       /\ steps (S n) (state_of first) = state_of first.
Proof.
  assert (halted (state_of (step (load_program new []))) = true) as Hh
    by (vm_compute; reflexivity).
  cbv zeta. split; [reflexivity|]. split; [vm_compute; reflexivity|]. split; [exact Hh|].
  intros n. rewrite !halted_steps by exact Hh. split; [|reflexivity].
  apply halted_step. exact Hh.
Qed.

(** ** Stall *)

(** C6. In a cycle in which the hazard unit asserts a stall, the IF/ID
    latch is held, ID/EX receives the bubble, PC becomes IF/ID.pc + 1;
    the other two latches receive what the EX and MEM stages computed, so
    the bubble is the only one inserted; the stall flag is cleared and the
    cycle is recorded in [stall_history]. *)
Theorem stall_effects (self self' : t) (running : bool) :
  halted self = false ->
  asserts_stall self = true ->
  step self = Returned running self' ->
  IF_ID self' = IF_ID self
  /\ ID_EX self' = _empty_id_ex
  /\ pc self' = IfId.pc (IF_ID self) + 1
  /\ EX_MEM self' = ex_result self
  /\ MEM_WB self' = mem_result self
  /\ stall self' = false
  /\ stall_history self' = (stall_history self ++ [cycle self + 1])%list.
Proof.
  intros Hh Ha Hstep.
  apply step_returned in Hstep as (regs & d & f & []); [|assumption].
  unfold asserts_stall in Ha. rewrite cf_decode0 in Ha.
  unfold stalled in *. rewrite Ha in *. cbn [orb] in *.
  repeat split; assumption.
Qed.

(** ** Serialisation *)

(** C3. For a state reached by any number of [step] calls after a program
    was loaded, [from_json (to_json self)] is a CPU, and stepping it
    [n >= 1] times gives the same [get_state] snapshot as stepping the
    original [n] times. *)
Theorem serialize_restore_resumes (machine_codes : list string) (k n : nat) :
  (1 <= n)%nat ->
  let self := steps k (load_program new machine_codes) in
  exists restored : t,
    from_json (to_json self) = Some restored
    /\ get_state (steps n restored) = get_state (steps n self).
Proof.
  intros Hn self. exists (restore self). split; [apply from_json_to_json|].
  assert (reachable self) as Hr by (apply steps_reachable; constructor).
  destruct (halted self) eqn:Hh.
  - rewrite !halted_steps by assumption.
    destruct (quiet_reachable _ Hr Hh) as (Ha & Hb & Hs & Hm & Hc & Hf).
    unfold get_state, restore. norm. cbn [new initial forward_a forward_b stall_info
      memory_warning control_hazard flush_occurred].
    rewrite Ha, Hb, Hs, Hm, Hc, Hf. reflexivity.
  - destruct n as [|n]; [lia|]. cbn [steps].
    rewrite <- (get_state_forget (steps n (state_of (step (restore self))))).
    rewrite <- (get_state_forget (steps n (state_of (step self)))).
    f_equal. apply steps_forget, step_restore. assumption.
Qed.

(** The theorem at a program that stores and loads, interrupted after
    five cycles and resumed for three. *)
Lemma serialize_restore_resumes_witness :
  (1 <= 3)%nat
  /\ exists restored : t,
       from_json (to_json (steps 5 (load_program new ["3047"; "2044"; "1084"; "0458"])))
       = Some restored
       /\ get_state (steps 3 restored)
          = get_state (steps 3 (steps 5 (load_program new ["3047"; "2044"; "1084"; "0458"]))).
Proof.
  split; [lia|].
  apply (serialize_restore_resumes ["3047"; "2044"; "1084"; "0458"] 5 3). lia.
Defined.

(** The theorem at the cycle in which ADD $r3, $r2, $r1 is decoded right
    behind LW $r2, 4($r0). *)
Lemma stall_effects_witness :
  let self := steps 2 (load_program new ["1084"; "0458"]) in
  let self' := state_of (step self) in
  (halted self = false /\ asserts_stall self = true /\ step self = Returned true self')
  /\ IF_ID self' = IF_ID self
  /\ ID_EX self' = _empty_id_ex
  /\ pc self' = IfId.pc (IF_ID self) + 1
  /\ EX_MEM self' = ex_result self
  /\ MEM_WB self' = mem_result self
  /\ stall self' = false
  /\ stall_history self' = (stall_history self ++ [cycle self + 1])%list.
Proof.
  cbv zeta.
  assert (halted (steps 2 (load_program new ["1084"; "0458"])) = false) as H1
    by (vm_compute; reflexivity).
  assert (asserts_stall (steps 2 (load_program new ["1084"; "0458"])) = true) as H2
    by (vm_compute; reflexivity).
  assert (step (steps 2 (load_program new ["1084"; "0458"]))
          = Returned true (state_of (step (steps 2 (load_program new ["1084"; "0458"])))))
    as H3 by (vm_compute; reflexivity).
  split; [exact (conj H1 (conj H2 H3))|].
  exact (stall_effects _ _ true H1 H2 H3).
Defined.

(** ** The assembler and the disassembler *)

Lemma r_type_table :
  forallb (fun f => forallb (fun rs => forallb (fun rt => forallb (fun rd =>
    reassembles (encode_r_type rs rt rd f)) (zrange 8)) (zrange 8)) (zrange 8)) (zrange 5)
  = true.
Proof. vm_compute. reflexivity. Qed.

Lemma jr_table :
  forallb (fun rs => reassembles (encode_r_type rs 0 0 5)) (zrange 8) = true.
Proof. vm_compute. reflexivity. Qed.

Lemma i_type_table :
  forallb (fun op => forallb (fun rs => forallb (fun rt => forallb (fun imm =>
    reassembles (encode_i_type op rs rt imm)) (zrange 64)) (zrange 8)) (zrange 8))
    (map snd I_TYPE_OPCODES) = true.
Proof. vm_compute. reflexivity. Qed.

Lemma j_type_table :
  forallb (fun op => forallb (fun a => reassembles (encode_j_type op a)) (zrange 4096))
    (map snd J_TYPE_OPCODES) = true.
Proof. vm_compute. reflexivity. Qed.

Lemma encoder_image_reassembles (w : Z) : encoder_image w -> reassembles w = true.
Proof.
  intros [(f & rs & rt & rd & Hf & Hrs & Hrt & Hrd & ->)
         |[(rs & Hrs & ->)
          |[(op & rs & rt & imm & Hop & Hrs & Hrt & Himm & ->)
           |(op & a & Hop & Ha & ->)]]].
  - pose proof r_type_table as T.
    rewrite forallb_forall in T. specialize (T f Hf).
    rewrite forallb_forall in T. specialize (T rs Hrs).
    rewrite forallb_forall in T. specialize (T rt Hrt).
    rewrite forallb_forall in T. exact (T rd Hrd).
  - pose proof jr_table as T. rewrite forallb_forall in T. exact (T rs Hrs).
  - pose proof i_type_table as T.
    rewrite forallb_forall in T. specialize (T op Hop).
    rewrite forallb_forall in T. specialize (T rs Hrs).
    rewrite forallb_forall in T. specialize (T rt Hrt).
    rewrite forallb_forall in T. exact (T imm Himm).
  - pose proof j_type_table as T.
    rewrite forallb_forall in T. specialize (T op Hop).
    rewrite forallb_forall in T. exact (T a Ha).
Qed.

(** C2. A word that [encode_instruction] returns for some instruction is
    a word of 16 bits, and its disassembly, tokenized as a single line and
    encoded at address 0 with an empty label table, gives the same word;
    the disassembly of an LW or SW has the two operands of the
    offset(register) form. *)
Theorem disassemble_reassembles (instruction : string) (operands : list string)
    (labels : gmap string Z) (current_addr line_num w : Z) :
  encode_instruction instruction operands labels current_addr line_num = Ok w ->
  0 <= w < 65536
  /\ exists (mnemonic : string) (operands' : list string),
       tokenize_line (disassemble (Py.format_04X w)) = (None, Some mnemonic, operands')
       /\ encode_instruction mnemonic operands' ∅ 0 1 = Ok w
       /\ (Z.shiftr w 12 = 1 \/ Z.shiftr w 12 = 2 -> length operands' = 2%nat).
Proof.
  intros H. apply encode_instruction_image, encoder_image_reassembles in H.
  unfold reassembles in H.
  apply andb_true_iff in H as [Hrange H].
  apply andb_true_iff in Hrange as [Hlo Hhi].
  split; [lia|].
  destruct (tokenize_line _) as [[[label|] [mnemonic|]] operands']; try discriminate.
  destruct (encode_instruction mnemonic operands' ∅ 0 1) as [w'|] eqn:He; [|discriminate].
  apply andb_true_iff in H as [Hw Hlen]. apply Z.eqb_eq in Hw. subst w'.
  exists mnemonic, operands'. split; [reflexivity|]. split; [exact He|].
  intros Hop.
  replace ((Z.shiftr w 12 =? 1) || (Z.shiftr w 12 =? 2)) with true in Hlen
    by (symmetry; apply orb_true_iff; destruct Hop as [-> | ->]; auto).
  apply Nat.eqb_eq in Hlen. exact Hlen.
Qed.

(** The theorem at the three-operand source form LW $r1, $r2, -3, which
    comes back as LW $r1, -3($r2). *)
Lemma disassemble_reassembles_witness :
  encode_instruction "LW" ["$r1"; "$r2"; "-3"] ∅ 0 1 = Ok 5245
  /\ disassemble (Py.format_04X 5245) = "LW $r1, -3($r2)"
  /\ 0 <= 5245 < 65536
  /\ exists (mnemonic : string) (operands' : list string),
       tokenize_line (disassemble (Py.format_04X 5245)) = (None, Some mnemonic, operands')
       /\ encode_instruction mnemonic operands' ∅ 0 1 = Ok 5245
       /\ (Z.shiftr 5245 12 = 1 \/ Z.shiftr 5245 12 = 2 -> length operands' = 2%nat).
Proof.
  split; [vm_compute; reflexivity|]. split; [vm_compute; reflexivity|].
  apply (disassemble_reassembles "LW" ["$r1"; "$r2"; "-3"] ∅ 0 1 5245).
  vm_compute. reflexivity.
Defined.

(** C8 (the code departs from the claim). A BEQ whose third operand is
    neither a label of the table, nor decimal digits, nor text starting
    with 0x is encoded with offset 0: no error is raised. Assembling
    BEQ $r1, $r2, nowhere returns the word 6280, while the jump of the same
    operand raises the undefined-label error with its line number. *)
Theorem beq_undefined_label_assembles :
  (forall (target : string) (labels : gmap string Z) (current_addr line_num : Z),
      labels !! Py.strip target = None ->
      Py.isdigit (Py.lstrip_char "-" (Py.strip target)) = false ->
      Py.startswith "0x" (Py.strip target) = false ->
      encode_instruction "BEQ" ["$r1"; "$r2"; target] labels current_addr line_num
      = Ok (encode_i_type 6 1 2 0))
  /\ assemble "BEQ $r1, $r2, nowhere"
     = Ok (["6280"], {[0 := "BEQ $r1, $r2, nowhere"]}, ∅)
  /\ assemble "JUMP nowhere"
     = Raise (AssemblerError "Undefined label or invalid address: nowhere" 1).
Proof.
  split; [|split].
  - intros target labels current_addr line_num Hl Hd Hx.
    unfold encode_instruction.
    change (Py.assoc R_TYPE_FUNCT "BEQ") with (@None Z).
    change (Py.assoc I_TYPE_OPCODES "BEQ") with (Some 6).
    cbn [String.eqb Ascii.eqb Bool.eqb orb].
    rewrite Hl, Hd, Hx. reflexivity.
  - vm_compute. reflexivity.
  - vm_compute. reflexivity.
Qed.


(** ** Hazards: the load-use interlock, forwarding and the flush counter *)

(** The three cycles of the load-use interlock, with the latch in which
    the consumer leaves the EX stage. *)
Lemma load_use_cycles (machine_codes : list string) (k : nat)
    (r code : Z) (w : string) :
  let self := steps k (load_program new machine_codes) in
  let s1 := state_of (step self) in
  let s2 := state_of (step s1) in
  let s3 := state_of (step s2) in
  halted self = false ->
  stall self = false ->
  load_latch (ID_EX self) r = true ->
  IfId.valid (IF_ID self) = true ->
  IfId.instruction (IF_ID self) = Some w ->
  Py.int16 w = Some code ->
  alu_or_load code = true ->
  reads code r = true ->
  let loaded := MemWb.mem_data (MEM_WB s2) in
  (step self = Returned true s1 /\ step s1 = Returned true s2
   /\ step s2 = Returned true s3)
  /\ (IF_ID s1 = IF_ID self /\ ID_EX s1 = _empty_id_ex
      /\ stall_history s1 = (stall_history self ++ [cycle self + 1])%list)
  /\ (IdEx.valid (ID_EX s2) = true /\ IdEx.instruction (ID_EX s2) = Some w
      /\ stall_history s2 = stall_history s1)
  /\ (MemWb.valid (MEM_WB s2) = true /\ MemWb.rd (MEM_WB s2) = r
      /\ MemWb.mem_to_reg (MEM_WB s2) = true
      /\ loaded = default 0 (data_memory s1 !! Z.land (ExMem.alu_result (EX_MEM s1)) 65535))
  /\ (code_rs code = r -> forward_a s3 = Some (forward_record "MEM_WB" r loaded))
  /\ (code_rt code = r -> forward_b s3 = Some (forward_record "MEM_WB" r loaded))
  /\ reg (registers s3) r = loaded
  /\ ExMem.instruction (EX_MEM s3) = Some w
  /\ ExMem.alu_result (EX_MEM s3) = reference_result code (registers s3)
  /\ (halted s3 = false /\ MemWb.valid (MEM_WB s3) = false
      /\ ExMem.valid (EX_MEM s3) = true /\ ExMem.reg_write (EX_MEM s3) = true
      /\ ExMem.rd (EX_MEM s3) = dest_of code
      /\ ExMem.mem_read (EX_MEM s3) = (code_opcode code =? 1)
      /\ ExMem.mem_to_reg (EX_MEM s3) = (code_opcode code =? 1)
      /\ data_memory s3 = data_memory s1).
Proof.
  intros self s1 s2 s3 Hh Hst Hload Hv Hi Hc Ha Hr loaded.
  assert (reachable self) as Hreach by (apply steps_reachable; constructor).
  assert (well_formed self) as Hwf0 by (apply well_formed_reachable; assumption).
  assert (well_formed s1) as Hwf1 by (apply well_formed_step; assumption).
  assert (well_formed s2) as Hwf2 by (apply well_formed_step; assumption).
  assert (well_formed s3) as Hwf3 by (apply well_formed_step; assumption).
  (* the load latch *)
  pose proof Hload as Hload'. unfold load_latch in Hload'.
  repeat (apply andb_true_iff in Hload' as [Hload' ?]).
  match goal with H : (IdEx.rd _ =? r) = true |- _ => apply Z.eqb_eq in H; rename H into Hrd end.
  match goal with H : negb (r =? 0) = true |- _ =>
    apply negb_true_iff, Z.eqb_neq in H; rename H into Hr0 end.
  assert (0 < r < 8) as Hrange by (pose proof (wf_id_ex _ Hwf0); lia).
  (* first cycle: the stall *)
  destruct (fetch_point_reachable _ Hreach Hv) as (Hfetched & Hpc0).
  assert (step self = Returned (negb (halted s1)) s1) as R1
    by (apply step_returns; [assumption | assumption | lia]).
  clearbody s1.
  pose proof R1 as S1.
  apply step_returned in S1 as (regs1 & d1 & f1 & F1); [|assumption].
  destruct (decode_of_cycle_consumer _ _ _ _ _ w code F1 Hwf1 Hv Hi Hc Ha)
    as (l1 & -> & Hl1v & Hl1i & Hl1rs & Hl1rt & _ & _ & _ & _ & Hl1w).
  assert (stalled self (l1, false, None, load_use_hazard (ID_EX self) l1) = true) as Hstalled.
  { unfold stalled. cbn [snd]. erewrite load_use_hazard_load; [reflexivity|eassumption..|].
    eapply reads_latch; eassumption. }
  pose proof (cf_IF_ID _ _ _ _ _ F1) as E1_if. rewrite Hstalled in E1_if.
  pose proof (cf_ID_EX _ _ _ _ _ F1) as E1_id. rewrite Hstalled in E1_id.
  pose proof (cf_stall_history _ _ _ _ _ F1) as E1_sh. rewrite Hstalled in E1_sh.
  cbn [orb] in E1_sh.
  pose proof (cf_EX_MEM _ _ _ _ _ F1) as E1_ex.
  pose proof (cf_stall _ _ _ _ _ F1) as E1_st.
  pose proof (cf_pc _ _ _ _ _ F1) as E1_pc. rewrite Hstalled in E1_pc.
  pose proof (cf_instruction_memory _ _ _ _ _ F1) as E1_im.
  assert (halted s1 = false) as Hh1.
  { rewrite (cf_halted _ _ _ _ _ F1), E1_if, Hv. reflexivity. }
  rewrite Hh1 in R1. cbn [negb] in R1.
  (* second cycle: decode proceeds *)
  assert (step s1 = Returned (negb (halted s2)) s2) as R2
    by (apply step_returns; [assumption | assumption | rewrite E1_im, E1_pc; lia]).
  clearbody s2.
  pose proof R2 as S2.
  apply step_returned in S2 as (regs2 & d2 & f2 & F2); [|assumption].
  assert (IfId.valid (IF_ID s1) = true) as Hv1 by (rewrite E1_if; assumption).
  assert (IfId.instruction (IF_ID s1) = Some w) as Hi1 by (rewrite E1_if; assumption).
  destruct (decode_of_cycle_consumer _ _ _ _ _ w code F2 Hwf2 Hv1 Hi1 Hc Ha)
    as (l2 & -> & Hl2v & Hl2i & Hl2rs & Hl2rt & Hl2imm & Hl2op & Hl2rsv & Hl2rtv & Hl2w).
  assert (stalled s1 (l2, false, None, load_use_hazard (ID_EX s1) l2) = false) as Hstalled2.
  { unfold stalled. cbn [snd]. rewrite E1_id, load_use_hazard_bubble, E1_st. reflexivity. }
  pose proof (cf_ID_EX _ _ _ _ _ F2) as E2_id. rewrite Hstalled2 in E2_id. cbn [fst] in E2_id.
  pose proof (cf_stall_history _ _ _ _ _ F2) as E2_sh.
  rewrite Hstalled2, E2_id, Hl2v in E2_sh. cbn [orb negb andb] in E2_sh.
  pose proof (cf_EX_MEM _ _ _ _ _ F2) as E2_ex.
  unfold ex_result, ex_latch in E2_ex. rewrite E1_id in E2_ex.
  cbn [IdEx.valid _empty_id_ex] in E2_ex.
  pose proof (cf_pc _ _ _ _ _ F2) as E2_pc. rewrite Hstalled2 in E2_pc.
  cbn [fst snd] in E2_pc.
  pose proof (cf_instruction_memory _ _ _ _ _ F2) as E2_im.
  destruct (ex_latch_valid (ID_EX self) (EX_MEM self) (MEM_WB self) None None Hload')
    as (X1v & _ & X1rd & X1w & X1r & X1m & _).
  fold (ex_result self) in X1v, X1rd, X1w, X1r, X1m. rewrite <- E1_ex in *.
  destruct (mem_latch_valid (data_memory s1) (EX_MEM s1) X1v)
    as (M2v & _ & M2rd & M2w & M2m & _ & M2d).
  fold (mem_result s1) in M2v, M2rd, M2w, M2m, M2d.
  rewrite <- (cf_MEM_WB _ _ _ _ _ F2) in *.
  rewrite X1rd, Hrd in M2rd. rewrite X1w in M2w. rewrite X1m in M2m. rewrite X1r in M2d.
  repeat match goal with H : IdEx.mem_read _ = true |- _ => rewrite H in M2d end.
  repeat match goal with H : IdEx.reg_write (ID_EX self) = true |- _ => rewrite H in M2w end.
  repeat match goal with H : IdEx.mem_to_reg (ID_EX self) = true |- _ => rewrite H in M2m end.
  assert (halted s2 = false) as Hh2.
  { rewrite (cf_halted _ _ _ _ _ F2), E2_id, Hl2v. rewrite andb_false_r. reflexivity. }
  rewrite Hh2 in R2. cbn [negb] in R2.
  assert (word16 loaded) as Hloaded.
  { unfold loaded. rewrite M2d.
    destruct (data_memory s1 !! _) as [v|] eqn:E; cbn.
    - exact (wf_memory _ Hwf1 _ _ E).
    - unfold word16. lia. }
  assert (write_data (MEM_WB s2) = loaded) as Hwd by (unfold write_data; rewrite M2m; reflexivity).
  (* third cycle: write-back of the load, execute of the consumer *)
  assert (step s2 = Returned (negb (halted s3)) s3) as R3.
  { apply step_returns; [assumption | assumption |]. rewrite E2_im, E1_im, E2_pc.
    destruct (pc s1 <? len (instruction_memory s1)); lia. }
  clearbody s3.
  pose proof R3 as S3.
  apply step_returned in S3 as (regs3 & d3 & f3 & F3); [|assumption].
  assert (length (registers s2) = 8%nat) as Hlen2 by (apply wf_length; assumption).
  assert (regs3 = <[Z.to_nat r := loaded]> (registers s2)) as Hregs3.
  { pose proof (cf_wb _ _ _ _ _ F3) as Hwb. unfold wb_registers, write_back in Hwb.
    rewrite M2v, M2w, M2m, M2rd in Hwb. cbn [negb andb] in Hwb.
    replace (r =? 0) with false in Hwb by (symmetry; apply Z.eqb_neq; assumption).
    cbn [negb] in Hwb. fold loaded in Hwb. rewrite (land_word16_id _ Hloaded) in Hwb.
    unfold Py.setitem in Hwb. rewrite Hlen2 in Hwb.
    replace ((0 <=? r) && (r <? Z.of_nat 8)) with true in Hwb
      by (symmetry; apply andb_true_iff; split; [apply Z.leb_le | apply Z.ltb_lt]; lia).
    injection Hwb as <-. reflexivity. }
  assert (forall q, 0 <= q < 8 ->
            reg (registers s3) q = if q =? r then loaded else reg (registers s2) q) as Hreg3.
  { intros q Hq. rewrite (cf_registers _ _ _ _ _ F3), Hregs3.
    apply reg_insert; assumption. }
  destruct (ex_latch_valid (ID_EX s2) (EX_MEM s2) (MEM_WB s2) None None)
    as (X3v & X3i & X3rd & X3w & X3r & X3m & X3a); [rewrite E2_id; assumption|].
  fold (ex_result s2) in X3v, X3i, X3rd, X3w, X3r, X3m, X3a.
  rewrite <- (cf_EX_MEM _ _ _ _ _ F3) in *.
  assert (MemWb.valid (MEM_WB s3) = false) as M3v
    by (rewrite (cf_MEM_WB _ _ _ _ _ F3); unfold mem_result; rewrite E2_ex; reflexivity).
  assert (data_memory s3 = data_memory s1) as Hdm.
  { rewrite (cf_data_memory _ _ _ _ _ F3). unfold mem_memory.
    rewrite (cf_data_memory _ _ _ _ _ F2). unfold mem_memory, mem_store.
    rewrite E2_ex, X1v, X1r.
    repeat match goal with H : IdEx.mem_read _ = true |- _ => rewrite H end.
    reflexivity. }
  assert (length regs2 = 8%nat) as Hlenr2
    by (rewrite <- (cf_registers _ _ _ _ _ F2); apply wf_length; assumption).
  pose proof (cf_decode _ _ _ _ _ F2) as Hd2.
  unfold decode_of_cycle in Hd2. rewrite (cf_wb _ _ _ _ _ F2) in Hd2.
  cbn [mbind option_bind] in Hd2.
  destruct (decode_consumer_writes _ _ _ _ _ _ w code _ _ _ _ Hlenr2 Hv1 Hi1 Hc Ha Hd2)
    as (Hl2rd & Hl2rw & Hl2mr & Hl2mt).
  rewrite E2_id, Hl2rd in X3rd. rewrite E2_id, Hl2rw in X3w.
  rewrite E2_id, Hl2mr in X3r. rewrite E2_id, Hl2mt in X3m.
  assert (halted s3 = false) as Hh3.
  { rewrite (cf_halted _ _ _ _ _ F3), X3v. rewrite andb_false_r. reflexivity. }
  rewrite Hh3 in R3. cbn [negb] in R3.
  rewrite E2_ex in X3a.
  rewrite !(ex_operand_after_bubble _ _ r) in X3a by assumption.
  rewrite Hwd, E2_id, Hl2rs, Hl2rt, Hl2op, Hl2imm, Hl2rsv, Hl2rtv in X3a.
  rewrite <- !Hreg3 in X3a by apply land_7_range.
  rewrite alu_of_code in X3a by assumption.
  repeat split; try assumption.
  - rewrite E2_id; assumption.
  - rewrite E2_id; assumption.
  - intros Hrs. rewrite (cf_forward_a _ _ _ _ _ F3), E2_id, Hl2v, E2_ex, <- Hwd.
    apply ex_forward_after_bubble; try assumption. rewrite Hl2rs. exact Hrs.
  - intros Hrt. rewrite (cf_forward_b _ _ _ _ _ F3), E2_id, Hl2v, E2_ex, <- Hwd.
    apply ex_forward_after_bubble; try assumption. rewrite Hl2rt. exact Hrt.
  - rewrite Hreg3 by lia. rewrite Z.eqb_refl. reflexivity.
  - rewrite X3i, E2_id. assumption.
Qed.

(** C5 (as amended). A decoded LW that loads register [r], [r] not 0, is
    in ID/EX and an ALU instruction or a load that reads [r] is in IF/ID.
    The next three calls of [step] return [True]. The first cycle stalls:
    IF/ID is held, the bubble enters ID/EX and the cycle is appended to the
    stall history. The second cycle does not
    stall: the consumer enters ID/EX, the stall history is unchanged and the
    load reaches MEM/WB with the word read from data memory. In the third
    cycle the consumer executes: the forward records name MEM/WB with the
    loaded value, the register file holds the loaded value in [r], and the
    ALU result is the one computed from that register file. The data
    memory is still the one that the load read. When the two calls of
    [step] that follow return, the second of them writes the consumer
    back: the register file is then the one that the consumer leaves when
    it executes alone, unpipelined, on the register file in which the load
    has retired and on that data memory. *)
Theorem load_use_single_stall (machine_codes : list string) (k : nat)
    (r code : Z) (w : string) :
  let self := steps k (load_program new machine_codes) in
  let s1 := state_of (step self) in
  let s2 := state_of (step s1) in
  let s3 := state_of (step s2) in
  let s4 := state_of (step s3) in
  let s5 := state_of (step s4) in
  halted self = false ->
  stall self = false ->
  load_latch (ID_EX self) r = true ->
  IfId.valid (IF_ID self) = true ->
  IfId.instruction (IF_ID self) = Some w ->
  Py.int16 w = Some code ->
  alu_or_load code = true ->
  reads code r = true ->
  let loaded := MemWb.mem_data (MEM_WB s2) in
  (step self = Returned true s1 /\ step s1 = Returned true s2
   /\ step s2 = Returned true s3)
  /\ (IF_ID s1 = IF_ID self /\ ID_EX s1 = _empty_id_ex
      /\ stall_history s1 = (stall_history self ++ [cycle self + 1])%list)
  /\ (IdEx.valid (ID_EX s2) = true /\ IdEx.instruction (ID_EX s2) = Some w
      /\ stall_history s2 = stall_history s1)
  /\ (MemWb.valid (MEM_WB s2) = true /\ MemWb.rd (MEM_WB s2) = r
      /\ MemWb.mem_to_reg (MEM_WB s2) = true
      /\ loaded = default 0 (data_memory s1 !! Z.land (ExMem.alu_result (EX_MEM s1)) 65535))
  /\ (code_rs code = r -> forward_a s3 = Some (forward_record "MEM_WB" r loaded))
  /\ (code_rt code = r -> forward_b s3 = Some (forward_record "MEM_WB" r loaded))
  /\ reg (registers s3) r = loaded
  /\ ExMem.instruction (EX_MEM s3) = Some w
  /\ ExMem.alu_result (EX_MEM s3) = reference_result code (registers s3)
  /\ data_memory s3 = data_memory s1
  /\ (returns s3 = true -> returns s4 = true ->
      step s3 = Returned true s4
      /\ registers s5 = reference_registers code (registers s3) (data_memory s3)).
Proof.
  intros self s1 s2 s3 s4 s5 Hh Hst Hload Hv Hi Hc Ha Hr loaded.
  assert (well_formed s3) as Hwf3.
  { apply well_formed_reachable. do 3 apply reachable_step.
    apply steps_reachable. constructor. }
  destruct (load_use_cycles machine_codes k r code w Hh Hst Hload Hv Hi Hc Ha Hr)
    as (P1 & P2 & P3 & P4 & P5 & P6 & P7 & P8 & P9
        & Hh3 & M3v & X3v & X3w & X3rd & X3r & X3m & Hdm).
  fold self in P1, P2, P3, P4, P5, P6, P7, P8, P9, Hh3, M3v, X3v, X3w, X3rd, X3r, X3m, Hdm.
  fold s1 in P1, P2, P3, P4, P5, P6, P7, P8, P9, Hh3, M3v, X3v, X3w, X3rd, X3r, X3m, Hdm.
  fold s2 in P1, P2, P3, P4, P5, P6, P7, P8, P9, Hh3, M3v, X3v, X3w, X3rd, X3r, X3m, Hdm.
  fold s3 in P1, P2, P3, P4, P5, P6, P7, P8, P9, Hh3, M3v, X3v, X3w, X3rd, X3r, X3m, Hdm.
  refine (conj P1 (conj P2 (conj P3 (conj P4 (conj P5 (conj P6 (conj P7 (conj P8
            (conj P9 (conj Hdm _)))))))))).
  clear Hdm. clear P1 P2 P3 P4 P5 P6 P7 P8. clearbody s3. clear loaded.
  intros Hr3 Hr4.
  destruct (consumer_retires s3 Hwf3 Hh3 M3v X3v Hr3 Hr4) as (R4 & E4_r & E4_m & Hwb).
  fold s4 in R4, E4_r, E4_m, Hwb. fold s5 in Hwb.
  split; [exact R4|].
  destruct (mem_latch_valid (data_memory s3) (EX_MEM s3) X3v)
    as (M4v & _ & M4rd & M4w & M4m & M4a & M4d).
  rewrite <- E4_m in M4v, M4rd, M4w, M4m, M4a, M4d.
  rewrite X3rd in M4rd. rewrite X3w in M4w. rewrite X3m in M4m.
  rewrite P9 in M4a, M4d. rewrite X3r in M4d.
  assert (0 <= dest_of code < 8) as Hdest
    by (unfold dest_of; destruct (code_opcode code =? 0); apply land_7_range).
  rewrite E4_r in Hwb.
  rewrite (write_back_reference code (registers s3) (data_memory s3) (MEM_WB s4)) in Hwb;
    [congruence | apply wf_length; assumption | assumption..].
Qed.

(** The theorem on ADDI $r1, $r0, 7; SW $r1, 4($r0); LW $r2, 4($r0);
    ADD $r3, $r2, $r1, at the cycle in which the ADD is decoded behind the
    LW: the ADD computes 7 + 7 after one stall, and two cycles later $r3
    holds 14. *)
Lemma load_use_single_stall_witness :
  let self := steps 4 (load_program new ["3047"; "2044"; "1084"; "0458"]) in
  let s1 := state_of (step self) in
  let s2 := state_of (step s1) in
  let s3 := state_of (step s2) in
  let s4 := state_of (step s3) in
  let s5 := state_of (step s4) in
  (halted self = false /\ stall self = false
   /\ load_latch (ID_EX self) 2 = true
   /\ IfId.valid (IF_ID self) = true
   /\ IfId.instruction (IF_ID self) = Some "0458"
   /\ Py.int16 "0458" = Some 1112
   /\ alu_or_load 1112 = true /\ reads 1112 2 = true)
  /\ (step self = Returned true s1 /\ step s1 = Returned true s2
      /\ step s2 = Returned true s3)
  /\ stall_history s1 = (stall_history self ++ [cycle self + 1])%list
  /\ stall_history s2 = stall_history s1
  /\ forward_a s3 = Some (forward_record "MEM_WB" 2 (MemWb.mem_data (MEM_WB s2)))
  /\ ExMem.alu_result (EX_MEM s3) = reference_result 1112 (registers s3)
  /\ reference_result 1112 (registers s3) = 14
  /\ (returns s3 = true /\ returns s4 = true)
  /\ registers s5 = reference_registers 1112 (registers s3) (data_memory s3)
  /\ reference_registers 1112 (registers s3) (data_memory s3) = [0; 7; 7; 14; 0; 0; 0; 0].
Proof.
  intros self s1 s2 s3 s4 s5.
  assert (halted self = false) as Hh by (vm_compute; reflexivity).
  assert (stall self = false) as Hst by (vm_compute; reflexivity).
  assert (load_latch (ID_EX self) 2 = true) as Hl by (vm_compute; reflexivity).
  assert (IfId.valid (IF_ID self) = true) as Hv by (vm_compute; reflexivity).
  assert (IfId.instruction (IF_ID self) = Some "0458") as Hi by (vm_compute; reflexivity).
  assert (Py.int16 "0458" = Some 1112) as Hc by (vm_compute; reflexivity).
  assert (alu_or_load 1112 = true) as Ha by (vm_compute; reflexivity).
  assert (reads 1112 2 = true) as Hr by (vm_compute; reflexivity).
  assert (code_rs 1112 = 2) as Hrs by (vm_compute; reflexivity).
  assert (reference_result 1112 (registers s3) = 14) as Hres by (vm_compute; reflexivity).
  assert (returns s3 = true) as Hr3 by (vm_compute; reflexivity).
  assert (returns s4 = true) as Hr4 by (vm_compute; reflexivity).
  assert (reference_registers 1112 (registers s3) (data_memory s3)
          = [0; 7; 7; 14; 0; 0; 0; 0]) as Href by (vm_compute; reflexivity).
  destruct (load_use_single_stall ["3047"; "2044"; "1084"; "0458"] 4 2 1112 "0458"
              Hh Hst Hl Hv Hi Hc Ha Hr)
    as (R & (_ & _ & T1) & (_ & _ & T2) & _ & Ta & _ & _ & _ & T3 & _ & T4).
  destruct (T4 Hr3 Hr4) as (_ & T5).
  exact (conj (conj Hh (conj Hst (conj Hl (conj Hv (conj Hi (conj Hc (conj Ha Hr)))))))
           (conj R (conj T1 (conj T2 (conj (Ta Hrs) (conj T3 (conj Hres
              (conj (conj Hr3 Hr4) (conj T5 Href))))))))).
Defined.

(** The same program followed by BEQ $r0, $r0, -32. The branch is decoded
    while the ADD executes and sets the program counter to -27, below the
    start of the program: the ADD has computed 14, the next call of [step]
    raises in the fetch and so does every later call, and $r3 is never
    written. *)
Lemma load_use_result_stranded :
  let self := steps 4 (load_program new ["3047"; "2044"; "1084"; "0458"; "6020"]) in
  let s3 := state_of (step (state_of (step (state_of (step self))))) in
  (halted self = false /\ stall self = false
   /\ load_latch (ID_EX self) 2 = true
   /\ IfId.valid (IF_ID self) = true
   /\ IfId.instruction (IF_ID self) = Some "0458"
   /\ Py.int16 "0458" = Some 1112
   /\ alu_or_load 1112 = true /\ reads 1112 2 = true)
  /\ (ExMem.instruction (EX_MEM s3) = Some "0458" /\ ExMem.alu_result (EX_MEM s3) = 14)
  /\ (pc s3 = -27 /\ returns s3 = false)
  /\ (forall m : nat, exists c : t, step (steps m s3) = Raised c)
  /\ registers (steps 1 s3) = [0; 7; 7; 0; 0; 0; 0; 0]
  /\ registers (steps 8 s3) = [0; 7; 7; 0; 0; 0; 0; 0].
Proof.
  intros self s3.
  assert (well_formed s3) as Hwf.
  { apply well_formed_reachable. do 3 apply reachable_step.
    apply steps_reachable. constructor. }
  assert (halted s3 = false) as Hh by (vm_compute; reflexivity).
  assert (pc s3 < - len (instruction_memory s3)) as Hpc by (vm_compute; reflexivity).
  split; [repeat apply conj; vm_compute; reflexivity|].
  split; [split; vm_compute; reflexivity|].
  split; [split; vm_compute; reflexivity|].
  split; [intros m; apply raises_forever; assumption|].
  split; vm_compute; reflexivity.
Qed.

(** C5 (the claim as stated fails). In LW $r1, 0($r0); BEQ $r1, $r0, 1;
    ADDI $r2, $r0, 9; ADDI $r3, $r0, 7 the BEQ is not a store and reads $r1,
    which the LW just before it loads. Two stall cycles are inserted between
    them, cycles 3 and 4: after each, IF/ID still holds the BEQ and ID/EX is
    the bubble; the BEQ enters ID/EX in cycle 5 only. *)
Lemma load_branch_two_stalls :
  let self := steps 2 (load_program new ["1040"; "6201"; "3089"; "30C7"]) in
  let s1 := state_of (step self) in
  let s2 := state_of (step s1) in
  let s3 := state_of (step s2) in
  (halted self = false /\ stall self = false
   /\ load_latch (ID_EX self) 1 = true
   /\ IfId.valid (IF_ID self) = true
   /\ IfId.instruction (IF_ID self) = Some "6201"
   /\ Py.int16 "6201" = Some 25089
   /\ non_store 25089 = true /\ reads 25089 1 = true
   /\ step self = Returned true s1 /\ step s1 = Returned true s2
   /\ step s2 = Returned true s3)
  /\ stall_history self = []
  /\ (asserts_stall self = true /\ stall_history s1 = [3]
      /\ IF_ID s1 = IF_ID self /\ ID_EX s1 = _empty_id_ex)
  /\ (asserts_stall s1 = true /\ stall_history s2 = [3; 4]
      /\ IF_ID s2 = IF_ID self /\ ID_EX s2 = _empty_id_ex)
  /\ (asserts_stall s2 = false /\ stall_history s3 = [3; 4]
      /\ IdEx.instruction (ID_EX s3) = Some "6201").
Proof. cbv zeta. repeat apply conj; vm_compute; reflexivity. Qed.

(** C4 (the code departs from the claim). ADDI $r2, $r0, 5; SW $r2, 0($r0);
    LW $r1, 0($r0); BEQ $r1, $r0, 1; ADDI $r3, $r0, 9; ADDI $r4, $r0, 7
    runs to completion in 12 cycles. The BEQ is held by the load-use
    interlock in cycles 5 and 6, where decode compares the value of $r1 from
    before the load with $r0 and reports the branch taken: each of the two
    cycles increments [flush_count], and the stall then sets the program
    counter back to the word after the BEQ. In cycle 7 the loaded 5 is
    compared, the branch is not taken, and the ADDI that it would have
    skipped writes 9 to $r3. No control transfer was taken and
    [flush_count] is 2. *)
Theorem flush_count_counts_stalled_decodes :
  let source :=
    source_text ["ADDI $r2, $r0, 5"; "SW $r2, 0($r0)"; "LW $r1, 0($r0)";
                 "BEQ $r1, $r0, 1"; "ADDI $r3, $r0, 9"; "ADDI $r4, $r0, 7"] in
  let machine_codes := ["3085"; "2080"; "1040"; "6201"; "30C9"; "3107"] in
  let run := run machine_codes in
  machine_codes_of source = Some machine_codes
  /\ halted (run 11%nat) = false /\ halted (run 12%nat) = true
  /\ registers (run 12%nat) = [0; 5; 5; 9; 7; 0; 0; 0]
  /\ stall_history (run 12%nat) = [5; 6]
  /\ flush_count (run 12%nat) = 2
  /\ map (fun k => redirects <$> decode_of_cycle (run k)) (seq 4 3)
     = [Some true; Some true; Some false]
  /\ map (fun k => asserts_stall (run k)) (seq 4 3) = [true; true; false]
  /\ map (fun k => flush_count (run k)) (seq 4 4) = [0; 1; 2; 2]
  /\ map (fun k => pc (run k)) (seq 0 13) = [0; 1; 2; 3; 4; 4; 4; 5; 6; 6; 6; 6; 6].
Proof. cbv zeta. repeat apply conj; vm_compute; reflexivity. Qed.

(** C7 (the code departs from the claim). In BEQ $r0, $r0, -3;
    OR $r1, $r7, $r0; SLTI $r2, $r1, -5; JUMP 6; JAL 1; ADDI $r0, $r0, 0 the
    branch at address 0 sets the program counter to -2, where the list of
    instructions yields its last but one word, the JAL; its return address
    is -1. Write-back stores it in $r7 as 65535, the forwarding paths pass
    -1. The OR takes -1 from MEM/WB and computes -1; the SLTI right behind
    it takes -1 from EX/MEM, with no stall, and computes 1. With the OR
    retired $r1 holds 65535, for which the SLTI computes 0. *)
Theorem forwarding_passes_unmasked_result :
  let source :=
    source_text ["BEQ $r0, $r0, -3"; "OR $r1, $r7, $r0"; "SLTI $r2, $r1, -5";
                 "JUMP 6"; "JAL 1"; "ADDI $r0, $r0, 0"] in
  let machine_codes := ["603D"; "0E0B"; "52BB"; "9006"; "A001"; "3000"] in
  let run := run machine_codes in
  machine_codes_of source = Some machine_codes
  /\ (IdEx.instruction (ID_EX (run 6%nat)) = Some "0E0B"
      /\ IfId.instruction (IF_ID (run 6%nat)) = Some "52BB"
      /\ asserts_stall (run 6%nat) = false)
  /\ (ExMem.instruction (EX_MEM (run 7%nat)) = Some "0E0B"
      /\ ExMem.alu_result (EX_MEM (run 7%nat)) = -1
      /\ IdEx.instruction (ID_EX (run 7%nat)) = Some "52BB"
      /\ asserts_stall (run 7%nat) = false)
  /\ (ExMem.instruction (EX_MEM (run 8%nat)) = Some "52BB"
      /\ forward_a (run 8%nat) = Some (forward_record "EX_MEM" 1 (-1))
      /\ ExMem.alu_result (EX_MEM (run 8%nat)) = 1)
  /\ registers (run 9%nat) = [0; 65535; 0; 0; 0; 0; 0; 65535]
  /\ Py.int16 "52BB" = Some 21179
  /\ reference_result 21179 (registers (run 9%nat)) = 0
  /\ halted (run 11%nat) = true
  /\ registers (run 11%nat) = [0; 65535; 1; 0; 0; 0; 0; 65535]
  /\ stall_history (run 11%nat) = [].
Proof. cbv zeta. repeat apply conj; vm_compute; reflexivity. Qed.

(** * Further properties of the assembler *)

(** ** Words and their fields *)

(** The three encoders and the field extraction of the decode stage are
    inverse to each other on fields in range: an R-type word returns its
    three registers and its function code, an I-type word its opcode, its
    two registers and its immediate in [-32, 31], sign-extended, a J-type
    word its opcode and its address; every such word has 16 bits. *)
Theorem encoded_fields_decode :
  (forall rs rt rd funct : Z,
      0 <= rs < 8 -> 0 <= rt < 8 -> 0 <= rd < 8 -> 0 <= funct < 8 ->
      let w := encode_r_type rs rt rd funct in
      0 <= w < 4096 /\ code_opcode w = 0 /\ code_rs w = rs /\ code_rt w = rt
      /\ code_rd w = rd /\ code_funct w = funct)
  /\ (forall opcode rs rt imm : Z,
         0 <= opcode < 16 -> 0 <= rs < 8 -> 0 <= rt < 8 -> -32 <= imm < 32 ->
         let w := encode_i_type opcode rs rt imm in
         0 <= w < 65536 /\ code_opcode w = opcode /\ code_rs w = rs /\ code_rt w = rt
         /\ code_imm w = imm /\ encode_i_type opcode rs rt (imm mod 64) = w)
  /\ (forall opcode address : Z,
         0 <= opcode < 16 -> 0 <= address < 4096 ->
         let w := encode_j_type opcode address in
         0 <= w < 65536 /\ code_opcode w = opcode /\ Z.land w 4095 = address).
Proof.
  split; [exact r_fields|]. split; [|exact j_fields].
  intros opcode rs rt imm Ho Hrs Hrt Hi w.
  destruct (i_fields_signed opcode rs rt imm Ho Hrs Hrt Hi) as (H1 & H2 & H3 & H4 & H5).
  refine (conj H1 (conj H2 (conj H3 (conj H4 (conj H5 _))))).
  apply encode_i_type_mod.
Qed.

(** ADD $r3, $r1, $r2; an I-type word with the immediate -5; JUMP 100. *)
Lemma encoded_fields_decode_witness :
  (code_rs (encode_r_type 1 2 3 0) = 1 /\ code_rd (encode_r_type 1 2 3 0) = 3)
  /\ code_imm (encode_i_type 3 1 2 (-5)) = -5
  /\ Z.land (encode_j_type 9 100) 4095 = 100.
Proof.
  destruct encoded_fields_decode as (Hr & Hi & Hj).
  destruct (Hr 1 2 3 0) as (_ & _ & Hrs & _ & Hrd & _); [lia | lia | lia | lia |].
  destruct (Hi 3 1 2 (-5)) as (_ & _ & _ & _ & Himm & _); [lia | lia | lia | lia |].
  destruct (Hj 9 100) as (_ & _ & Haddr); [lia | lia |].
  exact (conj (conj Hrs Hrd) (conj Himm Haddr)).
Defined.


(** A word of 16 bits, written as the assembler writes it, has four
    characters, and [int(s, 16)], which the decode stage and the
    disassembler call, reads the word back. *)
Theorem machine_code_reads_back (w : Z) :
  0 <= w < 65536 ->
  String.length (Py.format_04X w) = 4%nat /\ Py.int16 (Py.format_04X w) = Some w.
Proof.
  intros Hw. pose proof hex_table as T.
  apply (forallb_zrange 256 _ (w / 256)) in T;
    [|split; [apply Z.div_pos; lia | apply Z.div_lt_upper_bound; lia]].
  apply (forallb_zrange 256 _ (w mod 256)) in T; [|apply Z.mod_pos_bound; lia].
  cbv beta in T. rewrite <- Z.div_mod in T by lia. unfold hex_ok in T.
  apply andb_true_iff in T as [T1 T2]. apply Nat.eqb_eq in T1.
  destruct (Py.int16 (Py.format_04X w)) as [v|]; [|discriminate].
  apply Z.eqb_eq in T2. subst v. split; [assumption | reflexivity].
Qed.

(** The greatest word. *)
Lemma machine_code_reads_back_witness :
  (0 <= 65535 < 65536)
  /\ String.length (Py.format_04X 65535) = 4%nat
  /\ Py.int16 (Py.format_04X 65535) = Some 65535.
Proof. split; [lia|]. apply (machine_code_reads_back 65535). lia. Defined.

(** ** Immediates *)

(** [parse_immediate] on the decimal literal of an integer [v], a text of
    at most 4300 characters, which [int] converts: the integers of
    [-32, 31] are accepted and returned as the six bits of their two's
    complement, which the decode stage sign-extends back to [v]; every
    other integer raises the out-of-range error with the line number. *)
Theorem parse_immediate_decimal (v line_num : Z) :
  Z.of_nat (String.length (Py.str v)) <= 4300 ->
  parse_immediate (Py.str v) line_num =
    (if (v <? -32) || (v >? 31)
     then Raise (AssemblerError
                   ("Immediate value " +:+ Py.str v +:+ " out of range [-32, 31]")
                   line_num)
     else Ok (v mod 64))
  /\ (-32 <= v <= 31 ->
      forall opcode rs rt : Z,
        0 <= opcode < 16 -> 0 <= rs < 8 -> 0 <= rt < 8 ->
        code_imm (encode_i_type opcode rs rt (v mod 64)) = v).
Proof.
  intros _. split; [apply parse_immediate_str|].
  intros Hv opcode rs rt Ho Hrs Hrt. rewrite encode_i_type_mod.
  apply (i_fields_signed opcode rs rt v); lia.
Qed.

(** The literal -5 in an ADDI. *)
Lemma parse_immediate_decimal_witness :
  Z.of_nat (String.length (Py.str (-5))) <= 4300
  /\ parse_immediate "-5" 1 = Ok 59 /\ code_imm (encode_i_type 3 1 2 59) = -5.
Proof.
  assert (Z.of_nat (String.length (Py.str (-5))) <= 4300) as Hlen
    by (vm_compute; discriminate).
  destruct (parse_immediate_decimal (-5) 1 Hlen) as [Hp Hd].
  split; [exact Hlen|]. split; [exact Hp|].
  apply (Hd ltac:(lia) 3 1 2); lia.
Defined.


(** ** Labels *)

(** A branch to a label: with the label at address [t] and the branch at
    address [a], the word holds the offset [t - (a + 1)], so that the
    target [pc + 1 + imm] of the decode stage is [t]; a label farther than
    six bits reach raises the out-of-range error of the immediate. *)
Theorem branch_reaches_label (b o0 o1 o2 : string) (labels : gmap string Z)
    (a line_num rs rt t : Z) :
  b = "BEQ" \/ b = "BNQ" ->
  parse_register o0 line_num = Ok rs ->
  parse_register o1 line_num = Ok rt ->
  labels !! Py.strip o2 = Some t ->
  let offset := t - (a + 1) in
  if (offset <? -32) || (offset >? 31)
  then encode_instruction b [o0; o1; o2] labels a line_num
       = Raise (AssemblerError
                  ("Immediate value " +:+ Py.str offset +:+ " out of range [-32, 31]")
                  line_num)
  else exists w,
      encode_instruction b [o0; o1; o2] labels a line_num = Ok w
      /\ 0 <= w < 65536
      /\ code_opcode w = (if String.eqb b "BEQ" then 6 else 7)
      /\ code_rs w = rs /\ code_rt w = rt
      /\ a + 1 + code_imm w = t.
Proof.
  intros Hb Hrs Hrt Ht offset.
  destruct (branch_opcode b Hb) as (Hop & Hlw & Hbr).
  assert (encode_instruction b [o0; o1; o2] labels a line_num
          = (imm ← parse_immediate (Py.str offset) line_num;
             Ok (encode_i_type (if String.eqb b "BEQ" then 6 else 7) rs rt imm))) as ->.
  { unfold encode_instruction. rewrite r_type_none by tauto. rewrite Hop, Hlw, Hbr.
    rewrite Hrs, Hrt. cbn [mbind res_bind]. rewrite Ht. reflexivity. }
  rewrite parse_immediate_str.
  destruct ((offset <? -32) || (offset >? 31)) eqn:E; [reflexivity|].
  apply orb_false_iff in E as [E1 E2]. apply Z.ltb_ge in E1.
  assert (offset <= 31) as E3 by lia.
  cbn [mbind res_bind]. eexists. split; [reflexivity|].
  rewrite encode_i_type_mod.
  apply parse_register_bounds in Hrs, Hrt.
  assert (0 <= (if String.eqb b "BEQ" then 6 else 7) < 16) as Ho
    by (destruct (String.eqb b "BEQ"); lia).
  destruct (i_fields_signed _ rs rt offset Ho Hrs Hrt ltac:(lia))
    as (H1 & H2 & H3 & H4 & H5).
  refine (conj H1 (conj H2 (conj H3 (conj H4 _)))). rewrite H5. unfold offset. lia.
Qed.

(** BEQ $r1, $r2, END at address 5 with END at address 7. *)
Lemma branch_reaches_label_witness :
  exists w,
    encode_instruction "BEQ" ["$r1"; "$r2"; "END"] {["END" := 7]} 5 6 = Ok w
    /\ 0 <= w < 65536 /\ code_opcode w = 6 /\ code_rs w = 1 /\ code_rt w = 2
    /\ 5 + 1 + code_imm w = 7.
Proof.
  assert (parse_register "$r1" 6 = Ok 1) as H1 by (vm_compute; reflexivity).
  assert (parse_register "$r2" 6 = Ok 2) as H2 by (vm_compute; reflexivity).
  assert (({["END" := 7]} : gmap string Z) !! Py.strip "END" = Some 7) as H3
    by (vm_compute; reflexivity).
  exact (branch_reaches_label "BEQ" "$r1" "$r2" "END" {["END" := 7]} 5 6 1 2 7
           (or_introl eq_refl) H1 H2 H3).
Defined.

(** A jump to a label: the word holds the address of the label, which
    the decode stage takes as the target; a label beyond address 4095
    raises the out-of-range error. *)
Theorem jump_reaches_label (j o0 : string) (labels : gmap string Z)
    (a line_num t : Z) :
  j = "JUMP" \/ j = "JAL" ->
  labels !! Py.strip o0 = Some t ->
  if (t <? 0) || (t >? 4095)
  then encode_instruction j [o0] labels a line_num
       = Raise (AssemblerError
                  ("Jump address " +:+ Py.str t +:+ " out of range [0, 4095]") line_num)
  else exists w,
      encode_instruction j [o0] labels a line_num = Ok w
      /\ 0 <= w < 65536
      /\ code_opcode w = (if String.eqb j "JUMP" then 9 else 10)
      /\ Z.land w 4095 = t.
Proof.
  intros Hj Ht. destruct (jump_opcode j Hj) as (Hi & Hop).
  unfold encode_instruction. rewrite r_type_none by tauto. rewrite Hi, Hop, Ht.
  cbn [mbind res_bind].
  destruct ((t <? 0) || (t >? 4095)) eqn:E; [reflexivity|].
  apply orb_false_iff in E as [E1 E2]. apply Z.ltb_ge in E1.
  assert (t <= 4095) as E3 by lia.
  eexists. split; [reflexivity|].
  assert (0 <= (if String.eqb j "JUMP" then 9 else 10) < 16) as Ho
    by (destruct (String.eqb j "JUMP"); lia).
  apply (j_fields _ t Ho). lia.
Qed.

(** JAL FN with FN at address 3. *)
Lemma jump_reaches_label_witness :
  exists w,
    encode_instruction "JAL" ["FN"] {["FN" := 3]} 1 2 = Ok w
    /\ 0 <= w < 65536 /\ code_opcode w = 10 /\ Z.land w 4095 = 3.
Proof.
  assert (({["FN" := 3]} : gmap string Z) !! Py.strip "FN" = Some 3) as H
    by (vm_compute; reflexivity).
  exact (jump_reaches_label "JAL" "FN" {["FN" := 3]} 1 2 3 (or_intror eq_refl) H).
Defined.

(** ** The output of [assemble] *)

(** When [assemble] returns, every machine code has four characters that
    read back as a word of the encoders, the source map has exactly the
    addresses of the machine codes as keys, and every label is an address
    of the program or the address right after it. *)
Theorem assemble_output (code : string) (machine_codes : list string)
    (addr_to_source : gmap Z string) (labels : gmap string Z) :
  assemble code = Ok (machine_codes, addr_to_source, labels) ->
  Forall machine_code machine_codes
  /\ (forall a : Z, is_Some (addr_to_source !! a) <-> 0 <= a < len machine_codes)
  /\ map_Forall (fun _ t => 0 <= t <= len machine_codes) labels.
Proof.
  unfold assemble. intros H.
  apply bind_Ok in H as ([labels1 instructions] & H1 & H).
  apply bind_Ok in H as ([codes a2s] & H2 & H). injection H as <- <- <-.
  apply first_pass_addresses in H1 as (Haddr & Hlab);
    [|reflexivity | reflexivity | apply map_Forall_empty].
  apply second_pass_codes in H2 as (Hlen & Hcodes & Hkeys).
  cbn [length Nat.add] in Hlen.
  split; [apply Hcodes; constructor|]. split.
  - intros a. rewrite Hkeys, lookup_empty, Haddr. unfold len. rewrite Hlen. split.
    + intros [[x Hx]|Hin]; [discriminate | apply zrange_bounds; assumption].
    + intros Ha. right. apply zrange_In. assumption.
  - unfold len in *. rewrite Hlen. assumption.
Qed.

(** A loop of two instructions with its label. *)
Lemma assemble_output_witness :
  let code := source_text ["LOOP: ADDI $r1, $r1, 1"; "BNQ $r1, $r2, LOOP"] in
  assemble code
    = Ok (["3241"; "72BE"],
          {[0 := "LOOP: ADDI $r1, $r1, 1"; 1 := "BNQ $r1, $r2, LOOP"]},
          {["LOOP" := 0]})
  /\ Forall machine_code ["3241"; "72BE"].
Proof.
  cbv zeta.
  assert (assemble (source_text ["LOOP: ADDI $r1, $r1, 1"; "BNQ $r1, $r2, LOOP"])
          = Ok (["3241"; "72BE"],
                {[0 := "LOOP: ADDI $r1, $r1, 1"; 1 := "BNQ $r1, $r2, LOOP"]},
                {["LOOP" := 0]})) as H by (vm_compute; reflexivity).
  exact (conj H (proj1 (assemble_output _ _ _ _ H))).
Defined.

(** ** Memory operands *)

(** The two forms of a memory access, [LW $rt, imm($rs)] and
    [LW $rt, $rs, imm], are encoded alike, for LW and for SW, whatever the
    first operand and the integer [imm]: the same word or the same error.
    With a register as first operand and [imm] in [-32, 31] the word holds
    the opcode, the base register in rs, the data register in rt and the
    immediate. *)
Theorem memory_operand_forms_agree (m o0 : string) (labels : gmap string Z)
    (a line_num rs imm : Z) :
  m = "LW" \/ m = "SW" ->
  0 <= rs < 8 ->
  let base := "$r" +:+ Py.str rs in
  encode_instruction m [o0; Py.str imm +:+ "(" +:+ base +:+ ")"] labels a line_num
  = encode_instruction m [o0; base; Py.str imm] labels a line_num
  /\ forall rt : Z,
       parse_register o0 line_num = Ok rt -> -32 <= imm <= 31 ->
       exists w : Z,
         encode_instruction m [o0; base; Py.str imm] labels a line_num = Ok w
         /\ code_opcode w = (if String.eqb m "LW" then 1 else 2)
         /\ code_rs w = rs /\ code_rt w = rt /\ code_imm w = imm.
Proof.
  intros Hm Hrs base.
  destruct (memory_opcode m Hm) as (Hr & Hop & Hlw).
  destruct (register_text rs Hrs) as (d & _ & _ & Hbase).
  assert (encode_instruction m [o0; base; Py.str imm] labels a line_num
          = (rt ← parse_register o0 line_num;
             imm' ← parse_immediate (Py.str imm) line_num;
             Ok (encode_i_type (if String.eqb m "LW" then 1 else 2) rs rt imm'))) as E3.
  { unfold encode_instruction. rewrite Hr, Hop, Hlw. unfold base. rewrite Hbase.
    destruct (parse_register o0 line_num); reflexivity. }
  split.
  - rewrite E3. unfold encode_instruction. rewrite Hr, Hop, Hlw.
    change (Py.str imm +:+ "(" +:+ base +:+ ")")
      with (Py.str imm +:+ "(" +:+ "$r" +:+ Py.str rs +:+ ")").
    rewrite (match_memory_text imm rs Hrs).
    destruct (parse_register o0 line_num); [|reflexivity]. cbn [mbind res_bind].
    destruct (parse_immediate (Py.str imm) line_num); [|reflexivity].
    cbn [mbind res_bind]. rewrite Hbase. reflexivity.
  - intros rt Hrt Himm. rewrite E3, Hrt. cbn [mbind res_bind].
    rewrite parse_immediate_str.
    replace ((imm <? -32) || (imm >? 31)) with false
      by (symmetry; apply orb_false_iff; split;
          [apply Z.ltb_ge | rewrite Z.gtb_ltb; apply Z.ltb_ge]; lia).
    cbn [mbind res_bind]. eexists. split; [reflexivity|].
    rewrite encode_i_type_mod. apply parse_register_bounds in Hrt.
    assert (0 <= (if String.eqb m "LW" then 1 else 2) < 16) as Ho
      by (destruct (String.eqb m "LW"); lia).
    destruct (i_fields_signed _ rs rt imm Ho Hrs Hrt ltac:(lia)) as (_ & H2 & H3 & H4 & H5).
    exact (conj H2 (conj H3 (conj H4 H5))).
Qed.

(** SW $r3, -4($r2) and SW $r3, $r2, -4. *)
Lemma memory_operand_forms_agree_witness :
  encode_instruction "SW" ["$r3"; "-4($r2)"] ∅ 0 1
  = encode_instruction "SW" ["$r3"; "$r2"; "-4"] ∅ 0 1
  /\ exists w : Z,
       encode_instruction "SW" ["$r3"; "$r2"; "-4"] ∅ 0 1 = Ok w
       /\ code_opcode w = 2 /\ code_rs w = 2 /\ code_rt w = 3 /\ code_imm w = -4.
Proof.
  destruct (memory_operand_forms_agree "SW" "$r3" ∅ 0 1 2 (-4)) as [H1 H2];
    [right; reflexivity | lia |].
  split; [exact H1|].
  apply (H2 3); [reflexivity | lia].
Defined.

(** ** Duplicate labels *)

(** A line that defines a label already defined by the lines before it
    stops the first pass of [assemble] with the duplicate-label error, which
    carries the number of that line. *)
Theorem duplicate_label_rejected (lines1 lines2 : list string) (line label : string)
    (instruction : option string) (operands : list string)
    (labels1 : gmap string Z) (instructions1 : list (Z * Z * string * list string)) :
  first_pass lines1 1 0 ∅ [] = Ok (labels1, instructions1) ->
  tokenize_line line = (Some label, instruction, operands) ->
  Py.truthy label = true ->
  is_Some (labels1 !! label) ->
  first_pass (lines1 ++ line :: lines2) 1 0 ∅ []
  = Raise (AssemblerError ("Duplicate label: " +:+ label) (1 + len lines1)).
Proof.
  intros H1 Ht Hl [a Ha]. rewrite first_pass_app, H1. cbn [first_pass].
  rewrite Ht, Hl, Ha. reflexivity.
Qed.

(** LOOP defined on lines 1 and 3. *)
Lemma duplicate_label_rejected_witness :
  first_pass (["LOOP: ADDI $r1, $r1, 1"; "ADD $r2, $r2, $r1"]
              ++ "LOOP: JUMP LOOP" :: ["ADDI $r0, $r0, 0"]) 1 0 ∅ []
  = Raise (AssemblerError "Duplicate label: LOOP" 3)
  /\ assemble (source_text ["LOOP: ADDI $r1, $r1, 1"; "ADD $r2, $r2, $r1";
                            "LOOP: JUMP LOOP"; "ADDI $r0, $r0, 0"])
     = Raise (AssemblerError "Duplicate label: LOOP" 3).
Proof.
  split; [|vm_compute; reflexivity].
  apply (duplicate_label_rejected
           ["LOOP: ADDI $r1, $r1, 1"; "ADD $r2, $r2, $r1"] ["ADDI $r0, $r0, 0"]
           "LOOP: JUMP LOOP" "LOOP" (Some "JUMP") ["LOOP"]
           {["LOOP" := 0]}
           [(0, 1, "ADDI", ["$r1"; "$r1"; "1"]); (1, 2, "ADD", ["$r2"; "$r2"; "$r1"])]).
  - vm_compute. reflexivity.
  - vm_compute. reflexivity.
  - reflexivity.
  - vm_compute. eexists. reflexivity.
Defined.

(** ** Comments *)

(** [tokenize_line] ignores a comment: the text from the first ['#'] on
    never changes the result, and neither does the text from a ['//'] on
    after a line that has no ['/'] and no ['#'] of its own. A line that is
    only a comment has no label, no instruction and no operand. *)
Theorem comments_are_ignored (line comment : string) :
  tokenize_line (line +:+ "#" +:+ comment) = tokenize_line line
  /\ (all_chars code_char line = true ->
      tokenize_line (line +:+ "//" +:+ comment) = tokenize_line line)
  /\ tokenize_line ("#" +:+ comment) = (None, None, [])
  /\ tokenize_line ("//" +:+ comment) = (None, None, []).
Proof.
  assert (forall l, tokenize_line (l +:+ "#" +:+ comment) = tokenize_line l) as H1.
  { intros l. unfold tokenize_line.
    change ("#" +:+ comment) with (String "#" comment). rewrite before_char_at. reflexivity. }
  assert (forall l, all_chars code_char l = true ->
                    tokenize_line (l +:+ "//" +:+ comment) = tokenize_line l) as H2.
  { intros l Hl. unfold tokenize_line.
    rewrite (before_char_code l ("//" +:+ comment) Hl).
    change (Py.before_char "#" ("//" +:+ comment))
      with ("//" +:+ Py.before_char "#" comment).
    destruct (before_sub_code l (Py.before_char "#" comment) Hl) as [-> _].
    rewrite (before_char_code_id l Hl).
    destruct (before_sub_code l "" Hl) as [_ ->]. reflexivity. }
  split; [apply H1|]. split; [apply H2|]. split.
  - apply (H1 "").
  - apply (H2 ""). reflexivity.
Qed.

(** An instruction with a label, followed by a comment. *)
Lemma comments_are_ignored_witness :
  all_chars code_char "LOOP: ADDI $r1, $r1, 1 " = true
  /\ tokenize_line ("LOOP: ADDI $r1, $r1, 1 " +:+ "//" +:+ " count up")
     = (Some "LOOP", Some "ADDI", ["$r1"; "$r1"; "1"]).
Proof.
  assert (all_chars code_char "LOOP: ADDI $r1, $r1, 1 " = true) as H by reflexivity.
  split; [exact H|].
  destruct (comments_are_ignored "LOOP: ADDI $r1, $r1, 1 " " count up") as (_ & H2 & _).
  rewrite (H2 H). vm_compute. reflexivity.
Defined.

(** * Further properties of the CPU *)

(** ** Counters and histories *)

(** After any number of [step] calls on a loaded program the instruction
    memory is the loaded one, the cycle counter is at most the number of
    calls, the snapshots of [pipeline_history] are numbered 1, 2, ... up
    to the cycle counter, [stall_history] and the cycles of
    [forward_history] are increasing selections of these numbers, and
    [flush_count] is at most the cycle counter. *)
Theorem history_accounting (machine_codes : list string) (n : nat) :
  let self := steps n (load_program new machine_codes) in
  instruction_memory self = machine_codes
  /\ 0 <= cycle self <= Z.of_nat n
  /\ map Snapshot.cycle (pipeline_history self) = cycles (cycle self)
  /\ sublist (stall_history self) (cycles (cycle self))
  /\ sublist (map ForwardEntry.cycle (forward_history self)) (cycles (cycle self))
  /\ len (stall_history self) <= cycle self
  /\ len (forward_history self) <= cycle self
  /\ 0 <= flush_count self <= cycle self.
Proof.
  intros self.
  assert (reachable self) as Hr by (apply steps_reachable; constructor).
  destruct (accounting_reachable _ Hr) as [Hc Hsn Hst Hfw Hfl _ _ _ _].
  pose proof (cycle_steps n (load_program new machine_codes)) as Hn.
  change (cycle (load_program new machine_codes)) with 0 in Hn.
  split; [apply instruction_memory_steps|]. split; [fold self in Hn; lia|].
  split; [assumption|]. split; [assumption|]. split; [assumption|].
  split; [|split; [|assumption]].
  - apply sublist_length in Hst. pose proof (length_cycles _ Hc). unfold len in *. lia.
  - apply sublist_length in Hfw. pose proof (length_cycles _ Hc).
    rewrite length_map in Hfw. unfold len in *. lia.
Qed.

(** No (pc, word) key is shown twice in the IF column of the timeline,
    nor in its WB column; the two sets of seen keys are the keys shown so
    far, and the instruction count of [get_state] is the number of
    snapshots with a WB entry, at most the number of cycles. *)
Theorem timeline_shows_keys_once (machine_codes : list string) (n : nat) :
  let self := steps n (load_program new machine_codes) in
  let shown_if := omap if_entry (pipeline_history self) in
  let shown_wb := omap wb_entry (pipeline_history self) in
  NoDup shown_if /\ _seen_in_if self = list_to_set shown_if
  /\ NoDup shown_wb /\ _seen_in_wb self = list_to_set shown_wb
  /\ Performance.instructions (State.performance (get_state self)) = len shown_wb
  /\ len shown_wb <= cycle self.
Proof.
  intros self shown_if shown_wb.
  assert (reachable self) as Hr by (apply steps_reachable; constructor).
  destruct (accounting_reachable _ Hr) as [Hc Hsn _ _ _ Hif Hsif Hwb Hswb].
  split; [assumption|]. split; [assumption|]. split; [assumption|]. split; [assumption|].
  split.
  - cbn [get_state State.performance Performance.instructions].
    rewrite Hswb, size_list_to_set by assumption. reflexivity.
  - pose proof (length_cycles _ Hc) as Hl. rewrite <- Hsn in Hl.
    unfold len in *. rewrite length_map in Hl.
    pose proof (length_omap_le wb_entry (pipeline_history self)). fold shown_wb in H. lia.
Qed.

(** ** Halting *)

(** A halted CPU is drained: no latch is valid and the program counter is
    at or past the end of the program; [step] then returns [False] and
    changes nothing. *)
Theorem halted_is_drained (machine_codes : list string) (n : nat) :
  let self := steps n (load_program new machine_codes) in
  halted self = true ->
  drained self /\ step self = Returned false self.
Proof.
  intros self Hh. split; [|apply halted_step; assumption].
  apply drained_reachable; [|assumption]. apply steps_reachable. constructor.
Qed.

(** ADDI $r2, $r0, 5 has left the pipeline after six cycles. *)
Lemma halted_is_drained_witness :
  let self := steps 6 (load_program new ["3085"]) in
  halted self = true /\ drained self /\ step self = Returned false self.
Proof.
  intros self.
  assert (halted self = true) as H by (vm_compute; reflexivity).
  exact (conj H (halted_is_drained ["3085"] 6 H)).
Defined.

(** ** The exception of [step] *)

(** A running CPU reached from a loaded program raises in [step] exactly
    when the program counter is below the negated length of the program,
    where the fetch has no instruction to index. The call then leaves the
    program counter, the cycle counter, the latches and the histories as
    they were, so every later call raises as well. In every other state
    [step] returns, and its result tells whether the CPU is still running. *)
Theorem step_raises_below_program_start (machine_codes : list string) (n : nat) :
  let self := steps n (load_program new machine_codes) in
  halted self = false ->
  if pc self <? - len machine_codes
  then (exists s, step self = Raised s /\ same_progress self s)
       /\ forall m : nat, exists s, step (steps m self) = Raised s
  else step self = Returned (negb (halted (state_of (step self)))) (state_of (step self)).
Proof.
  intros self Hh.
  assert (reachable self) as Hr by (apply steps_reachable; constructor).
  pose proof (well_formed_reachable _ Hr) as Hwf.
  assert (instruction_memory self = machine_codes) as Him
    by apply instruction_memory_steps.
  destruct (pc self <? - len machine_codes) eqn:E.
  - apply Z.ltb_lt in E. rewrite <- Him in E. split.
    + destruct (step_raises self Hwf Hh E) as [s Hs]. exists s. split; [assumption|].
      apply step_raised in Hs as [_ Hs]. assumption.
    + intros m. apply raises_forever; assumption.
  - apply Z.ltb_ge in E. apply step_returns; [assumption | assumption |].
    rewrite Him. assumption.
Qed.

(** BEQ $r0, $r0, -3 alone: the branch is taken to address -2, below the
    start of a program of one word. *)
Lemma step_raises_below_program_start_witness :
  let self := steps 2 (load_program new ["603D"]) in
  halted self = false /\ pc self = -2
  /\ (exists s, step self = Raised s /\ same_progress self s)
  /\ forall m : nat, exists s, step (steps m self) = Raised s.
Proof.
  intros self.
  assert (halted self = false) as H by (vm_compute; reflexivity).
  assert (pc self = -2) as Hpc by (vm_compute; reflexivity).
  exact (conj H (conj Hpc (step_raises_below_program_start ["603D"] 2 H))).
Defined.

(** ** The ALU and the memory stage *)

(** On a word of 16 bits [_signed] is the two's complement reading: a
    value of [-32768, 32767] that is congruent to the word modulo 2^16,
    negative exactly from 32768 on. *)
Theorem signed_reads_twos_complement (v : Z) :
  word16 v ->
  -32768 <= _signed v <= 32767
  /\ _signed v mod 65536 = v
  /\ _signed v = (if v <? 32768 then v else v - 65536).
Proof.
  intros [H0 H1]. pose proof signed_table as T.
  apply (forallb_zrange 256 _ (v / 256)) in T;
    [|split; [apply Z.div_pos; lia | apply Z.div_lt_upper_bound; lia]].
  apply (forallb_zrange 256 _ (v mod 256)) in T; [|apply Z.mod_pos_bound; lia].
  cbv beta in T. rewrite <- Z.div_mod in T by lia. unfold signed_ok in T. cbv zeta in T.
  repeat (apply andb_true_iff in T as [T ?]).
  apply Z.leb_le in T.
  repeat match goal with
         | H : (_ <=? _) = true |- _ => apply Z.leb_le in H
         | H : (_ mod _ =? _) = true |- _ => apply Z.eqb_eq in H
         end.
  split; [lia|]. split; [assumption|].
  destruct (v <? 32768); match goal with H : (_ =? _) = true |- _ => apply Z.eqb_eq in H end;
    assumption.
Qed.

(** The word 65535 reads as -1. *)
Lemma signed_reads_twos_complement_witness :
  word16 65535 /\ _signed 65535 = -1.
Proof.
  assert (word16 65535) as H by (unfold word16; lia).
  exact (conj H (proj2 (proj2 (signed_reads_twos_complement 65535 H)))).
Defined.

(** The ALU keeps 16 bits: on operands of 16 bits every operation gives a
    value of 16 bits, whatever the immediate; JAL passes its return
    address on as it is. Addition and subtraction are modulo 2^16 and
    undo each other. *)
Theorem alu_keeps_16_bits (alu_op : string) (rs_val rt_val imm id_rs_val : Z) :
  word16 rs_val -> word16 rt_val ->
  (String.eqb alu_op "JAL" = true -> word16 id_rs_val) ->
  word16 (alu alu_op rs_val rt_val imm id_rs_val)
  /\ _alu_sub (_alu_add rs_val rt_val) rt_val = rs_val
  /\ _alu_add (_alu_sub rs_val rt_val) rt_val = rs_val.
Proof.
  intros Ha Hb Hj. split.
  - unfold alu, _alu_add, _alu_sub.
    repeat match goal with
           | |- word16 (if String.eqb alu_op ?s then _ else _) =>
               destruct (String.eqb alu_op s) eqn:?
           | |- word16 (if _ || _ || _ then _ else _) => destruct (_ || _ || _)
           | |- word16 (if _ <? _ then 1 else 0) => destruct (_ <? _); unfold word16; lia
           | |- word16 (Z.land (_ + _) 65535) => apply land_word16
           | |- word16 (Z.land (_ - _) 65535) => apply land_word16
           end.
    + apply word16_land_l. assumption.
    + apply word16_lor; assumption.
    + apply word16_land_l. assumption.
    + apply Hj. reflexivity.
    + unfold word16. lia.
  - unfold _alu_add, _alu_sub. change 65535 with (Z.ones 16).
    rewrite !Z.land_ones by lia. destruct Ha as [Ha0 Ha1].
    rewrite Zminus_mod_idemp_l, Zplus_mod_idemp_l.
    replace (rs_val + rt_val - rt_val) with rs_val by lia.
    replace (rs_val - rt_val + rt_val) with rs_val by lia.
    rewrite Z.mod_small by lia. split; reflexivity.
Qed.

(** OR of two words. *)
Lemma alu_keeps_16_bits_witness :
  word16 (alu "OR" 65280 255 0 0) /\ _alu_sub (_alu_add 65280 255) 255 = 65280.
Proof.
  assert (word16 65280) as Ha by (unfold word16; lia).
  assert (word16 255) as Hb by (unfold word16; lia).
  assert (String.eqb "OR" "JAL" = true -> word16 0) as Hj by discriminate.
  destruct (alu_keeps_16_bits "OR" 65280 255 0 0 Ha Hb Hj) as (H1 & H2 & _).
  exact (conj H1 H2).
Defined.

(** The memory stage stores and loads at the address taken modulo 2^16:
    after a store, a load of the same address reads the stored value, cut
    to 16 bits, and raises no warning; a load of another address reads what
    was there before, and a load of an address never written reads 0 and
    leaves the uninitialized-memory warning. A load changes no memory. *)
Theorem store_then_load (self : t) (store load : ExMem.t) :
  ExMem.valid store = true -> ExMem.mem_read store = false ->
  ExMem.mem_write store = true ->
  ExMem.valid load = true -> ExMem.mem_read load = true ->
  let stored := (_stage_mem self store).1 in
  let result := _stage_mem stored load in
  let a := Z.land (ExMem.alu_result store) 65535 in
  let b := Z.land (ExMem.alu_result load) 65535 in
  data_memory stored = <[a := Z.land (ExMem.rt_val store) 65535]> (data_memory self)
  /\ data_memory result.1 = data_memory stored
  /\ (b = a ->
      MemWb.mem_data result.2 = Z.land (ExMem.rt_val store) 65535
      /\ memory_warning result.1 = memory_warning self)
  /\ (b <> a ->
      MemWb.mem_data result.2 = default 0 (data_memory self !! b)
      /\ (data_memory self !! b = None ->
          memory_warning result.1 = Some (uninitialized_warning b load))).
Proof.
  intros Hsv Hsr Hsw Hlv Hlr stored result a b.
  assert (data_memory stored = <[a := Z.land (ExMem.rt_val store) 65535]> (data_memory self))
    as Hst.
  { unfold stored, _stage_mem, mem_store. cbn [fst]. norm.
    rewrite Hsv, Hsr, Hsw. reflexivity. }
  assert (memory_warning stored = memory_warning self) as Hw.
  { unfold stored, _stage_mem, mem_warning. cbn [fst]. norm.
    rewrite Hsv, Hsr. reflexivity. }
  assert (data_memory result.1 = data_memory stored) as Hld.
  { unfold result, _stage_mem, mem_store. cbn [fst]. norm.
    rewrite Hlv, Hlr. reflexivity. }
  assert (MemWb.mem_data result.2 = default 0 (data_memory stored !! b)) as Hdata.
  { unfold result, _stage_mem, mem_latch. cbn [snd]. rewrite Hlv, Hlr. reflexivity. }
  assert (memory_warning result.1
          = if negb (Py.not_none (data_memory stored !! b))
            then Some (uninitialized_warning b load) else memory_warning stored) as Hwarn.
  { unfold result, _stage_mem, mem_warning. cbn [fst]. norm.
    rewrite Hlv, Hlr. reflexivity. }
  split; [exact Hst|]. split; [exact Hld|]. split.
  - intros ->. rewrite Hdata, Hwarn, Hst, lookup_insert_eq, Hw. split; reflexivity.
  - intros Hne. rewrite Hdata, Hwarn, Hst, lookup_insert_ne by congruence.
    split; [reflexivity|]. intros ->. reflexivity.
Qed.

(** A store to address 65540, which is address 4, and a load of address 4. *)
Lemma store_then_load_witness :
  let store :=
    {| ExMem.instruction := Some "2044"; ExMem.pc := 1; ExMem.alu_result := 65540;
       ExMem.rt_val := 7; ExMem.rd := 1; ExMem.reg_write := false;
       ExMem.mem_read := false; ExMem.mem_write := true; ExMem.mem_to_reg := false;
       ExMem.valid := true |} in
  let load :=
    {| ExMem.instruction := Some "1084"; ExMem.pc := 2; ExMem.alu_result := 4;
       ExMem.rt_val := 0; ExMem.rd := 2; ExMem.reg_write := true;
       ExMem.mem_read := true; ExMem.mem_write := false; ExMem.mem_to_reg := true;
       ExMem.valid := true |} in
  MemWb.mem_data (_stage_mem (_stage_mem new store).1 load).2 = 7
  /\ memory_warning (_stage_mem (_stage_mem new store).1 load).1 = None.
Proof.
  intros store load.
  destruct (store_then_load new store load eq_refl eq_refl eq_refl eq_refl eq_refl)
    as (_ & _ & H & _).
  exact (H eq_refl).
Defined.

(** ** Forwarding of an ALU result *)

(** An instruction that writes its ALU result to register [r], [r] not
    0, is in ID/EX, and an ALU instruction or a load that reads [r] is in
    IF/ID. The next two calls of [step] return [True] and no stall is
    recorded for the consumer: it enters ID/EX in the first cycle and
    executes in the second, where the forward records name EX/MEM with the
    result of the producer. When that result and the value that MEM/WB
    writes are values of 16 bits, the ALU result of the consumer is the one
    computed from the register file that the write-back of the producer
    leaves. *)
Theorem alu_result_is_forwarded (machine_codes : list string) (k : nat)
    (r code : Z) (w : string) :
  let self := steps k (load_program new machine_codes) in
  let s1 := state_of (step self) in
  let s2 := state_of (step s1) in
  halted self = false ->
  stall self = false ->
  alu_latch (ID_EX self) r = true ->
  IfId.valid (IF_ID self) = true ->
  IfId.instruction (IF_ID self) = Some w ->
  Py.int16 w = Some code ->
  alu_or_load code = true ->
  reads code r = true ->
  let produced := ExMem.alu_result (EX_MEM s1) in
  word16 produced ->
  word16 (write_data (MEM_WB s1)) ->
  (step self = Returned true s1 /\ step s1 = Returned true s2)
  /\ (IdEx.valid (ID_EX s1) = true /\ IdEx.instruction (ID_EX s1) = Some w
      /\ stall_history s1 = stall_history self)
  /\ (code_rs code = r -> forward_a s2 = Some (forward_record "EX_MEM" r produced))
  /\ (code_rt code = r -> forward_b s2 = Some (forward_record "EX_MEM" r produced))
  /\ ExMem.instruction (EX_MEM s2) = Some w
  /\ exists retired : list Z,
       wb_registers s2 = Some retired
       /\ reg retired r = produced
       /\ ExMem.alu_result (EX_MEM s2) = reference_result code retired.
Proof.
  intros self s1 s2 Hh Hst Hlatch Hv Hi Hc Ha Hr produced Hprod Hwd.
  assert (reachable self) as Hreach by (apply steps_reachable; constructor).
  assert (well_formed self) as Hwf0 by (apply well_formed_reachable; assumption).
  assert (well_formed s1) as Hwf1 by (apply well_formed_step; assumption).
  assert (well_formed s2) as Hwf2 by (apply well_formed_step; assumption).
  (* the latch of the producer *)
  pose proof Hlatch as Hl. unfold alu_latch in Hl.
  repeat (apply andb_true_iff in Hl as [Hl ?]).
  repeat match goal with H : negb _ = true |- _ => apply negb_true_iff in H end.
  match goal with H : (IdEx.rd _ =? r) = true |- _ => apply Z.eqb_eq in H; rename H into Hrd end.
  match goal with H : (r =? 0) = false |- _ => apply Z.eqb_neq in H; rename H into Hr0 end.
  match goal with H : IdEx.reg_write _ = true |- _ => rename H into Hrw end.
  match goal with H : IdEx.mem_read _ = false |- _ => rename H into Hmr end.
  match goal with H : IdEx.mem_to_reg _ = false |- _ => rename H into Hmt end.
  assert (0 < r < 8) as Hrange by (pose proof (wf_id_ex _ Hwf0); lia).
  (* first cycle: the consumer is decoded, the producer executes *)
  destruct (fetch_point_reachable _ Hreach Hv) as (Hfetched & Hpc0).
  assert (step self = Returned (negb (halted s1)) s1) as R1
    by (apply step_returns; [assumption | assumption | lia]).
  clearbody s1.
  pose proof R1 as S1.
  apply step_returned in S1 as (regs1 & d1 & f1 & F1); [|assumption].
  destruct (decode_of_cycle_consumer _ _ _ _ _ w code F1 Hwf1 Hv Hi Hc Ha)
    as (l1 & -> & Hl1v & Hl1i & Hl1rs & Hl1rt & Hl1imm & Hl1op & Hl1rsv & Hl1rtv & Hl1w).
  assert (stalled self (l1, false, None, load_use_hazard (ID_EX self) l1) = false)
    as Hstalled.
  { unfold stalled, load_use_hazard. cbn [snd]. rewrite Hl, Hmr, Hst. reflexivity. }
  pose proof (cf_ID_EX _ _ _ _ _ F1) as E1_id. rewrite Hstalled in E1_id. cbn [fst] in E1_id.
  pose proof (cf_stall_history _ _ _ _ _ F1) as E1_sh.
  rewrite Hstalled, E1_id, Hl1v in E1_sh. cbn [orb negb andb] in E1_sh.
  pose proof (cf_pc _ _ _ _ _ F1) as E1_pc. rewrite Hstalled in E1_pc.
  cbn [fst snd] in E1_pc.
  pose proof (cf_instruction_memory _ _ _ _ _ F1) as E1_im.
  destruct (ex_latch_valid (ID_EX self) (EX_MEM self) (MEM_WB self) None None Hl)
    as (X1v & _ & X1rd & X1w & X1r & X1m & _).
  fold (ex_result self) in X1v, X1rd, X1w, X1r, X1m.
  rewrite <- (cf_EX_MEM _ _ _ _ _ F1) in *.
  rewrite Hrd in X1rd. rewrite Hrw in X1w. rewrite Hmr in X1r. rewrite Hmt in X1m.
  assert (ex_mem_forwards (EX_MEM s1) = true) as Hfw1.
  { unfold ex_mem_forwards. rewrite X1v, X1w, X1rd.
    replace (r =? 0) with false by (symmetry; apply Z.eqb_neq; assumption). reflexivity. }
  assert (halted s1 = false) as Hh1.
  { rewrite (cf_halted _ _ _ _ _ F1), E1_id, Hl1v. rewrite andb_false_r. reflexivity. }
  rewrite Hh1 in R1. cbn [negb] in R1.
  (* second cycle: the consumer executes *)
  assert (step s1 = Returned (negb (halted s2)) s2) as R2.
  { apply step_returns; [assumption | assumption |]. rewrite E1_im, E1_pc.
    destruct (pc self <? len (instruction_memory self)); lia. }
  clearbody s2.
  pose proof R2 as S2.
  apply step_returned in S2 as (regs2 & d2 & f2 & F2); [|assumption].
  destruct (ex_latch_valid (ID_EX s1) (EX_MEM s1) (MEM_WB s1) None None)
    as (X2v & X2i & _ & _ & _ & _ & X2a); [rewrite E1_id; assumption|].
  fold (ex_result s1) in X2v, X2i, X2a. rewrite <- (cf_EX_MEM _ _ _ _ _ F2) in *.
  assert (halted s2 = false) as Hh2.
  { rewrite (cf_halted _ _ _ _ _ F2), X2v. rewrite andb_false_r. reflexivity. }
  rewrite Hh2 in R2. cbn [negb] in R2.
  (* the producer in MEM/WB, and its write-back *)
  destruct (mem_latch_valid (data_memory s1) (EX_MEM s1) X1v)
    as (M2v & _ & M2rd & M2w & M2m & M2a & _).
  fold (mem_result s1) in M2v, M2rd, M2w, M2m, M2a.
  rewrite <- (cf_MEM_WB _ _ _ _ _ F2) in *.
  rewrite X1rd in M2rd. rewrite X1w in M2w. rewrite X1m in M2m.
  assert (mem_wb_forwards (MEM_WB s2) = true) as Hfw2.
  { unfold mem_wb_forwards. rewrite M2v, M2w, M2rd.
    replace (r =? 0) with false by (symmetry; apply Z.eqb_neq; assumption). reflexivity. }
  assert (write_data (MEM_WB s2) = produced) as Hwd2
    by (unfold write_data; rewrite M2m; exact M2a).
  destruct (write_back_total (registers s2) (MEM_WB s2))
    as (retired & Hret & _); [apply wf_length, Hwf2 | apply wf_mem_wb, Hwf2 |].
  assert (forall q, 0 <= q < 8 ->
            reg retired q
            = if q =? r then produced
              else if mem_wb_forwards (MEM_WB s1) && (q =? MemWb.rd (MEM_WB s1))
                   then write_data (MEM_WB s1) else reg (registers s1) q) as Hreg.
  { intros q Hq.
    rewrite (write_back_reg (registers s2) retired (MEM_WB s2) q);
      [|apply wf_length, Hwf2 | apply wf_mem_wb, Hwf2 | assumption | assumption].
    rewrite Hfw2, M2rd, Hwd2. cbn [andb].
    destruct (q =? r); [apply land_word16_id; assumption|].
    rewrite (write_back_reg (registers s1) (registers s2) (MEM_WB s1) q);
      [|apply wf_length, Hwf1 | apply wf_mem_wb, Hwf1 | assumption
       |rewrite (cf_registers _ _ _ _ _ F2); exact (cf_wb _ _ _ _ _ F2)].
    destruct (_ && _); [apply land_word16_id; assumption | reflexivity]. }
  rewrite !(ex_operand_forwarded _ _ r) in X2a by assumption.
  fold produced in X2a.
  rewrite E1_id, Hl1rs, Hl1rt, Hl1op, Hl1imm, Hl1rsv, Hl1rtv in X2a.
  rewrite <- !Hreg in X2a by apply land_7_range.
  rewrite alu_of_code in X2a by assumption.
  split; [exact (conj R1 R2)|].
  split; [rewrite E1_id; exact (conj Hl1v (conj Hl1i E1_sh))|].
  split.
  { intros Hrs. rewrite (cf_forward_a _ _ _ _ _ F2), E1_id, Hl1v.
    apply ex_forward_forwarded; try assumption. rewrite Hl1rs. exact Hrs. }
  split.
  { intros Hrt. rewrite (cf_forward_b _ _ _ _ _ F2), E1_id, Hl1v.
    apply ex_forward_forwarded; try assumption. rewrite Hl1rt. exact Hrt. }
  split; [rewrite X2i, E1_id; assumption|].
  exists retired. split; [exact Hret|]. split; [|exact X2a].
  rewrite Hreg by lia. rewrite Z.eqb_refl. reflexivity.
Qed.

(** ADDI $r1, $r0, 5 followed by ADDI $r2, $r1, 3: the second computes 8
    from the forwarded 5. *)
Lemma alu_result_is_forwarded_witness :
  let self := steps 2 (load_program new ["3045"; "3283"]) in
  let s1 := state_of (step self) in
  let s2 := state_of (step s1) in
  (halted self = false /\ stall self = false /\ alu_latch (ID_EX self) 1 = true
   /\ IfId.valid (IF_ID self) = true /\ IfId.instruction (IF_ID self) = Some "3283"
   /\ Py.int16 "3283" = Some 12931 /\ alu_or_load 12931 = true /\ reads 12931 1 = true
   /\ word16 (ExMem.alu_result (EX_MEM s1)) /\ word16 (write_data (MEM_WB s1)))
  /\ (step self = Returned true s1 /\ step s1 = Returned true s2)
  /\ forward_a s2 = Some (forward_record "EX_MEM" 1 (ExMem.alu_result (EX_MEM s1)))
  /\ ExMem.alu_result (EX_MEM s2) = 8.
Proof.
  intros self s1 s2.
  assert (halted self = false) as Hh by (vm_compute; reflexivity).
  assert (stall self = false) as Hst by (vm_compute; reflexivity).
  assert (alu_latch (ID_EX self) 1 = true) as Hl by (vm_compute; reflexivity).
  assert (IfId.valid (IF_ID self) = true) as Hv by (vm_compute; reflexivity).
  assert (IfId.instruction (IF_ID self) = Some "3283") as Hi by (vm_compute; reflexivity).
  assert (Py.int16 "3283" = Some 12931) as Hc by (vm_compute; reflexivity).
  assert (alu_or_load 12931 = true) as Ha by (vm_compute; reflexivity).
  assert (reads 12931 1 = true) as Hr by (vm_compute; reflexivity).
  assert (ExMem.alu_result (EX_MEM s1) = 5) as Hp by (vm_compute; reflexivity).
  assert (write_data (MEM_WB s1) = 0) as Hw by (vm_compute; reflexivity).
  assert (word16 (ExMem.alu_result (EX_MEM s1))) as Hp16
    by (rewrite Hp; unfold word16; lia).
  assert (word16 (write_data (MEM_WB s1))) as Hw16 by (rewrite Hw; unfold word16; lia).
  assert (code_rs 12931 = 1) as Hrs by (vm_compute; reflexivity).
  assert (ExMem.alu_result (EX_MEM s2) = 8) as H8 by (vm_compute; reflexivity).
  destruct (alu_result_is_forwarded ["3045"; "3283"] 2 1 12931 "3283"
              Hh Hst Hl Hv Hi Hc Ha Hr Hp16 Hw16) as (R & _ & Fa & _).
  exact (conj (conj Hh (conj Hst (conj Hl (conj Hv (conj Hi (conj Hc (conj Ha (conj Hr
           (conj Hp16 Hw16)))))))))
           (conj R (conj (Fa Hrs) H8))).
Defined.

(** ** Jumps *)

(** A JUMP or a JAL in IF/ID of a running CPU never stalls: the call of
    [step] returns [True], the program counter becomes the address field
    of the word, the instruction fetched behind the jump is flushed, and
    [flush_count] grows by one. A JAL carries the address after its own
    through the pipeline: the next two calls return [True] as well, and
    the write-back of the fourth cycle leaves that address, cut to 16 bits,
    in $r7. *)
Theorem jump_redirects_and_links (machine_codes : list string) (k : nat)
    (code : Z) (w : string) :
  let self := steps k (load_program new machine_codes) in
  let s1 := state_of (step self) in
  let s2 := state_of (step s1) in
  let s3 := state_of (step s2) in
  halted self = false ->
  stall self = false ->
  IfId.valid (IF_ID self) = true ->
  IfId.instruction (IF_ID self) = Some w ->
  Py.int16 w = Some code ->
  code_opcode code = 9 \/ code_opcode code = 10 ->
  (step self = Returned true s1
   /\ pc s1 = Z.land code 4095
   /\ IF_ID s1 = _empty_if_id
   /\ IdEx.instruction (ID_EX s1) = Some w
   /\ flush_count s1 = flush_count self + 1
   /\ stall_history s1 = stall_history self)
  /\ (code_opcode code = 10 ->
      step s1 = Returned true s2 /\ step s2 = Returned true s3
      /\ ExMem.alu_result (EX_MEM s2) = IfId.pc (IF_ID self) + 1
      /\ exists retired : list Z,
           wb_registers s3 = Some retired
           /\ reg retired 7 = Z.land (IfId.pc (IF_ID self) + 1) 65535).
Proof.
  intros self s1 s2 s3 Hh Hst Hv Hi Hc Hop.
  assert (reachable self) as Hreach by (apply steps_reachable; constructor).
  assert (well_formed self) as Hwf0 by (apply well_formed_reachable; assumption).
  assert (well_formed s1) as Hwf1 by (apply well_formed_step; assumption).
  assert (well_formed s2) as Hwf2 by (apply well_formed_step; assumption).
  assert (well_formed s3) as Hwf3 by (apply well_formed_step; assumption).
  (* first cycle: decode of the jump *)
  destruct (fetch_point_reachable _ Hreach Hv) as (Hfetched & Hpc0).
  assert (step self = Returned (negb (halted s1)) s1) as R1
    by (apply step_returns; [assumption | assumption | lia]).
  clearbody s1.
  pose proof R1 as S1.
  apply step_returned in S1 as (regs1 & d1 & f1 & F1); [|assumption].
  pose proof (cf_decode _ _ _ _ _ F1) as Hd.
  unfold decode_of_cycle in Hd. rewrite (cf_wb _ _ _ _ _ F1) in Hd.
  cbn [mbind option_bind] in Hd.
  destruct (decode_jump regs1 (ID_EX self) (EX_MEM self) (MEM_WB self) (IF_ID self)
              (Some (ex_result self)) w code Hv Hi Hc Hop)
    as (l & Hl & Hlv & Hli & Hlj & Hlmr & Hlmw & Hlmt & _ & Hjal).
  rewrite Hl in Hd. injection Hd as <-.
  assert (stalled self (l, false, Some (Z.land code 4095), None) = false) as Hstalled
    by (unfold stalled; cbn [snd Py.not_none orb]; assumption).
  assert (redirects (l, false, Some (Z.land code 4095), None) = true) as Hred
    by reflexivity.
  pose proof (cf_IF_ID _ _ _ _ _ F1) as E1_if. rewrite Hstalled, Hred in E1_if.
  pose proof (cf_ID_EX _ _ _ _ _ F1) as E1_id. rewrite Hstalled in E1_id. cbn [fst] in E1_id.
  pose proof (cf_pc _ _ _ _ _ F1) as E1_pc. rewrite Hstalled in E1_pc.
  cbn [fst snd] in E1_pc.
  pose proof (cf_flush_count _ _ _ _ _ F1) as E1_fc. rewrite Hred in E1_fc.
  pose proof (cf_stall_history _ _ _ _ _ F1) as E1_sh.
  rewrite Hstalled, E1_id, Hlv in E1_sh. cbn [orb negb andb] in E1_sh.
  pose proof (cf_stall _ _ _ _ _ F1) as E1_st.
  pose proof (cf_instruction_memory _ _ _ _ _ F1) as E1_im.
  assert (halted s1 = false) as Hh1.
  { rewrite (cf_halted _ _ _ _ _ F1), E1_id, Hlv. rewrite andb_false_r. reflexivity. }
  rewrite Hh1 in R1. cbn [negb] in R1.
  assert (0 <= Z.land code 4095) as Htarget by (apply Z.land_nonneg; lia).
  split.
  { refine (conj R1 (conj E1_pc (conj E1_if (conj _ (conj E1_fc E1_sh))))).
    rewrite E1_id. assumption. }
  intros Hop10. destruct (Hjal Hop10) as (Hlw & Hlrd & Hlop & Hlrs).
  (* second cycle: the JAL executes *)
  assert (step s1 = Returned (negb (halted s2)) s2) as R2.
  { apply step_returns; [assumption | assumption |]. unfold len in *. lia. }
  clearbody s2.
  pose proof R2 as S2.
  apply step_returned in S2 as (regs2 & d2 & f2 & F2); [|assumption].
  destruct (ex_latch_valid (ID_EX s1) (EX_MEM s1) (MEM_WB s1) None None)
    as (X2v & _ & X2rd & X2w & X2r & X2m & X2a); [rewrite E1_id; assumption|].
  fold (ex_result s1) in X2v, X2rd, X2w, X2r, X2m, X2a.
  rewrite <- (cf_EX_MEM _ _ _ _ _ F2) in *.
  rewrite E1_id in X2rd, X2w, X2r, X2m, X2a.
  rewrite Hlop, Hlrs in X2a.
  change (alu "JAL" ?a ?b ?i ?x) with x in X2a.
  assert (halted s2 = false) as Hh2.
  { rewrite (cf_halted _ _ _ _ _ F2), X2v. rewrite andb_false_r. reflexivity. }
  rewrite Hh2 in R2. cbn [negb] in R2.
  pose proof (cf_decode _ _ _ _ _ F2) as Hd2.
  unfold decode_of_cycle in Hd2. rewrite (cf_wb _ _ _ _ _ F2) in Hd2.
  cbn [mbind option_bind] in Hd2. rewrite E1_if in Hd2.
  rewrite decode_bubble in Hd2 by reflexivity. injection Hd2 as <-.
  pose proof (cf_pc _ _ _ _ _ F2) as E2_pc.
  unfold stalled, no_decode in E2_pc. cbn [fst snd Py.not_none orb] in E2_pc.
  rewrite E1_st in E2_pc.
  pose proof (cf_instruction_memory _ _ _ _ _ F2) as E2_im.
  (* third cycle: the JAL passes the memory stage *)
  assert (step s2 = Returned (negb (halted s3)) s3) as R3.
  { apply step_returns; [assumption | assumption |]. rewrite E2_im, E2_pc.
    unfold len in *. destruct (pc s1 <? _); lia. }
  clearbody s3.
  pose proof R3 as S3.
  apply step_returned in S3 as (regs3 & d3 & f3 & F3); [|assumption].
  destruct (mem_latch_valid (data_memory s2) (EX_MEM s2) X2v)
    as (M3v & _ & M3rd & M3w & M3m & M3a & _).
  fold (mem_result s2) in M3v, M3rd, M3w, M3m, M3a.
  rewrite <- (cf_MEM_WB _ _ _ _ _ F3) in *.
  rewrite X2rd, Hlrd in M3rd. rewrite X2w, Hlw in M3w. rewrite X2m, Hlmt in M3m.
  rewrite X2a in M3a.
  assert (halted s3 = false) as Hh3.
  { rewrite (cf_halted _ _ _ _ _ F3), M3v. rewrite andb_false_r. reflexivity. }
  rewrite Hh3 in R3. cbn [negb] in R3.
  refine (conj R2 (conj R3 (conj X2a _))).
  destruct (write_back_total (registers s3) (MEM_WB s3))
    as (retired & Hret & _); [apply wf_length, Hwf3 | apply wf_mem_wb, Hwf3 |].
  exists retired. split; [exact Hret|].
  rewrite (write_back_reg (registers s3) retired (MEM_WB s3) 7);
    [|apply wf_length, Hwf3 | apply wf_mem_wb, Hwf3 | lia | assumption].
  unfold mem_wb_forwards, write_data. rewrite M3v, M3w, M3rd, M3m, M3a. reflexivity.
Qed.

(** JAL 2 at address 0, in front of two ADDI and a JR $r7. *)
Lemma jump_redirects_and_links_witness :
  let self := steps 1 (load_program new ["A002"; "3045"; "0E05"]) in
  let s1 := state_of (step self) in
  let s3 := state_of (step (state_of (step s1))) in
  (halted self = false /\ stall self = false /\ IfId.valid (IF_ID self) = true
   /\ IfId.instruction (IF_ID self) = Some "A002" /\ Py.int16 "A002" = Some 40962
   /\ code_opcode 40962 = 10)
  /\ (step self = Returned true s1 /\ pc s1 = 2 /\ IF_ID s1 = _empty_if_id
      /\ flush_count s1 = flush_count self + 1)
  /\ exists retired : list Z, wb_registers s3 = Some retired /\ reg retired 7 = 1.
Proof.
  intros self s1 s3.
  assert (halted self = false) as Hh by (vm_compute; reflexivity).
  assert (stall self = false) as Hst by (vm_compute; reflexivity).
  assert (IfId.valid (IF_ID self) = true) as Hv by (vm_compute; reflexivity).
  assert (IfId.instruction (IF_ID self) = Some "A002") as Hi by (vm_compute; reflexivity).
  assert (Py.int16 "A002" = Some 40962) as Hc by (vm_compute; reflexivity).
  assert (code_opcode 40962 = 10) as Hop by (vm_compute; reflexivity).
  destruct (jump_redirects_and_links ["A002"; "3045"; "0E05"] 1 40962 "A002"
              Hh Hst Hv Hi Hc (or_intror Hop))
    as ((R1 & Hpc & Hif & _ & Hfc & _) & Hlink).
  destruct (Hlink Hop) as (_ & _ & _ & Hret).
  exact (conj (conj Hh (conj Hst (conj Hv (conj Hi (conj Hc Hop)))))
           (conj (conj R1 (conj Hpc (conj Hif Hfc))) Hret)).
Defined.

(** ** Branches *)

(** A BEQ or a BNQ in IF/ID of a running CPU, with no load in the two
    stages ahead, is resolved in the decode of the same cycle: the call of
    [step] returns [True] and records no stall, and the branch writes no
    register and no memory. The operands compared are the register values
    with the results still in the pipeline forwarded. A taken branch sets
    the program counter to the address after the branch plus the
    sign-extended immediate, flushes the instruction fetched behind it and
    counts one flush; a branch not taken lets the fetch go on and counts
    none. A BEQ of a register with itself is always taken, a BNQ never. *)
Theorem branch_resolves_in_decode (machine_codes : list string) (k : nat)
    (code : Z) (w : string) :
  let self := steps k (load_program new machine_codes) in
  let s1 := state_of (step self) in
  halted self = false ->
  stall self = false ->
  IfId.valid (IF_ID self) = true ->
  IfId.instruction (IF_ID self) = Some w ->
  Py.int16 w = Some code ->
  code_opcode code = 6 \/ code_opcode code = 7 ->
  no_load_ahead self = true ->
  exists regs : list Z,
    wb_registers self = Some regs
    /\ step self = Returned true s1
    /\ (IdEx.instruction (ID_EX s1) = Some w /\ IdEx.reg_write (ID_EX s1) = false
        /\ IdEx.mem_write (ID_EX s1) = false
        /\ stall_history s1 = stall_history self)
    /\ (if branch_decision self regs code
        then pc s1 = IfId.pc (IF_ID self) + 1 + code_imm code
             /\ IF_ID s1 = _empty_if_id
             /\ flush_count s1 = flush_count self + 1
        else pc s1 = (if pc self <? len machine_codes then pc self + 1 else pc self)
             /\ fetch (pc self) machine_codes = Some (IF_ID s1)
             /\ flush_count s1 = flush_count self)
    /\ (code_rs code = code_rt code ->
        branch_decision self regs code = (code_opcode code =? 6)).
Proof.
  intros self s1 Hh Hst Hv Hi Hc Hop Hno.
  assert (reachable self) as Hreach by (apply steps_reachable; constructor).
  assert (well_formed self) as Hwf0 by (apply well_formed_reachable; assumption).
  assert (instruction_memory self = machine_codes) as Him
    by (unfold self; rewrite instruction_memory_steps; reflexivity).
  destruct (fetch_point_reachable _ Hreach Hv) as (Hfetched & Hpc0).
  assert (step self = Returned (negb (halted s1)) s1) as R1
    by (apply step_returns; [assumption | assumption | lia]).
  clearbody s1.
  pose proof R1 as S1.
  apply step_returned in S1 as (regs & d & f & F); [|assumption].
  exists regs. split; [apply (cf_wb _ _ _ _ _ F)|].
  pose proof (cf_decode _ _ _ _ _ F) as Hd.
  unfold decode_of_cycle in Hd. rewrite (cf_wb _ _ _ _ _ F) in Hd.
  cbn [mbind option_bind] in Hd.
  assert (length regs = 8%nat) as Hlen.
  { destruct (write_back_total (registers self) (MEM_WB self))
      as (regs' & Hret & Hlen'); [apply wf_length, Hwf0 | apply wf_mem_wb, Hwf0 |].
    pose proof (cf_wb _ _ _ _ _ F) as Hwb. unfold wb_registers in Hwb.
    rewrite Hret in Hwb. injection Hwb as <-. exact Hlen'. }
  destruct (decode_branch self regs w code Hlen Hv Hi Hc Hop Hno)
    as (l & Hl & Hlv & Hli & Hlb & Hlw & Hlmr & Hlmw).
  rewrite Hl in Hd. injection Hd as <-.
  set (taken := branch_decision self regs code) in *.
  assert (stalled self
            (l, taken, if taken then Some (IfId.pc (IF_ID self) + 1 + code_imm code)
                       else None, None) = false) as Hstalled
    by (unfold stalled; cbn [snd Py.not_none orb]; assumption).
  pose proof (cf_IF_ID _ _ _ _ _ F) as E_if. rewrite Hstalled in E_if.
  pose proof (cf_ID_EX _ _ _ _ _ F) as E_id. rewrite Hstalled in E_id. cbn [fst] in E_id.
  pose proof (cf_pc _ _ _ _ _ F) as E_pc. rewrite Hstalled in E_pc. cbn [fst snd] in E_pc.
  pose proof (cf_flush_count _ _ _ _ _ F) as E_fc.
  pose proof (cf_stall_history _ _ _ _ _ F) as E_sh.
  rewrite Hstalled, E_id, Hlv in E_sh. cbn [orb negb andb] in E_sh.
  pose proof (cf_fetch _ _ _ _ _ F) as E_f.
  assert (halted s1 = false) as Hh1.
  { rewrite (cf_halted _ _ _ _ _ F), E_id, Hlv. rewrite andb_false_r. reflexivity. }
  rewrite Hh1 in R1. cbn [negb] in R1.
  split; [exact R1|].
  split; [rewrite E_id; repeat split; assumption|].
  split.
  - unfold redirects in E_if, E_fc. cbn [fst snd] in E_if, E_fc.
    destruct taken; cbn [orb Py.not_none] in E_if, E_fc.
    + repeat split; assumption.
    + rewrite Him in E_pc, E_f. rewrite E_if. repeat split; assumption.
  - intros Hsame. unfold taken, branch_decision. rewrite Hsame, Z.eqb_refl.
    destruct Hop as [-> | ->]; reflexivity.
Qed.

(** ADDI $r1, $r0, 5 and a BNQ $r1, $r0 that goes back to it: the branch
    compares the 5 that the ADDI computes in the same cycle and is taken. *)
Lemma branch_resolves_in_decode_witness :
  let self := steps 2 (load_program new ["3045"; "707E"; "3000"]) in
  let s1 := state_of (step self) in
  (halted self = false /\ stall self = false /\ IfId.valid (IF_ID self) = true
   /\ IfId.instruction (IF_ID self) = Some "707E" /\ Py.int16 "707E" = Some 28798
   /\ code_opcode 28798 = 7 /\ no_load_ahead self = true)
  /\ step self = Returned true s1
  /\ pc s1 = 0 /\ IF_ID s1 = _empty_if_id /\ flush_count s1 = flush_count self + 1.
Proof.
  intros self s1.
  assert (halted self = false) as Hh by (vm_compute; reflexivity).
  assert (stall self = false) as Hst by (vm_compute; reflexivity).
  assert (IfId.valid (IF_ID self) = true) as Hv by (vm_compute; reflexivity).
  assert (IfId.instruction (IF_ID self) = Some "707E") as Hi by (vm_compute; reflexivity).
  assert (Py.int16 "707E" = Some 28798) as Hc by (vm_compute; reflexivity).
  assert (code_opcode 28798 = 7) as Hop by (vm_compute; reflexivity).
  assert (no_load_ahead self = true) as Hno by (vm_compute; reflexivity).
  destruct (branch_resolves_in_decode ["3045"; "707E"; "3000"] 2 28798 "707E"
              Hh Hst Hv Hi Hc (or_intror Hop) Hno)
    as (regs & Hregs & R1 & _ & Hbranch & _).
  subst s1 self.
  set (self := steps 2 (load_program new ["3045"; "707E"; "3000"])) in *.
  assert (regs = [0; 0; 0; 0; 0; 0; 0; 0]) as ->
    by (assert (wb_registers self = Some [0; 0; 0; 0; 0; 0; 0; 0]) as E
          by (vm_compute; reflexivity); congruence).
  assert (branch_decision self [0; 0; 0; 0; 0; 0; 0; 0] 28798 = true) as Ht
    by (vm_compute; reflexivity).
  rewrite Ht in Hbranch. destruct Hbranch as (Hpc & Hif & Hfc).
  assert (IfId.pc (IF_ID self) + 1 + code_imm 28798 = 0) as Htarget
    by (vm_compute; reflexivity).
  rewrite Htarget in Hpc.
  exact (conj (conj Hh (conj Hst (conj Hv (conj Hi (conj Hc (conj Hop Hno))))))
           (conj R1 (conj Hpc (conj Hif Hfc)))).
Defined.

(** ** Jump register *)

(** A JR in IF/ID of a running CPU, with no load in the two stages
    ahead. When the instruction in ID/EX writes the register of the JR, the
    JR waits one cycle: [step] returns [True], holds IF/ID, puts a bubble in
    ID/EX, records the stall and counts no flush. Otherwise the JR is
    resolved in the decode of this cycle: the program counter becomes the
    value of the register, with the results still in the pipeline
    forwarded, the instruction fetched behind the JR is flushed and
    [flush_count] grows by one. A JR writes no register and no memory. *)
Theorem jr_jumps_to_register (machine_codes : list string) (k : nat)
    (code : Z) (w : string) :
  let self := steps k (load_program new machine_codes) in
  let s1 := state_of (step self) in
  halted self = false ->
  stall self = false ->
  IfId.valid (IF_ID self) = true ->
  IfId.instruction (IF_ID self) = Some w ->
  Py.int16 w = Some code ->
  code_opcode code = 0 -> code_funct code = 5 ->
  no_load_ahead self = true ->
  exists regs : list Z,
    wb_registers self = Some regs
    /\ step self = Returned true s1
    /\ registers s1 = regs
    /\ if jr_waits self (code_rs code)
       then IF_ID s1 = IF_ID self /\ ID_EX s1 = _empty_id_ex
            /\ pc s1 = IfId.pc (IF_ID self) + 1
            /\ flush_count s1 = flush_count self
            /\ stall_history s1 = (stall_history self ++ [cycle self + 1])%list
       else pc s1 = branch_operand self regs (code_rs code)
            /\ IF_ID s1 = _empty_if_id
            /\ (IdEx.instruction (ID_EX s1) = Some w /\ IdEx.reg_write (ID_EX s1) = false
                /\ IdEx.mem_write (ID_EX s1) = false)
            /\ flush_count s1 = flush_count self + 1
            /\ stall_history s1 = stall_history self.
Proof.
  intros self s1 Hh Hst Hv Hi Hc Hop Hf Hno.
  assert (reachable self) as Hreach by (apply steps_reachable; constructor).
  assert (well_formed self) as Hwf0 by (apply well_formed_reachable; assumption).
  destruct (fetch_point_reachable _ Hreach Hv) as (Hfetched & Hpc0).
  assert (step self = Returned (negb (halted s1)) s1) as R1
    by (apply step_returns; [assumption | assumption | lia]).
  clearbody s1.
  pose proof R1 as S1.
  apply step_returned in S1 as (regs & d & f & F); [|assumption].
  exists regs. split; [apply (cf_wb _ _ _ _ _ F)|].
  pose proof (cf_decode _ _ _ _ _ F) as Hd.
  unfold decode_of_cycle in Hd. rewrite (cf_wb _ _ _ _ _ F) in Hd.
  cbn [mbind option_bind] in Hd.
  assert (length regs = 8%nat) as Hlen.
  { destruct (write_back_total (registers self) (MEM_WB self))
      as (regs' & Hret & Hlen'); [apply wf_length, Hwf0 | apply wf_mem_wb, Hwf0 |].
    pose proof (cf_wb _ _ _ _ _ F) as Hwb. unfold wb_registers in Hwb.
    rewrite Hret in Hwb. injection Hwb as <-. exact Hlen'. }
  destruct (decode_jr self regs w code Hlen Hv Hi Hc Hop Hf Hno)
    as (l & info & Hl & Hlv & Hli & Hlj & Hlw & Hlmr & Hlmw & _).
  rewrite Hl in Hd. injection Hd as <-.
  pose proof (cf_IF_ID _ _ _ _ _ F) as E_if.
  pose proof (cf_ID_EX _ _ _ _ _ F) as E_id.
  pose proof (cf_pc _ _ _ _ _ F) as E_pc.
  pose proof (cf_flush_count _ _ _ _ _ F) as E_fc.
  pose proof (cf_stall_history _ _ _ _ _ F) as E_sh.
  pose proof (cf_halted _ _ _ _ _ F) as E_h.
  pose proof (cf_registers _ _ _ _ _ F) as E_r.
  destruct (jr_waits self (code_rs code)).
  - unfold stalled, redirects in *. cbn [fst snd Py.not_none orb] in *.
    assert (halted s1 = false) as Hh1
      by (rewrite E_h, E_if, Hv; reflexivity).
    rewrite Hh1 in R1. cbn [negb] in R1.
    split; [exact R1|]. split; [exact E_r|].
    repeat apply conj; assumption.
  - unfold stalled, redirects in *. cbn [fst snd Py.not_none orb] in *.
    rewrite Hst in *. rewrite E_id, Hlv in E_sh. cbn [orb negb andb] in E_sh.
    assert (halted s1 = false) as Hh1
      by (rewrite E_h, E_id, Hlv, andb_false_r; reflexivity).
    rewrite Hh1 in R1. cbn [negb] in R1.
    split; [exact R1|]. split; [exact E_r|].
    rewrite E_id. repeat apply conj; assumption.
Qed.

(** JAL 2 at address 0 and JR $r7 at address 2: the JR, decoded in the
    fourth cycle while the JAL is in EX/MEM, returns to address 1. *)
Lemma jr_jumps_to_register_witness :
  let self := steps 3 (load_program new ["A002"; "3045"; "0E05"]) in
  let s1 := state_of (step self) in
  (halted self = false /\ stall self = false /\ IfId.valid (IF_ID self) = true
   /\ IfId.instruction (IF_ID self) = Some "0E05" /\ Py.int16 "0E05" = Some 3589
   /\ code_opcode 3589 = 0 /\ code_funct 3589 = 5 /\ no_load_ahead self = true)
  /\ step self = Returned true s1
  /\ pc s1 = 1 /\ IF_ID s1 = _empty_if_id /\ flush_count s1 = flush_count self + 1.
Proof.
  intros self s1.
  assert (halted self = false) as Hh by (vm_compute; reflexivity).
  assert (stall self = false) as Hst by (vm_compute; reflexivity).
  assert (IfId.valid (IF_ID self) = true) as Hv by (vm_compute; reflexivity).
  assert (IfId.instruction (IF_ID self) = Some "0E05") as Hi by (vm_compute; reflexivity).
  assert (Py.int16 "0E05" = Some 3589) as Hc by (vm_compute; reflexivity).
  assert (code_opcode 3589 = 0) as Hop by (vm_compute; reflexivity).
  assert (code_funct 3589 = 5) as Hf by (vm_compute; reflexivity).
  assert (no_load_ahead self = true) as Hno by (vm_compute; reflexivity).
  destruct (jr_jumps_to_register ["A002"; "3045"; "0E05"] 3 3589 "0E05"
              Hh Hst Hv Hi Hc Hop Hf Hno)
    as (regs & Hregs & R1 & _ & Hjr).
  subst s1 self.
  set (self := steps 3 (load_program new ["A002"; "3045"; "0E05"])) in *.
  assert (wb_registers self = Some [0; 0; 0; 0; 0; 0; 0; 0]) as E
    by (vm_compute; reflexivity).
  assert (regs = [0; 0; 0; 0; 0; 0; 0; 0]) as -> by congruence.
  assert (jr_waits self (code_rs 3589) = false) as Hw by (vm_compute; reflexivity).
  rewrite Hw in Hjr. destruct Hjr as (Hpc & Hif & _ & Hfc & _).
  assert (branch_operand self [0; 0; 0; 0; 0; 0; 0; 0] (code_rs 3589) = 1) as Ht
    by (vm_compute; reflexivity).
  rewrite Ht in Hpc.
  exact (conj (conj Hh (conj Hst (conj Hv (conj Hi (conj Hc (conj Hop (conj Hf Hno)))))))
           (conj R1 (conj Hpc (conj Hif Hfc)))).
Defined.

(** ** The snapshot of [get_state] *)

(** [get_state] shows the data memory under the decimal text of its
    addresses: the text of an address has the value stored there, and no
    other key is present. *)
Theorem get_state_data_memory (self : t) :
  (forall k : Z, State.data_memory (get_state self) !! Py.str k = data_memory self !! k)
  /\ (forall (s : string) (v : Z),
         State.data_memory (get_state self) !! s = Some v ->
         exists k : Z, s = Py.str k /\ data_memory self !! k = Some v).
Proof.
  pose proof str_inj as Hinj.
  cbn [get_state State.data_memory]. rewrite str_keys_kmap. split.
  - intros k. apply (lookup_kmap Py.str).
  - intros s v H. apply (lookup_kmap_Some Py.str) in H as (k & -> & Hk). eauto.
Qed.

(** A memory with the value 7 at address 4. *)
Lemma get_state_data_memory_witness :
  let self := set_data_memory {[4 := 7]} new in
  State.data_memory (get_state self) !! "4" = Some 7
  /\ exists k : Z, "4" = Py.str k /\ data_memory self !! k = Some 7.
Proof.
  intros self. destruct (get_state_data_memory self) as [H1 H2].
  assert (State.data_memory (get_state self) !! "4" = Some 7) as E
    by (exact (H1 4)).
  exact (conj E (H2 "4" 7 E)).
Defined.


(** ** Serialisation, field by field *)

(** [from_json] reads back every attribute that [to_json] writes, for
    any CPU; the attributes that are not written are those of a new
    CPU. *)
Theorem serialized_fields_round_trip (self : t) :
  exists restored : t,
    from_json (to_json self) = Some restored
    /\ (pc restored = pc self /\ cycle restored = cycle self
        /\ registers restored = registers self
        /\ data_memory restored = data_memory self
        /\ instruction_memory restored = instruction_memory self)
    /\ (IF_ID restored = IF_ID self /\ ID_EX restored = ID_EX self
        /\ EX_MEM restored = EX_MEM self /\ MEM_WB restored = MEM_WB self)
    /\ (halted restored = halted self /\ stall restored = stall self
        /\ flush_count restored = flush_count self)
    /\ (pipeline_history restored = pipeline_history self
        /\ stall_history restored = stall_history self
        /\ forward_history restored = forward_history self
        /\ _seen_in_if restored = _seen_in_if self
        /\ _seen_in_wb restored = _seen_in_wb self)
    /\ (forward_a restored = None /\ forward_b restored = None
        /\ stall_info restored = None /\ memory_warning restored = None
        /\ control_hazard restored = None /\ flush_occurred restored = false
        /\ if_id_was_held restored = false).
Proof.
  exists (restore self). split; [apply from_json_to_json|].
  repeat split; reflexivity.
Qed.

(** A tree without the keys that [from_json] reads with a default gives
    the CPU with the defaults: no stall, empty histories and sets, no
    flush; a tree without one of the keys that it indexes is refused. *)
Theorem from_json_defaults (self : t) :
  from_json (without_keys optional_keys (to_json self))
  = Some (set_stall false (set_pipeline_history [] (set_stall_history []
            (set_forward_history [] (set_flush_count 0 (set_seen_in_if ∅
               (set_seen_in_wb ∅ (restore self))))))))
  /\ forall k : string,
       In k required_keys -> from_json (without_keys [k] (to_json self)) = None.
Proof.
  split.
  - unfold from_json, to_json, without_keys, optional_keys.
    cbv [List.filter existsb negb fst String.eqb Ascii.eqb Bool.eqb orb].
    cbn [items mbind option_bind].
    unfold field, field_default. lookup_keys.
    cbn [mbind option_bind dec_int dec_bool].
    rewrite (dec_enc_list JInt dec_int) by reflexivity.
    rewrite dec_enc_data_memory.
    rewrite (dec_enc_list JStr dec_str) by reflexivity.
    rewrite dec_enc_if_id, dec_enc_id_ex, dec_enc_ex_mem, dec_enc_mem_wb.
    reflexivity.
  - intros k Hk. unfold required_keys in Hk. cbn [In] in Hk.
    repeat destruct Hk as [<-|Hk]; try contradiction;
      unfold from_json, to_json, without_keys;
      cbv [List.filter existsb negb fst String.eqb Ascii.eqb Bool.eqb orb];
      cbn [items mbind option_bind];
      unfold field, field_default; lookup_keys;
      cbn [mbind option_bind dec_int dec_bool];
      rewrite ?(dec_enc_list JInt dec_int) by reflexivity;
      rewrite ?dec_enc_data_memory;
      rewrite ?(dec_enc_list JStr dec_str) by reflexivity;
      rewrite ?dec_enc_if_id, ?dec_enc_id_ex, ?dec_enc_ex_mem, ?dec_enc_mem_wb;
      reflexivity.
Qed.

(** The tree of a new CPU without its program counter. *)
Lemma from_json_defaults_witness :
  In "pc" required_keys /\ from_json (without_keys ["pc"] (to_json new)) = None.
Proof.
  assert (In "pc" required_keys) as H by (left; reflexivity).
  destruct (from_json_defaults new) as [_ Hk].
  exact (conj H (Hk "pc" H)).
Defined.


(** * Properties of the views *)

(** ** Run all *)

(** [run_all] on a session that holds a CPU: the loop ends. When no call
    of [step] raises, the count [cycles_executed] of the response is the
    number [n] of calls that returned [True] before the loop ended, at most
    1000, while the CPU stored in the session has been stepped [n + 1]
    times: on a CPU that was not halted the cycle counter has grown by
    [n + 1]. Below the limit of 1000 the stored CPU is halted. The undo
    history is left as it was. When a call raises, the session is left as
    it was. *)
Theorem run_all_counts (s : session) (cpu_json : json) (cpu : t) :
  cpu_state s = Some cpu_json ->
  from_json cpu_json = Some cpu ->
  (exists n : nat,
      let final := steps (S n) cpu in
      (n <= 1000)%nat
      /\ run_all s
         = Some ({| cpu_state := Some (to_json final);
                    cpu_state_history := cpu_state_history s |},
                 RunResponse (get_state final) (Z.of_nat n) (halted final))
      /\ loop_calls cpu n
      /\ ((n < 1000)%nat -> halted final = true)
      /\ (halted cpu = false -> cycle final = cycle cpu + Z.of_nat n + 1))
  \/ (run_all s = Some (s, ExceptionResponse "Execution error")
      /\ exists (i : nat) (c : t), (i <= 1000)%nat /\ step (steps i cpu) = Raised c).
Proof.
  intros Hs Hj. unfold run_all. rewrite Hs, Hj.
  destruct (run_loop_spec 1001 cpu 0)
    as [(m & Hm & Hrun & Hcalls & Hhalt)|(Hrun & i & c & Hi & Hraise)]; [lia | lia | |].
  - left. exists m. cbv zeta. change (Z.of_nat 0) with 0 in Hrun.
    rewrite Hrun. cbn [mbind option_bind]. rewrite Nat.add_0_l in *.
    split; [exact Hm|]. split; [reflexivity|]. split; [exact Hcalls|].
    split; [exact Hhalt|].
    intros Hh. rewrite (loop_calls_cycle cpu m Hh Hcalls (S m)) by lia. lia.
  - right. change (Z.of_nat 0) with 0 in Hrun. rewrite Hrun. cbn [mbind option_bind].
    split; [reflexivity|]. exists i, c. split; [lia | exact Hraise].
Qed.

(** ADDI $r2, $r0, 5 alone takes five cycles; [run_all] reports four. *)
Lemma run_all_counts_witness :
  let cpu := load_program new ["3085"] in
  let s := session_of cpu [] in
  (cpu_state s = Some (to_json cpu) /\ from_json (to_json cpu) = Some cpu)
  /\ run_all s
     = Some (session_of (steps 5 cpu) [], RunResponse (get_state (steps 5 cpu)) 4 true)
  /\ cycle (steps 5 cpu) = 5
  /\ ((exists n : nat,
          (n <= 1000)%nat
          /\ run_all s
             = Some ({| cpu_state := Some (to_json (steps (S n) cpu));
                        cpu_state_history := cpu_state_history s |},
                     RunResponse (get_state (steps (S n) cpu)) (Z.of_nat n)
                       (halted (steps (S n) cpu)))
          /\ loop_calls cpu n
          /\ ((n < 1000)%nat -> halted (steps (S n) cpu) = true)
          /\ (halted cpu = false -> cycle (steps (S n) cpu) = cycle cpu + Z.of_nat n + 1))
       \/ (run_all s = Some (s, ExceptionResponse "Execution error")
           /\ exists (i : nat) (c : t), (i <= 1000)%nat /\ step (steps i cpu) = Raised c)).
Proof.
  intros cpu s.
  assert (cpu_state s = Some (to_json cpu)) as Hs by reflexivity.
  assert (from_json (to_json cpu) = Some cpu) as Hj by (vm_compute; reflexivity).
  split; [exact (conj Hs Hj)|].
  split; [vm_compute; reflexivity|]. split; [vm_compute; reflexivity|].
  exact (run_all_counts s (to_json cpu) cpu Hs Hj).
Defined.

(** ** Step and step back *)

(** [step_back_cpu] undoes [step_cpu]: after the two requests the session
    holds the CPU state it held before, whatever the step did, and the undo
    history it had before, without its oldest entries when it already had
    more than 99. The response shows the restored CPU. *)
Theorem step_back_undoes_step (s : session) (cpu_json : json) (cpu : t) :
  cpu_state s = Some cpu_json ->
  from_json cpu_json = Some cpu ->
  let state_history := state_history_of s in
  let kept := drop (length state_history - 99) state_history in
  step_back_cpu (step_cpu s).1
  = ({| cpu_state := Some cpu_json; cpu_state_history := Some kept |},
     StepResponse (get_state cpu) (negb (halted cpu)) (0 <? len kept))
  /\ ((length state_history <= 99)%nat -> kept = state_history).
Proof.
  intros Hs Hj state_history kept. split.
  - pose proof (step_cpu_history s cpu_json Hs) as Hh.
    fold state_history in Hh. fold kept in Hh.
    unfold step_back_cpu, state_history_of. rewrite Hh. cbn [from_option id].
    rewrite last_snoc, length_app. cbn [length].
    replace (length kept + 1 - 1)%nat with (length kept) by lia.
    rewrite take_app_length, Hj. reflexivity.
  - intros Hle. unfold kept. replace (length state_history - 99)%nat with 0%nat by lia.
    reflexivity.
Qed.

(** One step of ADDI $r2, $r0, 5 and back. *)
Lemma step_back_undoes_step_witness :
  let cpu := load_program new ["3085"] in
  let s := session_of cpu [] in
  (cpu_state s = Some (to_json cpu) /\ from_json (to_json cpu) = Some cpu)
  /\ cpu_state (step_cpu s).1 = Some (to_json (steps 1 cpu))
  /\ step_back_cpu (step_cpu s).1
     = (s, StepResponse (get_state cpu) true false).
Proof.
  intros cpu s.
  assert (cpu_state s = Some (to_json cpu)) as Hs by reflexivity.
  assert (from_json (to_json cpu) = Some cpu) as Hj by (vm_compute; reflexivity).
  split; [exact (conj Hs Hj)|]. split; [vm_compute; reflexivity|].
  destruct (step_back_undoes_step s (to_json cpu) cpu Hs Hj) as [H _].
  exact H.
Defined.

(** The undo history never grows beyond 100 states: whatever requests
    follow each other, a session whose history has at most 100 entries
    keeps at most 100. *)
Theorem undo_history_bounded (requests : list view) (s : session) :
  len (state_history_of s) <= 100 ->
  len (state_history_of (foldl serve s requests)) <= 100.
Proof.
  revert s. induction requests as [|v requests IH]; intros s Hs; [exact Hs|].
  cbn [foldl]. apply IH. unfold len in *. destruct v; cbn [serve].
  - destruct (cpu_state s) as [cpu_json|] eqn:E.
    + unfold state_history_of at 1. rewrite (step_cpu_history s cpu_json E).
      cbn [from_option id]. rewrite length_app, length_drop. cbn [length]. lia.
    + unfold step_cpu. rewrite E. exact Hs.
  - unfold step_back_cpu.
    destruct (last (state_history_of s)) as [previous|]; [|exact Hs].
    assert (forall r : response,
               Z.of_nat (length (state_history_of
                 ({| cpu_state := Some previous;
                     cpu_state_history :=
                       Some (take (length (state_history_of s) - 1) (state_history_of s)) |},
                  r).1)) <= 100) as H.
    { intros r. cbn [fst state_history_of cpu_state_history from_option id].
      rewrite length_take. lia. }
    destruct (from_json previous); apply H.
  - unfold reset_cpu. destruct (cpu_state s) as [cpu_json|]; [|exact Hs].
    destruct (from_json cpu_json); [cbn; lia | exact Hs].
  - unfold run_all. destruct (cpu_state s) as [cpu_json|]; [|exact Hs].
    destruct (from_json cpu_json) as [cpu|]; [|exact Hs].
    destruct (run_loop 1001 cpu 0) as [[[c n]|]|]; exact Hs.
Qed.

(** 101 steps on an empty history. *)
Lemma undo_history_bounded_witness :
  let s := session_of (load_program new ["3085"]) [] in
  len (state_history_of s) <= 100
  /\ len (state_history_of (foldl serve s (replicate 101 StepCpu))) <= 100.
Proof.
  intros s.
  assert (len (state_history_of s) <= 100) as H by (vm_compute; discriminate).
  exact (conj H (undo_history_bounded (replicate 101 StepCpu) s H)).
Defined.

(** ** Reset *)

(** [reset_cpu] on the session of a program that was loaded and stepped
    any number of times leaves the session of the program freshly loaded,
    with an empty undo history. *)
Theorem reset_reloads_program (machine_codes : list string) (n : nat)
    (state_history : list json) :
  reset_cpu (session_of (steps n (load_program new machine_codes)) state_history)
  = (session_of (load_program new machine_codes) [],
     ResetResponse (get_state (load_program new machine_codes))).
Proof.
  unfold reset_cpu, session_of. cbn [cpu_state]. rewrite from_json_to_json.
  assert (reset_keeping_program (restore (steps n (load_program new machine_codes)))
          = load_program new machine_codes) as ->; [|reflexivity].
  unfold reset_keeping_program. cbv zeta.
  change (instruction_memory (restore ?x)) with (instruction_memory x).
  rewrite instruction_memory_steps. reflexivity.
Qed.
